(** * Duplicate-snapshot change-log reconstruction

    A shallow embedding of [tools/find_diff_2.py] and [tools/find_diff_1.py]:
    the timestamp resolver [pick_change_dt], the path formatter
    [path_to_field], the comparison loop over the snapshots of one
    [policy_id], and the part of the third-party [deepdiff] library the two
    scripts call ([DeepDiff(base, other, ignore_order=True, exclude_paths=...)]
    read through its text view); and of [tools/generate_data_for_ai.py]: the
    field-name resolver, the tracker of missing codes, the loaders of the
    mapping files, the translation of code values and the cells of the
    table that is written.

    Conventions.
    - A Python [str] is a [string]; one [ascii] stands for one code point
      below 256.
    - A Python [int] is a [Z]; list positions and [compare_seq] are [nat].
    - A Python [dict] is an association list in insertion order, looked up by
      its first matching key.
    - [None] as a function result is [option]'s [None]. *)

From Stdlib Require Import List String Ascii Bool Arith ZArith Lia.
From Stdlib Require Import Permutation DecimalString.
From Stdlib Require Import Sorted DecimalNat.
Import ListNotations.
Open Scope string_scope.
Open Scope list_scope.

(** ** Text primitives of Python used by the scripts *)

Module PyText.

(** [str.isspace] on one code point below 256. *)
Definition is_space (c : ascii) : bool :=
  let n := nat_of_ascii c in
  (Nat.leb 9 n && Nat.leb n 13) || (Nat.leb 28 n && Nat.leb n 32)
  || Nat.eqb n 133 || Nat.eqb n 160.

Fixpoint lstrip (s : string) : string :=
  match s with
  | String c tl => if is_space c then lstrip tl else s
  | EmptyString => EmptyString
  end.

Fixpoint rstrip (s : string) : string :=
  match s with
  | String c tl =>
      match rstrip tl with
      | EmptyString => if is_space c then EmptyString else String c EmptyString
      | r => String c r
      end
  | EmptyString => EmptyString
  end.

(** [s.strip()] *)
Definition strip (s : string) : string := rstrip (lstrip s).

(** [s[n:]] *)
Fixpoint drop (n : nat) (s : string) : string :=
  match n, s with
  | S k, String _ tl => drop k tl
  | _, _ => s
  end.

(** [s[:n]] *)
Fixpoint take (n : nat) (s : string) : string :=
  match n, s with
  | S k, String c tl => String c (take k tl)
  | _, _ => EmptyString
  end.

(** [s.replace(old, new)] for a non-empty [old]: occurrences are replaced
    from the left and do not overlap.  [skip] counts the characters of an
    occurrence already replaced that remain to be passed over. *)
Fixpoint replace_aux (old new : string) (skip : nat) (s : string) : string :=
  match s with
  | EmptyString => EmptyString
  | String c tl =>
      match skip with
      | S k => replace_aux old new k tl
      | O =>
          if prefix old s
          then new ++ replace_aux old new (String.length old - 1) tl
          else String c (replace_aux old new 0 tl)
      end
  end.

Definition replace (old new s : string) : string := replace_aux old new 0 s.

(** [c in s] *)
Fixpoint has_char (c : ascii) (s : string) : bool :=
  match s with
  | EmptyString => false
  | String d tl => Ascii.eqb c d || has_char c tl
  end.

(** [s.count(c)] for one character. *)
Fixpoint count_char (c : ascii) (s : string) : nat :=
  match s with
  | EmptyString => 0
  | String d tl => (if Ascii.eqb c d then 1 else 0) + count_char c tl
  end.

(** [sep.join(parts)] *)
Definition join (sep : string) (parts : list string) : string :=
  String.concat sep parts.

(** [str(n)] for an [int]. *)
Definition str_of_Z (z : Z) : string := NilZero.string_of_int (Z.to_int z).

Definition str_of_nat (n : nat) : string :=
  NilZero.string_of_uint (Nat.to_uint n).

(** Zero-padded decimal of width [w], as the [%02d] and [%04d] of
    [datetime.isoformat]. *)
Fixpoint zeros (n : nat) : string :=
  match n with O => EmptyString | S k => String "0" (zeros k) end.

Definition pad (w n : nat) : string :=
  let d := str_of_nat n in zeros (w - String.length d) ++ d.

End PyText.

(** ** The regular expression of [path_to_field]

    [re.findall(r"\['([^]]+)'\]", path)]: the list of the captured groups of
    the successive leftmost matches, which do not overlap. *)

Module PathRegex.
Import PyText.

Definition rbracket : ascii := "]"%char.
Definition lbracket : ascii := "["%char.
Definition quote : ascii := "'"%char.

(** Length of the longest prefix of [s] made of characters other than "]":
    what the greedy [[^]]+] consumes first. *)
Fixpoint run_length (s : string) : nat :=
  match s with
  | String c tl => if Ascii.eqb c rbracket then 0 else S (run_length tl)
  | EmptyString => 0
  end.

(** Backtracking: the group is tried at [m] characters, then [m-1], ...,
    down to one character; it succeeds at the first length followed by
    "']". *)
Fixpoint try_lengths (m : nat) (body : string) : option string :=
  match m with
  | O => None
  | S k =>
      if prefix "']" (drop m body) then Some (take m body)
      else try_lengths k body
  end.

(** A match that starts at the first character of [s]. *)
Definition match_here (s : string) : option string :=
  match s with
  | String c1 (String c2 body) =>
      if Ascii.eqb c1 lbracket && Ascii.eqb c2 quote
      then try_lengths (run_length body) body
      else None
  | _ => None
  end.

(** The scan; [skip] counts the characters of the last match still to be
    passed over (a match with group [g] is [String.length g + 4] long). *)
Fixpoint findall_aux (skip : nat) (s : string) : list string :=
  match s with
  | EmptyString => []
  | String _ tl =>
      match skip with
      | S k => findall_aux k tl
      | O =>
          match match_here s with
          | Some g => g :: findall_aux (String.length g + 3) tl
          | None => findall_aux 0 tl
          end
      end
  end.

Definition findall (s : string) : list string := findall_aux 0 s.

End PathRegex.

(** ** Path formatter *)

(** [path_to_field] of find_diff_2.py. *)
Definition path_to_field (path : string) : string :=
  let parts := PathRegex.findall path in
  match parts with
  | _ :: _ =>
      let parts :=
        match parts with
        | p0 :: rest => if String.eqb p0 "raw_json" then rest else parts
        | [] => parts
        end in
      match parts with
      | _ :: _ => PyText.join "." parts
      | [] => "root"
      end
  | [] =>
      PyText.strip
        (PyText.replace "root" ""
           (PyText.replace "root." ""
              (PyText.replace "root['raw_json']" "" path)))
  end.

(** The field text of find_diff_1.py (line 61):
    [path.replace("root['raw_json']", "").replace("root", "").strip()]. *)
Definition field_of_path_v1 (path : string) : string :=
  PyText.strip
    (PyText.replace "root" "" (PyText.replace "root['raw_json']" "" path)).

(** ** Values held by a snapshot

    A snapshot is one row of the landing table turned into a [dict] by
    [to_dict(orient="records")]: a column holds a typed timestamp
    ([pandas.Timestamp]), a [datetime.datetime], or a JSON-like value
    ([None], [bool], [int], [str], [list], [dict]; the [raw_json] column
    holds the decoded payload), or the NaN that pandas puts in place of a SQL
    NULL in a numeric column.  NaN is a [float]; [to_dict] makes a new float
    object for every cell, and [o] names the object: NaN differs from every
    float, itself included, and only one and the same object is taken as
    unchanged by the comparison.  Other floating-point numbers, and the NaT
    of a timestamp column, are not modelled. *)

#[local] Unset Elimination Schemes.
Inductive json : Type :=
  | JNone
  | JBool (b : bool)
  | JInt (z : Z)
  | JStr (s : string)
  | JList (l : list json)
  | JDict (d : list (string * json)).
#[local] Set Elimination Schemes.

(** A naive [datetime.datetime]. *)
Record datetime : Type := mkDatetime {
  year : nat; month : nat; day : nat;
  hour : nat; minute : nat; second : nat; microsecond : nat }.

(** A naive [pandas.Timestamp]: a datetime with nanoseconds. *)
Record Timestamp : Type := mkTimestamp {
  ts_datetime : datetime; nanosecond : nat }.

Inductive value : Type :=
  | VJson (j : json)
  | VTimestamp (t : Timestamp)
  | VDatetime (d : datetime)
  | VNaN (o : nat).

Definition record : Type := list (string * value).

(** What a reported difference can hold: a column value or anything below
    it, or a whole snapshot (a difference reported at the root). *)
Inductive pyobj : Type :=
  | Cell (v : value)
  | Row (r : record)
  | notpresent.

Definition datetime_eqb (a b : datetime) : bool :=
  Nat.eqb (year a) (year b) && Nat.eqb (month a) (month b)
  && Nat.eqb (day a) (day b) && Nat.eqb (hour a) (hour b)
  && Nat.eqb (minute a) (minute b) && Nat.eqb (second a) (second b)
  && Nat.eqb (microsecond a) (microsecond b).

Definition Timestamp_eqb (a b : Timestamp) : bool :=
  datetime_eqb (ts_datetime a) (ts_datetime b)
  && Nat.eqb (nanosecond a) (nanosecond b).

(** [d.get(key)]: [None] stands for Python's [None] returned for a missing
    key. *)
Fixpoint get {A : Type} (key : string) (d : list (string * A)) : option A :=
  match d with
  | [] => None
  | (k, v) :: tl => if String.eqb key k then Some v else get key tl
  end.

(** [enumerate(l, start)] *)
Fixpoint enumerate {B : Type} (start : nat) (l : list B) : list (nat * B) :=
  match l with
  | [] => []
  | b :: tl => (start, b) :: enumerate (S start) tl
  end.

(** [key in d] *)
Definition has_key {A : Type} (key : string) (d : list (string * A)) : bool :=
  match get key d with Some _ => true | None => false end.

(** Truth value of an object, as [or] and [if] test it. *)
Definition truthy_json (j : json) : bool :=
  match j with
  | JNone => false
  | JBool b => b
  | JInt z => negb (Z.eqb z 0)
  | JStr s => negb (String.eqb s "")
  | JList l => match l with [] => false | _ => true end
  | JDict d => match d with [] => false | _ => true end
  end.

Definition truthy (v : value) : bool :=
  match v with
  | VJson j => truthy_json j
  | VTimestamp _ | VDatetime _ | VNaN _ => true
  end.

(** ** [repr] and [str] of JSON-like values *)

Module PyRepr.
Import PyText.

Definition dquote : ascii := ascii_of_nat 34.
Definition squote : ascii := "'"%char.
Definition backslash : ascii := ascii_of_nat 92.

Definition hex_digit (n : nat) : ascii :=
  if Nat.ltb n 10 then ascii_of_nat (48 + n) else ascii_of_nat (87 + n).

(** [str.isprintable] on one code point below 256. *)
Definition printable (c : ascii) : bool :=
  let n := nat_of_ascii c in
  (Nat.leb 32 n && Nat.leb n 126)
  || (Nat.leb 161 n && negb (Nat.eqb n 173)).

Definition escape_char (q c : ascii) : string :=
  let n := nat_of_ascii c in
  if Ascii.eqb c backslash then String backslash (String backslash "")
  else if Ascii.eqb c q then String backslash (String q "")
  else if Nat.eqb n 9 then String backslash "t"
  else if Nat.eqb n 10 then String backslash "n"
  else if Nat.eqb n 13 then String backslash "r"
  else if printable c then String c ""
  else String backslash
         (String "x" (String (hex_digit (n / 16)) (String (hex_digit (n mod 16)) ""))).

Fixpoint escape (q : ascii) (s : string) : string :=
  match s with
  | EmptyString => EmptyString
  | String c tl => escape_char q c ++ escape q tl
  end.

(** [repr(s)] for a [str]: single quotes unless the text holds a single
    quote and no double quote. *)
Definition repr_str (s : string) : string :=
  let q := if has_char squote s && negb (has_char dquote s)
           then dquote else squote in
  String q (escape q s ++ String q "").

Fixpoint repr_json (j : json) : string :=
  match j with
  | JNone => "None"
  | JBool true => "True"
  | JBool false => "False"
  | JInt z => str_of_Z z
  | JStr s => repr_str s
  | JList l => "[" ++ join ", " (map repr_json l) ++ "]"
  | JDict d =>
      "{" ++ join ", "
               (map (fun kv => (repr_str (fst kv) ++ ": " ++ repr_json (snd kv))%string) d)
          ++ "}"
  end.

(** [str(j)]: a text is itself, anything else prints as its [repr]. *)
Definition str_json (j : json) : string :=
  match j with
  | JStr s => s
  | _ => repr_json j
  end.

End PyRepr.

(** ** Timestamp resolver *)

(** [datetime.isoformat()] of a naive datetime: the fraction is printed only
    when the microseconds are not zero. *)
Definition isoformat (d : datetime) : string :=
  PyText.pad 4 (year d) ++ "-" ++ PyText.pad 2 (month d) ++ "-"
  ++ PyText.pad 2 (day d) ++ "T" ++ PyText.pad 2 (hour d) ++ ":"
  ++ PyText.pad 2 (minute d) ++ ":" ++ PyText.pad 2 (second d)
  ++ (if Nat.eqb (microsecond d) 0 then ""
      else "." ++ PyText.pad 6 (microsecond d)).

(** [Timestamp.to_pydatetime()]: the nanoseconds are dropped. *)
Definition to_pydatetime (t : Timestamp) : datetime := ts_datetime t.

(** [a or b] on the results of two [dict.get] calls. *)
Definition py_or (a b : option value) : option value :=
  match a with
  | Some v => if truthy v then a else b
  | None => b
  end.

(** [str(cand).strip()] *)
Definition to_text (v : value) : string :=
  match v with
  | VJson j => PyText.strip (PyRepr.str_json j)
  | VTimestamp t => isoformat (to_pydatetime t)
  | VDatetime d => isoformat d
  | VNaN _ => PyText.strip "nan"
  end.

(** [pick_change_dt] of find_diff_2.py.  A key that holds [None] and a
    missing key both make [record.get] return [None]. *)
Definition pick_change_dt (r : record) : option string :=
  let cand := py_or (get "lastMdfcnDt" r) (get "ingested_at" r) in
  match cand with
  | None | Some (VJson JNone) => None
  | Some (VTimestamp t) => Some (isoformat (to_pydatetime t))
  | Some (VDatetime d) => Some (isoformat d)
  | Some (VJson j) => Some (PyText.strip (PyRepr.str_json j))
  | Some (VNaN _) => Some (PyText.strip "nan")
  end.

(** ** The part of the deepdiff library the scripts call

    [DeepDiff(t1, t2, ignore_order=True, exclude_paths=[...])] on two
    snapshots, every other option at its default, read through the text view.
    The library is not part of the repository; this section follows its
    documented behaviour.  What differs between releases is a parameter:
    - [pairing]: with [ignore_order] the library may pair an item removed
      from a list with an item added to it (by a distance heuristic) and
      compare the two instead of reporting a removal and an addition; the
      pairs are given as (position in t1, position in t2);
    - [thr_a], [thr_b]: [threshold_to_diff_deeper] is [thr_a / (thr_a + thr_b)];
      two dicts sharing a smaller fraction of their keys are reported as one
      changed value (a release without this option behaves as with
      [thr_a = 0]).
    Equality of [DeepHash] digests is modelled as equality of the hashed
    contents ([same_hash]). *)

Module DeepDiffLib.
Import PyText.

Inductive seg : Type :=
  | Key (k : string)
  | Idx (i : nat).

Definition path : Type := list seg.

(** How a dict key is quoted inside a path:
    [stringify_element(param, quote_str="'{}'")], as the path of a dict item
    calls it.  A key that holds a single quote is put in double quotes, any
    other key in single quotes; nothing is escaped. *)
Definition stringify_element (k : string) : string :=
  let has_quote := has_char PyRepr.squote k in
  if has_quote then
    String PyRepr.dquote (k ++ String PyRepr.dquote "")
  else
    String PyRepr.squote (k ++ String PyRepr.squote "").

Definition seg_str (s : seg) : string :=
  match s with
  | Key k => "[" ++ stringify_element k ++ "]"
  | Idx i => "[" ++ str_of_nat i ++ "]"
  end.

(** [level.path()], e.g. [root['raw_json']['tags'][1]]. *)
Definition path_str (p : path) : string :=
  "root" ++ String.concat "" (map seg_str p).

Inductive report_type : Type :=
  | values_changed
  | type_changes
  | dictionary_item_added
  | dictionary_item_removed
  | iterable_item_added
  | iterable_item_removed.

Definition report_type_eqb (a b : report_type) : bool :=
  match a, b with
  | values_changed, values_changed
  | type_changes, type_changes
  | dictionary_item_added, dictionary_item_added
  | dictionary_item_removed, dictionary_item_removed
  | iterable_item_added, iterable_item_added
  | iterable_item_removed, iterable_item_removed => true
  | _, _ => false
  end.

(** One reported difference of the tree view. *)
Record level : Type := mkLevel {
  report : report_type;
  lpath : path;
  lv_t1 : pyobj;
  lv_t2 : pyobj }.

(** One entry of the text view: [{'old_value': ..., 'new_value': ...}]. *)
Record change : Type := mkChange {
  old_value : pyobj;
  new_value : pyobj }.

(** The text view: report type name to the reported paths, each with its
    old and new value; a report type with nothing to report is absent. *)
Definition text_view : Type := list (string * list (string * change)).

Inductive pytype : Type :=
  | TNone | TBool | TInt | TStr | TList | TDict | TTimestamp | TDatetime
  | TFloat.

Definition pytype_eqb (a b : pytype) : bool :=
  match a, b with
  | TNone, TNone | TBool, TBool | TInt, TInt | TStr, TStr
  | TList, TList | TDict, TDict | TTimestamp, TTimestamp
  | TDatetime, TDatetime | TFloat, TFloat => true
  | _, _ => false
  end.

Definition type_of_json (j : json) : pytype :=
  match j with
  | JNone => TNone
  | JBool _ => TBool
  | JInt _ => TInt
  | JStr _ => TStr
  | JList _ => TList
  | JDict _ => TDict
  end.

Definition type_of (v : value) : pytype :=
  match v with
  | VJson j => type_of_json j
  | VTimestamp _ => TTimestamp
  | VDatetime _ => TDatetime
  | VNaN _ => TFloat
  end.

(** [ignore_private_variables] (default on): keys that start with two
    underscores are left out of every comparison. *)
Definition private (k : string) : bool := prefix "__" k.

(** Two items have the same [DeepHash] digest.  With [ignore_order] a list
    is hashed as the set of its item digests (repetition is ignored, since
    [report_repetition] is off), a dict as the set of its key and item
    digests; the type is part of the digest of a scalar.  The excluded paths
    of the scripts name columns, none of them a path inside a list, so the
    digest of a list item does not depend on them. *)
Fixpoint same_hash (a b : json) {struct a} : bool :=
  match a, b with
  | JNone, JNone => true
  | JBool x, JBool y => Bool.eqb x y
  | JInt x, JInt y => Z.eqb x y
  | JStr x, JStr y => String.eqb x y
  | JList l1, JList l2 =>
      (fix each (l : list json) : bool :=
         match l with
         | [] => true
         | x :: tl => existsb (same_hash x) l2 && each tl
         end) l1
      && forallb
           (fun y =>
              (fix any (l : list json) : bool :=
                 match l with
                 | [] => false
                 | x :: tl => same_hash x y || any tl
                 end) l1) l2
  | JDict d1, JDict d2 =>
      (fix each (d : list (string * json)) : bool :=
         match d with
         | [] => true
         | (k, x) :: tl =>
             (private k
              || existsb (fun kv => String.eqb k (fst kv) && same_hash x (snd kv)) d2)
             && each tl
         end) d1
      && forallb
           (fun kv =>
              private (fst kv)
              || (fix any (d : list (string * json)) : bool :=
                    match d with
                    | [] => false
                    | (k, x) :: tl =>
                        (String.eqb k (fst kv) && same_hash x (snd kv)) || any tl
                    end) d1) d2
  | _, _ => false
  end.

(** An item of t1 together with the comparison of that item against an item
    of t2 at a given path. *)
Definition differ (A : Type) : Type := path -> A -> list level.

Section Engine.

Variable exclude_paths : list string.
Variable pairing : path -> list json -> list json -> list (nat * nat).
Variables thr_a thr_b : nat.

(** [_skip_this]: the path of the level is one of [exclude_paths]. *)
Definition skip_this (p : path) : bool :=
  existsb (String.eqb (path_str p)) exclude_paths.

(** [_report_result] *)
Definition report_result (ty : report_type) (p : path)
    (a b : pyobj) : list level :=
  if skip_this p then [] else [mkLevel ty p a b].

(** The test of [threshold_to_diff_deeper] in [_diff_dict]: more than one
    key in the union of the keys (excluded paths left out) and a fraction of
    shared keys below the threshold. *)
Definition too_different (p : path) (t1_keys t2_keys : list string) : bool :=
  let t_keys_intersect :=
    filter (fun k => existsb (String.eqb k) t1_keys) t2_keys in
  let t_keys_union :=
    filter
      (fun k =>
         negb (existsb
                 (String.eqb (path_str p ++ "[" ++ PyRepr.repr_str k ++ "]"))
                 exclude_paths))
      (t2_keys ++ filter (fun k => negb (existsb (String.eqb k) t2_keys)) t1_keys) in
  let t_keys_union_len := List.length t_keys_union in
  Nat.ltb 1 t_keys_union_len
  && Nat.ltb (List.length t_keys_intersect * (thr_a + thr_b))
             (thr_a * t_keys_union_len).

(** The keys of a dict that take part in the comparison. *)
Definition visible_keys {A : Type} (d : list (string * A)) : list string :=
  filter (fun k => negb (private k)) (map fst d).

(** [_diff_dict], generic in the type of the items.  [t1] carries, for each
    key, the item and its comparison; [whole1] and [whole2] are the two
    dicts themselves.  Keys only in t2 are reported as added, keys only in
    t1 as removed, and the items of the shared keys are compared. *)
Definition diff_dict {A : Type} (embed : A -> pyobj) (p : path)
    (t1 : list (string * (A * differ A))) (t2 : list (string * A))
    (whole1 whole2 : pyobj) : list level :=
  let t1_keys := visible_keys t1 in
  let t2_keys := visible_keys t2 in
  let t_keys_intersect :=
    filter (fun k => existsb (String.eqb k) t1_keys) t2_keys in
  let t_keys_added :=
    filter (fun k => negb (existsb (String.eqb k) t_keys_intersect)) t2_keys in
  let t_keys_removed :=
    filter (fun k => negb (existsb (String.eqb k) t_keys_intersect)) t1_keys in
  if too_different p t1_keys t2_keys
  then report_result values_changed p whole1 whole2
  else
    flat_map
      (fun k =>
         match get k t2 with
         | Some b => report_result dictionary_item_added (p ++ [Key k])
                       notpresent (embed b)
         | None => []
         end) t_keys_added
    ++ flat_map
         (fun k =>
            match get k t1 with
            | Some (a, _) => report_result dictionary_item_removed (p ++ [Key k])
                               (embed a) notpresent
            | None => []
            end) t_keys_removed
    ++ flat_map
         (fun k =>
            match get k t1, get k t2 with
            | Some (_, diff_a), Some b => diff_a (p ++ [Key k]) b
            | _, _ => []
            end) t_keys_intersect.

(** [_create_hashtable]: one entry per digest, holding the first position
    and the item found there. *)
Fixpoint hashtable {B : Type} (item : B -> json) (seen : list json)
    (l : list (nat * B)) : list (nat * B) :=
  match l with
  | [] => []
  | (i, b) :: tl =>
      if existsb (fun s => same_hash s (item b)) seen
      then hashtable item seen tl
      else (i, b) :: hashtable item (seen ++ [item b]) tl
  end.

(** [get_other_pair]: the removed item, still unused, that [pairs] gives
    to the added item at position [i2]. *)
Definition get_other_pair (pairs : list (nat * nat))
    (removed : list (nat * (json * differ json))) (i2 : nat)
    : option (nat * (json * differ json)) :=
  match
    find (fun pr => Nat.eqb (snd pr) i2
                    && existsb (fun r => Nat.eqb (fst r) (fst pr)) removed)
         pairs
  with
  | Some pr => find (fun r => Nat.eqb (fst r) (fst pr)) removed
  | None => None
  end.

(** The loop over [hashes_added]: an item paired with a removed item still
    unused is compared with it at the position of the removed item; any
    other item is reported as added at its own position.  Returns the
    reports and the removed items left unpaired. *)
Fixpoint diff_added (p : path) (pairs : list (nat * nat))
    (removed : list (nat * (json * differ json)))
    (added : list (nat * json))
    : list level * list (nat * (json * differ json)) :=
  match added with
  | [] => ([], removed)
  | (i2, b) :: tl =>
      match get_other_pair pairs removed i2 with
      | Some (i1, (_, diff_a)) =>
          let rest :=
            diff_added p pairs
              (filter (fun r => negb (Nat.eqb (fst r) i1)) removed) tl in
          (diff_a (p ++ [Idx i1]) b ++ fst rest, snd rest)
      | None =>
          let rest := diff_added p pairs removed tl in
          (report_result iterable_item_added (p ++ [Idx i2])
             notpresent (Cell (VJson b)) ++ fst rest, snd rest)
      end
  end.

(** [_diff_iterable_with_deephash] without [report_repetition]. *)
Definition diff_iterable (p : path)
    (t1 : list (json * differ json)) (t2 : list json) : list level :=
  let l1 := map fst t1 in
  let full_t1 := hashtable fst [] (enumerate 0 t1) in
  let full_t2 := hashtable (fun b => b) [] (enumerate 0 t2) in
  let hashes_added :=
    filter (fun e => negb (existsb (fun a => same_hash a (snd e)) l1)) full_t2 in
  let hashes_removed :=
    filter (fun e => negb (existsb (same_hash (fst (snd e))) t2)) full_t1 in
  let res := diff_added p (pairing p l1 t2) hashes_removed hashes_added in
  fst res
  ++ flat_map
       (fun r => report_result iterable_item_removed (p ++ [Idx (fst r)])
                   (Cell (VJson (fst (snd r)))) notpresent)
       (snd res).

(** [_diff] on two JSON-like values at path [p]: nothing below an excluded
    path, a type change when the types differ, then by type. *)
Fixpoint diff_json (t1 : json) (p : path) (t2 : json) {struct t1}
    : list level :=
  let changed :=
    report_result values_changed p (Cell (VJson t1)) (Cell (VJson t2)) in
  if skip_this p then []
  else if negb (pytype_eqb (type_of_json t1) (type_of_json t2))
  then report_result type_changes p (Cell (VJson t1)) (Cell (VJson t2))
  else
    match t1, t2 with
    | JBool a, JBool b => if Bool.eqb a b then [] else changed
    | JInt a, JInt b => if Z.eqb a b then [] else changed
    | JStr a, JStr b => if String.eqb a b then [] else changed
    | JDict d1, JDict d2 =>
        diff_dict (fun x => Cell (VJson x)) p
          (map (fun kv => let '(k, x) := kv in (k, (x, diff_json x))) d1)
          d2 (Cell (VJson t1)) (Cell (VJson t2))
    | JList l1, JList l2 =>
        diff_iterable p
          (map (fun x => (x, diff_json x)) l1)
          l2
    | _, _ => []
    end.

(** [_diff] on two column values.  The library reports nothing for one and
    the same object ([t1 is t2]); two NaN that are not the same object
    differ.  For two datetimes that differ the level holds the compared
    values; releases of the library that first bring naive datetimes to UTC
    hold there the aware copy of the same date and time, which is here not
    told apart from the naive value. *)
Definition diff_value (t1 : value) (p : path) (t2 : value) : list level :=
  let changed := report_result values_changed p (Cell t1) (Cell t2) in
  if skip_this p then []
  else if negb (pytype_eqb (type_of t1) (type_of t2))
  then report_result type_changes p (Cell t1) (Cell t2)
  else
    match t1, t2 with
    | VJson a, VJson b => diff_json a p b
    | VTimestamp a, VTimestamp b => if Timestamp_eqb a b then [] else changed
    | VDatetime a, VDatetime b => if datetime_eqb a b then [] else changed
    | VNaN a, VNaN b => if Nat.eqb a b then [] else changed
    | _, _ => []
    end.

(** The tree view of [DeepDiff(base, other)] before its final clean-up:
    [_diff] at the root on two dicts. *)
Definition diff_root (base other : record) : list level :=
  if skip_this [] then []
  else
    diff_dict Cell []
      (map (fun kv => (fst kv, (snd kv, diff_value (snd kv)))) base)
      other (Row base) (Row other).

(** The levels of one report type, in the order they were reported. *)
Definition of_type (ty : report_type) (tree : list level) : list level :=
  filter (fun l => report_type_eqb (report l) ty) tree.

(** [{i.path(): i for i in levels}]: the last level of a path wins, the
    paths keep the order of their first occurrence. *)
Fixpoint set_item {V : Type} (k : string) (v : V) (d : list (string * V))
    : list (string * V) :=
  match d with
  | [] => [(k, v)]
  | (k', v') :: tl =>
      if String.eqb k k' then (k', v) :: tl else (k', v') :: set_item k v tl
  end.

Definition by_path (levels : list (nat * level)) : list (string * (nat * level)) :=
  fold_left (fun d il => set_item (path_str (lpath (snd il))) il d) levels [].

(** [mutual_add_removes_to_become_value_changes]: an item removed and an
    item added at the same path become one changed value, appended to the
    changed values.  The library walks the common paths in the order of a
    Python set, which varies from one run of the interpreter to the next;
    here they are taken in the order of the removals.  The order of the
    merged entries among themselves is thus the model's own: the properties
    below that give rows one by one have at most one merged entry in a
    comparison. *)
Definition mutual_add_removes (tree : list level) : list level :=
  let numbered := enumerate 0 tree in
  let has_type ty (il : nat * level) := report_type_eqb (report (snd il)) ty in
  let added_paths := by_path (filter (has_type iterable_item_added) numbered) in
  let removed_paths := by_path (filter (has_type iterable_item_removed) numbered) in
  let mutual_paths :=
    filter (fun kl => has_key (fst kl) added_paths) removed_paths in
  let moved :=
    flat_map
      (fun kl =>
         match get (fst kl) added_paths with
         | Some level_after => [(snd kl, level_after)]
         | None => []
         end) mutual_paths in
  let gone := flat_map (fun ba => [fst (fst ba); fst (snd ba)]) moved in
  map snd (filter (fun il => negb (existsb (Nat.eqb (fst il)) gone)) numbered)
  ++ map (fun ba =>
            mkLevel values_changed (lpath (snd (fst ba)))
              (lv_t1 (snd (fst ba))) (lv_t2 (snd (snd ba)))) moved.

(** One report type of the text view: a dict keyed by the path text. *)
Definition text_of (ty : report_type) (tree : list level)
    : list (string * change) :=
  fold_left
    (fun d l => set_item (path_str (lpath l)) (mkChange (lv_t1 l) (lv_t2 l)) d)
    (of_type ty tree) [].

Definition report_name (ty : report_type) : string :=
  match ty with
  | values_changed => "values_changed"
  | type_changes => "type_changes"
  | dictionary_item_added => "dictionary_item_added"
  | dictionary_item_removed => "dictionary_item_removed"
  | iterable_item_added => "iterable_item_added"
  | iterable_item_removed => "iterable_item_removed"
  end.

Definition to_text_view (tree : list level) : text_view :=
  flat_map
    (fun ty =>
       match text_of ty tree with
       | [] => []
       | entries => [(report_name ty, entries)]
       end)
    [type_changes; dictionary_item_added; dictionary_item_removed;
     values_changed; iterable_item_added; iterable_item_removed].

(** The final tree view of [DeepDiff(base, other)]. *)
Definition tree_view (base other : record) : list level :=
  mutual_add_removes (diff_root base other).

(** [DeepDiff(base, other, ignore_order=True, exclude_paths=...)] *)
Definition DeepDiff (base other : record) : text_view :=
  to_text_view (tree_view base other).

End Engine.
End DeepDiffLib.

(** ** The comparison loops *)

(** One row of [diff_rows] in find_diff_2.py. *)
Record diff_row : Type := mkRow {
  policy_id : string;
  compare_seq : nat;
  field : string;
  old_value : pyobj;
  new_value : pyobj;
  base_change_dt : option string;
  change_dt : option string }.

(** One row of [diff_rows] in find_diff_1.py. *)
Record diff_row_v1 : Type := mkRowV1 {
  policy_id_v1 : string;
  record_idx : nat;
  field_v1 : string;
  old_value_v1 : pyobj;
  new_value_v1 : pyobj }.

(** The exclusions both scripts pass to [DeepDiff]. *)
Definition exclude_paths : list string :=
  ["root['lastMdfcnDt']"; "root['frstRegDt']"; "root['ingested_at']";
   "root['record_hash']"; "root['raw_ingest_id']"].

Section Sequencer.

(** The comparison, with the options of the scripts already applied. *)
Variable DeepDiff : record -> record -> DeepDiffLib.text_view.

(** The rows one comparison appends (find_diff_2.py, lines 102-113). *)
Definition rows_of_diff (policy_id : string) (idx : nat)
    (base_change_dt change_dt : option string)
    (diff : DeepDiffLib.text_view) (diff_rows : list diff_row) : list diff_row :=
  match get "values_changed" diff with
  | Some changes =>
      fold_left
        (fun rows pc =>
           rows ++ [mkRow policy_id idx (path_to_field (fst pc))
                      (DeepDiffLib.old_value (snd pc))
                      (DeepDiffLib.new_value (snd pc))
                      base_change_dt change_dt])
        changes diff_rows
  | None => diff_rows
  end.

(** The state carried by the inner loop of find_diff_2.py. *)
Record loop_state : Type := mkState {
  base : record;
  st_base_change_dt : option string;
  diff_rows : list diff_row }.

(** One turn of [for idx, other in enumerate(records[1:], start=2)]. *)
Definition compare_step (policy_id : string) (st : loop_state)
    (io : nat * record) : loop_state :=
  let idx := fst io in
  let other := snd io in
  let diff := DeepDiff (base st) other in
  let change_dt := pick_change_dt other in
  mkState other change_dt
    (rows_of_diff policy_id idx (st_base_change_dt st) change_dt diff
       (diff_rows st)).

(** The body of [for policy_id, group in df.groupby(...)] in
    find_diff_2.py. *)
Definition compare_group (policy_id : string) (records : list record)
    (rows : list diff_row) : list diff_row :=
  match records with
  | [] | [_] => rows
  | first :: rest =>
      diff_rows
        (fold_left (compare_step policy_id) (enumerate 2 rest)
           (mkState first (pick_change_dt first) rows))
  end.

(** find_diff_2.py over the groups of the query result. *)
Definition find_diff_2 (groups : list (string * list record)) : list diff_row :=
  fold_left (fun rows g => compare_group (fst g) (snd g) rows) groups [].

(** find_diff_1.py: every later snapshot is compared with [records[0]]. *)
Definition rows_of_diff_v1 (policy_id : string) (idx : nat)
    (diff : DeepDiffLib.text_view) (rows : list diff_row_v1)
    : list diff_row_v1 :=
  match get "values_changed" diff with
  | Some changes =>
      fold_left
        (fun rows pc =>
           rows ++ [mkRowV1 policy_id idx (field_of_path_v1 (fst pc))
                      (DeepDiffLib.old_value (snd pc))
                      (DeepDiffLib.new_value (snd pc))])
        changes rows
  | None => rows
  end.

Definition compare_group_v1 (policy_id : string) (records : list record)
    (rows : list diff_row_v1) : list diff_row_v1 :=
  match records with
  | [] | [_] => rows
  | first :: rest =>
      fold_left
        (fun rows io => rows_of_diff_v1 policy_id (fst io) (DeepDiff first (snd io)) rows)
        (enumerate 2 rest) rows
  end.

Definition find_diff_1 (groups : list (string * list record)) : list diff_row_v1 :=
  fold_left (fun rows g => compare_group_v1 (fst g) (snd g) rows) groups [].

End Sequencer.

(** The scripts with the library in place. *)
Section Scripts.

Variable pairing : DeepDiffLib.path -> list json -> list json -> list (nat * nat).
Variables thr_a thr_b : nat.

(** [DeepDiff(base, other, ignore_order=True, exclude_paths=[...])] as both
    scripts call it. *)
Definition snapshot_diff : record -> record -> DeepDiffLib.text_view :=
  DeepDiffLib.DeepDiff exclude_paths pairing thr_a thr_b.

(** The rows find_diff_2.py collects for one policy_id. *)
Definition change_log (policy_id : string) (records : list record) : list diff_row :=
  compare_group snapshot_diff policy_id records [].

(** The rows find_diff_1.py collects for one policy_id. *)
Definition change_log_v1 (policy_id : string) (records : list record)
    : list diff_row_v1 :=
  compare_group_v1 snapshot_diff policy_id records [].

End Scripts.

(** No pairing of removed and added list items. *)
Definition no_pairs : DeepDiffLib.path -> list json -> list json -> list (nat * nat) :=
  fun _ _ _ => [].

(** Every removed item paired with every added one, in order. *)
Definition all_pairs : DeepDiffLib.path -> list json -> list json -> list (nat * nat) :=
  fun _ l1 l2 =>
    flat_map (fun i => map (fun j => (i, j)) (seq 0 (List.length l2)))
      (seq 0 (List.length l1)).

(** ** Notions used to state the properties *)

(** The path formatter applied to a structural path. *)
Definition format (p : DeepDiffLib.path) : string :=
  path_to_field (DeepDiffLib.path_str p).

(** The names of the excluded columns. *)
Definition excluded_names : list string :=
  ["lastMdfcnDt"; "frstRegDt"; "ingested_at"; "record_hash"; "raw_ingest_id"].

(** A key made of at least one character, none of them "]" or a single
    quote. *)
Definition plain_key (k : string) : bool :=
  negb (String.eqb k "") && negb (PyText.has_char PathRegex.rbracket k)
  && negb (PyText.has_char PathRegex.quote k).

(** The rows appended by the comparison of [prev] with [cur] as number
    [k]. *)
Definition comparison_rows (DeepDiff : record -> record -> DeepDiffLib.text_view)
    (policy_id : string) (k : nat) (prev cur : record) : list diff_row :=
  rows_of_diff policy_id k (pick_change_dt prev) (pick_change_dt cur)
    (DeepDiff prev cur) [].

Definition comparison_rows_v1 (DeepDiff : record -> record -> DeepDiffLib.text_view)
    (policy_id : string) (k : nat) (first cur : record) : list diff_row_v1 :=
  rows_of_diff_v1 policy_id k (DeepDiff first cur) [].

(** The path with the raw-payload wrapper taken off its front. *)
Definition strip_wrapper (keys : list string) : list string :=
  match keys with
  | k0 :: rest => if String.eqb k0 "raw_json" then rest else keys
  | [] => []
  end.

(** The segments joined with ".", or the root marker when none is left. *)
Definition dotted (keys : list string) : string :=
  match keys with
  | [] => "root"
  | _ :: _ => PyText.join "." keys
  end.

(** [bool], [int] and [str] values. *)
Definition scalar (j : json) : bool :=
  match j with
  | JBool _ | JInt _ | JStr _ => true
  | _ => false
  end.

(** The normalized value of a candidate field as [pick_change_dt] returns
    it: absent for a missing key or [None], the ISO text of a typed
    timestamp or datetime, the trimmed text of anything else. *)
Definition resolve_field (cand : option value) : option string :=
  match cand with
  | None | Some (VJson JNone) => None
  | Some v => Some (to_text v)
  end.

(** The primary field gives no candidate: the key is missing or its value is
    falsy. *)
Definition no_primary (r : record) : Prop :=
  get "lastMdfcnDt" r = None
  \/ exists v, get "lastMdfcnDt" r = Some v /\ truthy v = false.

(** A snapshot with the single column [k]. *)
Definition single (k : string) (v : value) : record := [(k, v)].

(** A snapshot whose raw_json payload has the single key [k]. *)
Definition single_payload (k : string) (j : json) : record :=
  [("raw_json", VJson (JDict [(k, j)]))].

(** The snapshots of the order examples: {"tags": [...]}. *)
Definition tags (l : list string) : record :=
  [("tags", VJson (JList (map JStr l)))].

(** The value a structural path leads to inside a JSON-like value, a
    column value, a snapshot. *)
Fixpoint at_json (q : DeepDiffLib.path) (j : json) : option json :=
  match q with
  | [] => Some j
  | DeepDiffLib.Key k :: q' =>
      match j with
      | JDict d => match get k d with Some x => at_json q' x | None => None end
      | _ => None
      end
  | DeepDiffLib.Idx i :: q' =>
      match j with
      | JList l =>
          match nth_error l i with Some x => at_json q' x | None => None end
      | _ => None
      end
  end.

Definition at_value (q : DeepDiffLib.path) (v : value) : option pyobj :=
  match q, v with
  | [], _ => Some (Cell v)
  | _, VJson j => option_map (fun x => Cell (VJson x)) (at_json q j)
  | _, _ => None
  end.

Definition at_path (q : DeepDiffLib.path) (r : record) : option pyobj :=
  match q with
  | [] => Some (Row r)
  | DeepDiffLib.Key k :: q' =>
      match get k r with Some v => at_value q' v | None => None end
  | DeepDiffLib.Idx _ :: _ => None
  end.

(** The old value of a level reported by a comparison at path [p] is the
    value found in t1 at the path of the level, unless the level is an
    addition. *)
Definition old_in (p : DeepDiffLib.path) (t1 : json) (l : DeepDiffLib.level)
    : Prop :=
  (DeepDiffLib.report l = DeepDiffLib.dictionary_item_added
   \/ DeepDiffLib.report l = DeepDiffLib.iterable_item_added)
  \/ exists q x,
       DeepDiffLib.lpath l = p ++ q /\ at_json q t1 = Some x
       /\ DeepDiffLib.lv_t1 l = Cell (VJson x).

Definition old_from (base : record) (l : DeepDiffLib.level) : Prop :=
  (DeepDiffLib.report l = DeepDiffLib.dictionary_item_added
   \/ DeepDiffLib.report l = DeepDiffLib.iterable_item_added)
  \/ at_path (DeepDiffLib.lpath l) base = Some (DeepDiffLib.lv_t1 l).

(** The comparison goes below every dict on the way down the keys [ks],
    none of which is private. *)
Fixpoint dives_along (thr_a thr_b : nat) (p : DeepDiffLib.path)
    (ks : list string) (t1 t2 : json) : Prop :=
  match ks with
  | [] => True
  | k :: ks' =>
      match t1, t2 with
      | JDict d1, JDict d2 =>
          DeepDiffLib.too_different exclude_paths thr_a thr_b p
            (DeepDiffLib.visible_keys d1) (DeepDiffLib.visible_keys d2) = false
          /\ DeepDiffLib.private k = false
          /\ match get k d1, get k d2 with
             | Some x1, Some x2 =>
                 dives_along thr_a thr_b (p ++ [DeepDiffLib.Key k]) ks' x1 x2
             | _, _ => False
             end
      | _, _ => False
      end
  end.

(** What [record.get(k)] gives for a field that is missing, present with
    null, or present with the text [x]. *)
Definition missing_null_or (x : string) (o : option value) : Prop :=
  o = None \/ o = Some (VJson JNone) \/ o = Some (VJson (JStr x)).

(** The snapshots of the roll-forward example: S1={x:1}, S2={x:2},
    S3={x:3}. *)
Definition snapshot_x (n : Z) : record := [("x", VJson (JInt n))].

(** The rows of a chain of comparisons, each snapshot against the one
    before it, numbered from [k]. *)
Fixpoint chain_rows (DeepDiff : record -> record -> DeepDiffLib.text_view)
    (policy_id : string) (k : nat) (prev : record) (rest : list record)
    : list diff_row :=
  match rest with
  | [] => []
  | cur :: tl =>
      comparison_rows DeepDiff policy_id k prev cur
      ++ chain_rows DeepDiff policy_id (S k) cur tl
  end.


(** The row was built from the changed value that the comparison numbered
    [compare_seq row], of snapshot [compare_seq row - 1] with snapshot
    [compare_seq row], reports at the path [p]: the text of [p] is a key of
    its [values_changed], and the field, the old value and the new value of
    the row are those of that entry. *)
Definition built_from
    (pairing : DeepDiffLib.path -> list json -> list json -> list (nat * nat))
    (thr_a thr_b : nat) (records : list record) (row : diff_row)
    (p : DeepDiffLib.path) : Prop :=
  let k := compare_seq row in
  exists changes ch,
    get "values_changed"
      (snapshot_diff pairing thr_a thr_b
         (nth (k - 2) records []) (nth (k - 1) records []))
    = Some changes
    /\ In (DeepDiffLib.path_str p, ch) changes
    /\ field row = path_to_field (DeepDiffLib.path_str p)
    /\ old_value row = DeepDiffLib.old_value ch
    /\ new_value row = DeepDiffLib.new_value ch.

(** Two lists hold the same items, in whatever order and however often:
    every item of either list has the digest of an item of the other. *)
Definition same_items (l1 l2 : list json) : Prop :=
  (forall x, In x l1 -> exists y, In y l2 /\ DeepDiffLib.same_hash x y = true)
  /\ (forall y, In y l2 ->
        exists x, In x l1 /\ DeepDiffLib.same_hash x y = true).


(** ** The rest of the two comparison scripts *)

(** What a call does: it returns a value or raises. *)
Inductive outcome (A : Type) : Type :=
  | Returns (a : A)
  | Raises (exception message : string).
Arguments Returns {A} a.
Arguments Raises {A} exception message.

(** [os.getenv(name, default)] on an environment given as a dict. *)
Definition getenv (environ : list (string * string)) (name : string)
    (default : option string) : option string :=
  match get name environ with
  | Some v => Some v
  | None => default
  end.

(** [env_str] of find_diff_1.py and find_diff_2.py. *)
Definition env_str (environ : list (string * string)) (name : string)
    (default : option string) : outcome string :=
  match getenv environ name default with
  | None => Raises "RuntimeError" ("Missing environment variable: " ++ name)
  | Some v =>
      if String.eqb v ""
      then Raises "RuntimeError" ("Missing environment variable: " ++ name)
      else Returns v
  end.

(** [when = row["change_dt"] or "-"] of the printing loop of
    find_diff_2.py. *)
Definition when (row : diff_row) : string :=
  match change_dt row with
  | Some s => if String.eqb s "" then "-" else s
  | None => "-"
  end.

(** ** tools/generate_data_for_ai.py *)

Module AiData.
Import PyText.

(** [c.lower()] on one code point below 256. *)
Definition lower_char (c : ascii) : ascii :=
  let n := nat_of_ascii c in
  if (Nat.leb 65 n && Nat.leb n 90)
     || (Nat.leb 192 n && Nat.leb n 222 && negb (Nat.eqb n 215))
  then ascii_of_nat (n + 32)
  else c.

(** [s.lower()] *)
Fixpoint lower (s : string) : string :=
  match s with
  | EmptyString => EmptyString
  | String c tl => String (lower_char c) (lower tl)
  end.

(** [s.split(sep)] for a separator of one character: every occurrence
    splits, empty pieces are kept. *)
Fixpoint split (sep : ascii) (s : string) : list string :=
  match s with
  | EmptyString => [EmptyString]
  | String c tl =>
      match split sep tl with
      | cur :: rest =>
          if Ascii.eqb c sep then EmptyString :: cur :: rest
          else String c cur :: rest
      | [] => [String c EmptyString]
      end
  end.

(** [d[k] = v] on a dict. *)
Definition assign {V : Type} (k : string) (v : V) (d : list (string * V))
    : list (string * V) :=
  DeepDiffLib.set_item k v d.

(** *** FieldNameResolver *)

Record FieldNameResolver : Type := mkResolver {
  _exact : list (string * string);
  _canonical : list (string * string) }.

(** [FieldNameResolver()] *)
Definition new_resolver : FieldNameResolver := mkResolver [] [].

(** [FieldNameResolver.add] *)
Definition add (key alias : string) (self : FieldNameResolver)
    : FieldNameResolver :=
  let canonical := lower key in
  mkResolver
    (assign key alias (_exact self))
    (if has_key canonical (_canonical self) then _canonical self
     else assign canonical alias (_canonical self)).

(** [FieldNameResolver.translate] *)
Definition translate (key : string) (self : FieldNameResolver) : string :=
  match get key (_exact self) with
  | Some alias => alias
  | None =>
      match get (lower key) (_canonical self) with
      | Some alias => alias
      | None => key
      end
  end.

(** *** MissingCodeTracker

    [_data] is a [defaultdict(set)]; a set is a list without repetition. *)

Record MissingCodeTracker : Type := mkTracker {
  _data : list (string * list string);
  _limit : nat }.

(** [MissingCodeTracker(per_field_limit)]; the default limit is 5. *)
Definition new_tracker (per_field_limit : nat) : MissingCodeTracker :=
  mkTracker [] per_field_limit.

(** [bucket.add(code)] on a set. *)
Definition set_add (code : string) (bucket : list string) : list string :=
  if existsb (String.eqb code) bucket then bucket else bucket ++ [code].

(** [MissingCodeTracker.add]: reading [self._data[field]] creates the
    bucket when the field has none. *)
Definition tracker_add (field code : string) (self : MissingCodeTracker)
    : MissingCodeTracker :=
  let code := strip code in
  if String.eqb code "" then self
  else
    let bucket :=
      match get field (_data self) with Some b => b | None => [] end in
    let bucket :=
      if Nat.ltb (List.length bucket) (_limit self) then set_add code bucket
      else bucket in
    mkTracker (assign field bucket (_data self)) (_limit self).

(** [MissingCodeTracker.has_missing] *)
Definition has_missing (self : MissingCodeTracker) : bool :=
  match _data self with [] => false | _ => true end.

(** *** The mapping files

    A row of [csv.DictReader] is a dict from column name to cell; a cell
    missing at the end of a short line is [None].  The column names of the
    two mapping files and the header of the ID column are texts outside
    Latin-1; they are parameters.  The check that the file exists is
    left out: the functions start from the rows read. *)

Definition csv_row : Type := list (string * option string).

(** [(row.get(column) or "").strip()] *)
Definition cell (column : string) (row : csv_row) : string :=
  strip (match get column row with
         | Some (Some s) => s
         | _ => ""
         end).

Section Files.

Variables col_field col_description : string.
Variables col_class col_code col_label : string.

(** The state of the loop of [load_field_name_mapping]. *)
Record field_loader : Type := mkLoader {
  resolver : FieldNameResolver;
  name_counts : list (string * nat) }.

(** One turn of the loop of [load_field_name_mapping]. *)
Definition load_field_row (st : field_loader) (row : csv_row) : field_loader :=
  let raw_field := cell col_field row in
  let description := cell col_description row in
  if String.eqb raw_field "" || String.eqb description "" then st
  else
    let field_key := strip (replace ">" "" (replace "<" "" raw_field)) in
    if String.eqb field_key "" then st
    else
      let base_alias := description in
      let alias_index :=
        match get base_alias (name_counts st) with Some n => n | None => 0 end in
      let alias :=
        if Nat.eqb alias_index 0 then base_alias
        else (base_alias ++ "_" ++ str_of_nat (alias_index + 1))%string in
      mkLoader (add field_key alias (resolver st))
        (assign base_alias (alias_index + 1) (name_counts st)).

(** [load_field_name_mapping] on the rows of the file. *)
Definition load_field_name_mapping (rows : list csv_row) : FieldNameResolver :=
  resolver (fold_left load_field_row rows (mkLoader new_resolver [])).

(** One turn of the loop of [load_value_mappings]:
    [mappings.setdefault(canonical, {})[code] = label]. *)
Definition load_value_row (mappings : list (string * list (string * string)))
    (row : csv_row) : list (string * list (string * string)) :=
  let field := cell col_class row in
  let code := cell col_code row in
  let label := cell col_label row in
  if String.eqb field "" || String.eqb code "" || String.eqb label ""
  then mappings
  else
    let canonical := lower field in
    let bucket :=
      match get canonical mappings with Some b => b | None => [] end in
    assign canonical (assign code label bucket) mappings.

(** [load_value_mappings] on the rows of the file. *)
Definition load_value_mappings (rows : list csv_row)
    : list (string * list (string * string)) :=
  fold_left load_value_row rows [].

End Files.

(** [load_region_lookup] on the rows the query returns (zip_code,
    full_name): [lookup.setdefault(zip_code, full_name)] keeps the first
    name of a zip code. *)
Definition load_region_row (lookup : list (string * string))
    (row : json * json) : list (string * string) :=
  let zip_code := strip (PyRepr.str_json (fst row)) in
  let full_name := strip (PyRepr.str_json (snd row)) in
  if String.eqb zip_code "" || String.eqb full_name "" then lookup
  else if has_key zip_code lookup then lookup
  else assign zip_code full_name lookup.

Definition load_region_lookup (rows : list (json * json))
    : list (string * string) :=
  fold_left load_region_row rows [].

(** *** Translation of code values *)

(** [separators = [",", "|", "/", ";"]] *)
Definition separators : list ascii :=
  [","%char; "|"%char; "/"%char; ";"%char].

(** [joiner = ", " if sep == "," else sep] *)
Definition joiner (sep : ascii) : string :=
  if Ascii.eqb sep ","%char then ", " else String sep "".

(** The state of the loop over the parts of a split text. *)
Record parts_state : Type := mkParts {
  translated_parts : list string;
  changed : bool;
  missing : list string }.

(** One turn of [for part in parts] in [translate_code_value]. *)
Definition code_part (table : list (string * string)) (st : parts_state)
    (part : string) : parts_state :=
  if String.eqb part "" then st
  else
    match get part table with
    | None =>
        mkParts (translated_parts st ++ [part]) (changed st)
          (missing st ++ [part])
    | Some label =>
        mkParts (translated_parts st ++ [label]) true (missing st)
    end.

(** [for sep in separators] in [translate_code_value]; [missing] is shared
    by all the turns.  [None] when the loop ends without returning. *)
Fixpoint code_separators (table : list (string * string)) (raw_text : string)
    (seps : list ascii) (missing : list string)
    : option string * list string :=
  match seps with
  | [] => (None, missing)
  | sep :: tl =>
      if has_char sep raw_text then
        let parts := map strip (split sep raw_text) in
        let st := fold_left (code_part table) parts (mkParts [] false missing) in
        if changed st
        then (Some (join (joiner sep) (translated_parts st)), AiData.missing st)
        else code_separators table raw_text tl (AiData.missing st)
      else code_separators table raw_text tl missing
  end.

(** One turn of [for item in value] in [translate_code_value]. *)
Definition code_item (table : list (string * string))
    (st : list json * list string) (item : json) : list json * list string :=
  let code := strip (PyRepr.str_json item) in
  if String.eqb code "" then st
  else
    match get code table with
    | None => (fst st ++ [item], snd st ++ [code])
    | Some label => (fst st ++ [JStr label], snd st)
    end.

(** [translate_code_value] *)
Definition translate_code_value (field : string) (value : json)
    (value_mappings : list (string * list (string * string)))
    : json * list string :=
  let table :=
    match get field value_mappings with
    | Some t => Some t
    | None => get (lower field) value_mappings
    end in
  match table with
  | None => (value, [])
  | Some table =>
      match value with
      | JNone => (JNone, [])
      | JList items =>
          let r := fold_left (code_item table) items ([], []) in
          (JList (fst r), snd r)
      | _ =>
          let raw_text := strip (PyRepr.str_json value) in
          if String.eqb raw_text "" then (value, [])
          else
            match get raw_text table with
            | Some direct_label => (JStr direct_label, [])
            | None =>
                match code_separators table raw_text separators [] with
                | (Some text, missing) => (JStr text, missing)
                | (None, missing) => (value, missing ++ [raw_text])
                end
            end
      end
  end.

(** [resolve] of [translate_region_value], with the list [missing] it
    appends to. *)
Definition resolve (region_lookup : list (string * string)) (code : json)
    (missing : list string) : option string * list string :=
  let text := strip (PyRepr.str_json code) in
  if String.eqb text "" then (None, missing)
  else
    match get text region_lookup with
    | None => (Some text, missing ++ [text])
    | Some label => (Some label, missing)
    end.

(** One turn of [for item in value] in [translate_region_value]. *)
Definition region_item (region_lookup : list (string * string))
    (st : list json * list string) (item : json) : list json * list string :=
  match resolve region_lookup item (snd st) with
  | (Some mapped, missing) => (fst st ++ [JStr mapped], missing)
  | (None, missing) => (fst st, missing)
  end.

(** One turn of [for part in parts] in [translate_region_value]. *)
Definition region_part (region_lookup : list (string * string))
    (st : parts_state) (part : string) : parts_state :=
  match get part region_lookup with
  | None =>
      mkParts (translated_parts st ++ [part]) (changed st)
        (missing st ++ [part])
  | Some label =>
      mkParts (translated_parts st ++ [label]) true (missing st)
  end.

(** [for sep in separators] in [translate_region_value]. *)
Fixpoint region_separators (region_lookup : list (string * string))
    (raw_text : string) (seps : list ascii) (missing : list string)
    : option string * list string :=
  match seps with
  | [] => (None, missing)
  | sep :: tl =>
      if has_char sep raw_text then
        let parts :=
          map strip
            (filter (fun p => negb (String.eqb (strip p) ""))
               (split sep raw_text)) in
        let st :=
          fold_left (region_part region_lookup) parts
            (mkParts [] false missing) in
        if changed st
        then (Some (join (joiner sep) (translated_parts st)), AiData.missing st)
        else region_separators region_lookup raw_text tl (AiData.missing st)
      else region_separators region_lookup raw_text tl missing
  end.

(** [translate_region_value] *)
Definition translate_region_value (value : json)
    (region_lookup : list (string * string)) : json * list string :=
  match value with
  | JNone => (JNone, [])
  | JList items =>
      let r := fold_left (region_item region_lookup) items ([], []) in
      (JList (fst r), snd r)
  | _ =>
      let raw_text := strip (PyRepr.str_json value) in
      if String.eqb raw_text "" then (value, [])
      else
        match get raw_text region_lookup with
        | Some direct => (JStr direct, [])
        | None =>
            match region_separators region_lookup raw_text separators [] with
            | (Some text, missing) => (JStr text, missing)
            | (None, missing) => (value, missing ++ [raw_text])
            end
        end
  end.

(** *** Writing the table *)

Definition CR : ascii := ascii_of_nat 13.
Definition LF : ascii := ascii_of_nat 10.

Section Csv.

(** [json.dumps(value, ensure_ascii=False, sort_keys=True)] on a dict. *)
Variable dumps : list (string * json) -> string.

(** The header of the ID column. *)
Variable id_header : string.

(** [normalize_csv_value]; [None] is Python's [None], also what
    [record.get(header)] gives for a column the record does not have. *)
Definition normalize_csv_value (value : option json) : string :=
  let result :=
    match value with
    | None | Some JNone => ""
    | Some (JList items) =>
        join ", "
          (map PyRepr.str_json
             (filter (fun item => match item with JNone => false | _ => true end)
                items))
    | Some (JDict d) => dumps d
    | Some v => PyRepr.str_json v
    end in
  if String.eqb result "" then ""
  else
    replace (String LF "") (String PyRepr.backslash "n")
      (replace (String CR "") (String PyRepr.backslash "n")
         (replace (String CR (String LF "")) (String PyRepr.backslash "n")
            result)).

(** One turn of [for key, value in payload.items()] in
    [transform_policy]. *)
Definition transform_item (field_names : FieldNameResolver)
    (value_mappings : list (string * list (string * string)))
    (region_lookup : list (string * string))
    (st : list (string * json) * MissingCodeTracker) (kv : string * json)
    : list (string * json) * MissingCodeTracker :=
  let key := fst kv in
  let value := snd kv in
  let translated_key := translate key field_names in
  let lower_key := lower key in
  let r :=
    if String.eqb lower_key "zipcd"
    then translate_region_value value region_lookup
    else translate_code_value key value value_mappings in
  let tracker :=
    fold_left (fun t code => tracker_add key code t) (snd r) (snd st) in
  (assign translated_key (fst r) (fst st), tracker).

(** [transform_policy]: the record, and the tracker after the call. *)
Definition transform_policy (policy_id : string)
    (payload : list (string * json)) (field_names : FieldNameResolver)
    (value_mappings : list (string * list (string * string)))
    (region_lookup : list (string * string))
    (missing_tracker : MissingCodeTracker)
    : list (string * json) * MissingCodeTracker :=
  fold_left (transform_item field_names value_mappings region_lookup) payload
    ([(id_header, JStr policy_id)], missing_tracker).

(** The headers kept by [main]: [headers] and [header_set]. *)
Definition add_header (st : list string * list string) (key : string)
    : list string * list string :=
  if existsb (String.eqb key) (snd st) then st
  else (fst st ++ [key], set_add key (snd st)).

(** [for key in record.keys()] for each record, in [main]. *)
Definition collect_headers (records : list (list (string * json)))
    : list string :=
  fst (fold_left
         (fun st record => fold_left add_header (map fst record) st)
         records ([id_header], [id_header])).

(** The row [write_csv] hands to the writer for one record:
    [{header: normalize_csv_value(record.get(header)) for header in headers}]. *)
Definition csv_cells (headers : list string) (record : list (string * json))
    : list (string * string) :=
  fold_left
    (fun row header => assign header (normalize_csv_value (get header record)) row)
    headers [].

End Csv.

End AiData.

(** ** More notions used to state the properties *)

(** The dict keys of a structural path, list positions left out. *)
Fixpoint keys_of (p : DeepDiffLib.path) : list string :=
  match p with
  | [] => []
  | DeepDiffLib.Key k :: q => k :: keys_of q
  | DeepDiffLib.Idx _ :: q => keys_of q
  end.

(** Two snapshots with the same columns and equal values in every column
    that is not excluded from the comparison. *)
Definition same_but_excluded (a b : record) : Prop :=
  map fst a = map fst b
  /\ forall k, ~ In k excluded_names -> get k a = get k b.

(** A timestamp field that gives no date: missing, [None], or a text of
    white space only. *)
Definition blank (o : option value) : Prop :=
  o = None \/ o = Some (VJson JNone)
  \/ exists s, o = Some (VJson (JStr s)) /\ PyText.strip s = "".

(** The resolver after a series of [add] calls, in order. *)
Definition register (adds : list (string * string)) : AiData.FieldNameResolver :=
  fold_left (fun r ka => AiData.add (fst ka) (snd ka) r) adds AiData.new_resolver.

(** The tracker after a series of [add] calls on a new tracker. *)
Definition track (limit : nat) (adds : list (string * string))
    : AiData.MissingCodeTracker :=
  fold_left (fun t fc => AiData.tracker_add (fst fc) (snd fc) t) adds
    (AiData.new_tracker limit).

(** The table [translate_code_value] uses for a field: the one under the
    field name as it is, else the one under the name in lower case. *)
Definition table_of (field : string)
    (value_mappings : list (string * list (string * string)))
    : option (list (string * string)) :=
  match get field value_mappings with
  | Some t => Some t
  | None => get (AiData.lower field) value_mappings
  end.

(** A code reported as missing from a table: a trimmed text, not empty,
    that the table has no label for. *)
Definition unlabelled (table : list (string * string)) (c : string) : Prop :=
  c <> "" /\ PyText.strip c = c /\ get c table = None.

(** The field key and the description of a row of the field mapping file,
    when [load_field_name_mapping] does not pass over the row. *)
Definition accepted (col_field col_description : string) (row : AiData.csv_row)
    : list (string * string) :=
  let raw_field := AiData.cell col_field row in
  let description := AiData.cell col_description row in
  let field_key :=
    PyText.strip (PyText.replace ">" "" (PyText.replace "<" "" raw_field)) in
  if String.eqb raw_field "" || String.eqb description ""
     || String.eqb field_key ""
  then []
  else [(field_key, description)].

(** The alias of a description met [n] times before: the description, then
    the description with "_2", "_3", ... *)
Definition alias_for (n : nat) (description : string) : string :=
  if Nat.eqb n 0 then description
  else (description ++ "_" ++ PyText.str_of_nat (n + 1))%string.

(** Each key with the alias of its description, [seen] being the
    descriptions met before. *)
Fixpoint numbered (seen : list string) (l : list (string * string))
    : list (string * string) :=
  match l with
  | [] => []
  | (key, description) :: tl =>
      (key, alias_for (count_occ string_dec seen description) description)
      :: numbered (description :: seen) tl
  end.

(** The row of the value mapping file gives the label of [code] in the
    table of [field]. *)
Definition labels (col_class col_code col_label : string)
    (field code : string) (row : AiData.csv_row) : bool :=
  negb (String.eqb (AiData.cell col_class row) "")
  && negb (String.eqb (AiData.cell col_code row) "")
  && negb (String.eqb (AiData.cell col_label row) "")
  && String.eqb (AiData.lower (AiData.cell col_class row)) field
  && String.eqb (AiData.cell col_code row) code.

(** The row of the region table gives the name of [zip]. *)
Definition names (zip : string) (row : json * json) : bool :=
  negb (String.eqb (PyText.strip (PyRepr.str_json (fst row))) "")
  && negb (String.eqb (PyText.strip (PyRepr.str_json (snd row))) "")
  && String.eqb (PyText.strip (PyRepr.str_json (fst row))) zip.

(** [pat in s] *)
Fixpoint occurs (pat s : string) : bool :=
  prefix pat s
  || match s with
     | String _ tl => occurs pat tl
     | EmptyString => false
     end.

(** A decimal digit; a text made of decimal digits. *)
Definition digit (c : ascii) : bool :=
  Nat.leb 48 (nat_of_ascii c) && Nat.leb (nat_of_ascii c) 57.

Fixpoint digits (s : string) : bool :=
  match s with
  | EmptyString => true
  | String c tl => digit c && digits tl
  end.

(** A text without any white space. *)
Fixpoint no_space (s : string) : bool :=
  match s with
  | EmptyString => true
  | String c tl => negb (PyText.is_space c) && no_space tl
  end.

(** What holds of every bucket of a tracker. *)
Definition kept (limit : nat) (fb : string * list string) : Prop :=
  List.length (snd fb) <= limit
  /\ NoDup (snd fb)
  /\ Forall (fun c => c <> "" /\ PyText.strip c = c) (snd fb).

(** What holds of every table of the loaded value mappings: its name is in
    lower case; its codes and labels are trimmed texts, not empty. *)
Definition loaded (fb : string * list (string * string)) : Prop :=
  AiData.lower (fst fb) = fst fb
  /\ Forall (fun cl => (fst cl <> "" /\ PyText.strip (fst cl) = fst cl)
                       /\ (snd cl <> "" /\ PyText.strip (snd cl) = snd cl))
       (snd fb).

(** What the loops of [main] keep of [headers] and [header_set]: no header
    twice, and the same headers in both. *)
Definition headers_ok (st : list string * list string) : Prop :=
  NoDup (fst st) /\ forall x, In x (fst st) <-> In x (snd st).

(** [name_counts.get(description, 0)] *)
Definition count_of (counts : list (string * nat)) (d : string) : nat :=
  match get d counts with Some n => n | None => 0 end.

(** The label the value mappings hold for a code of a table. *)
Definition label_in (mappings : list (string * list (string * string)))
    (field code : string) : option string :=
  match get field mappings with
  | Some t => get code t
  | None => None
  end.

(** The translation [transform_policy] makes of one payload entry. *)
Definition translation (value_mappings : list (string * list (string * string)))
    (region_lookup : list (string * string)) (key : string) (value : json)
    : json * list string :=
  if String.eqb (AiData.lower key) "zipcd"
  then AiData.translate_region_value value region_lookup
  else AiData.translate_code_value key value value_mappings.

(** ** Induction on JSON-like values *)

(** Induction on JSON-like values, with the items of a list or a dict as
    induction hypotheses. *)
Section JsonInduction.

Variable P : json -> Prop.
Hypothesis HNone : P JNone.
Hypothesis HBool : forall b, P (JBool b).
Hypothesis HInt : forall z, P (JInt z).
Hypothesis HStr : forall s, P (JStr s).
Hypothesis HList : forall l, Forall P l -> P (JList l).
Hypothesis HDict : forall d, Forall (fun kv => P (snd kv)) d -> P (JDict d).

Fixpoint json_induction (j : json) : P j :=
  match j with
  | JNone => HNone
  | JBool b => HBool b
  | JInt z => HInt z
  | JStr s => HStr s
  | JList l =>
      HList l
        ((fix all (l : list json) : Forall P l :=
            match l with
            | [] => Forall_nil P
            | x :: tl => Forall_cons x (json_induction x) (all tl)
            end) l)
  | JDict d =>
      HDict d
        ((fix all (d : list (string * json)) : Forall (fun kv => P (snd kv)) d :=
            match d with
            | [] => Forall_nil _
            | kv :: tl =>
                Forall_cons kv (json_induction (snd kv)) (all tl)
            end) d)
  end.

End JsonInduction.

(** * Properties *)

(** ** The comparison loops, for any comparison function *)

Section SequencerFacts.

Variable DD : record -> record -> DeepDiffLib.text_view.
Variable pid : string.

Lemma fold_append_map {A B : Type} (f : A -> B) (l : list A) (acc : list B) :
  fold_left (fun rows x => rows ++ [f x]) l acc = acc ++ map f l.
Proof.
  revert acc; induction l as [|x l IH]; intros acc; simpl.
  - now rewrite app_nil_r.
  - rewrite IH, <- app_assoc. reflexivity.
Qed.

Lemma rows_of_diff_app k bdt cdt diff rows :
  rows_of_diff pid k bdt cdt diff rows
  = rows ++ rows_of_diff pid k bdt cdt diff [].
Proof.
  unfold rows_of_diff. destruct (get "values_changed" diff) as [changes|].
  - now rewrite !fold_append_map.
  - now rewrite app_nil_r.
Qed.

Lemma rows_of_diff_v1_app k diff rows :
  rows_of_diff_v1 pid k diff rows = rows ++ rows_of_diff_v1 pid k diff [].
Proof.
  unfold rows_of_diff_v1. destruct (get "values_changed" diff) as [changes|].
  - now rewrite !fold_append_map.
  - now rewrite app_nil_r.
Qed.

(** The inner loop of find_diff_2.py started on [prev] yields the chain of
    comparisons: the base of each turn is the snapshot of the turn before. *)
Lemma loop_chain (rest : list record) :
  forall k prev rows,
    diff_rows
      (fold_left (compare_step DD pid) (enumerate k rest)
         (mkState prev (pick_change_dt prev) rows))
    = rows ++ chain_rows DD pid k prev rest.
Proof.
  induction rest as [|cur tl IH]; intros k prev rows; simpl.
  - now rewrite app_nil_r.
  - unfold compare_step at 2; simpl. rewrite IH.
    rewrite rows_of_diff_app, <- app_assoc. reflexivity.
Qed.

Lemma chain_rows_nth (rest : list record) :
  forall k prev,
    chain_rows DD pid k prev rest
    = flat_map
        (fun i => comparison_rows DD pid i
                    (nth (i - k) (prev :: rest) [])
                    (nth (S (i - k)) (prev :: rest) []))
        (seq k (List.length rest)).
Proof.
  induction rest as [|cur tl IH]; intros k prev; [reflexivity|].
  cbn [chain_rows List.length seq flat_map]. rewrite IH.
  rewrite Nat.sub_diag. cbn [nth]. f_equal.
  rewrite !flat_map_concat_map. f_equal.
  apply map_ext_in. intros i Hi. apply in_seq in Hi.
  replace (i - k) with (S (i - S k)) by lia. reflexivity.
Qed.

Lemma compare_group_chain (first : record) (rest : list record) :
  compare_group DD pid (first :: rest) [] = chain_rows DD pid 2 first rest.
Proof.
  unfold compare_group. destruct rest as [|second tl]; [reflexivity|].
  now rewrite loop_chain.
Qed.

Lemma enumerate_fst {B : Type} (l : list B) :
  forall k, map fst (enumerate k l) = seq k (List.length l).
Proof.
  induction l as [|b l IH]; intros k; simpl; [reflexivity|].
  now rewrite IH.
Qed.

Lemma enumerate_length {B : Type} (l : list B) :
  forall k, List.length (enumerate k l) = List.length l.
Proof.
  induction l as [|b l IH]; intros k; simpl; [reflexivity|].
  now rewrite IH.
Qed.

Lemma comparison_rows_seq k prev cur row :
  In row (comparison_rows DD pid k prev cur) -> compare_seq row = k.
Proof.
  unfold comparison_rows, rows_of_diff.
  destruct (get "values_changed" (DD prev cur)) as [changes|]; [|intros []].
  rewrite fold_append_map. simpl. intros H. apply in_map_iff in H.
  destruct H as [pc [<- _]]. reflexivity.
Qed.

(** find_diff_1.py keeps the first snapshot as the base of every turn. *)
Lemma loop_v1_first (rest : list record) :
  forall k first rows,
    fold_left
      (fun rows io => rows_of_diff_v1 pid (fst io) (DD first (snd io)) rows)
      (enumerate k rest) rows
    = rows
      ++ flat_map (fun io => comparison_rows_v1 DD pid (fst io) first (snd io))
           (enumerate k rest).
Proof.
  induction rest as [|cur tl IH]; intros k first rows; simpl.
  - now rewrite app_nil_r.
  - rewrite IH, rows_of_diff_v1_app, <- app_assoc. reflexivity.
Qed.

Lemma compare_group_nth (records : list record) :
  compare_group DD pid records []
  = flat_map
      (fun k => comparison_rows DD pid k
                  (nth (k - 2) records []) (nth (k - 1) records []))
      (seq 2 (List.length records - 1)).
Proof.
  destruct records as [|first rest]; [reflexivity|].
  rewrite compare_group_chain, chain_rows_nth.
  replace (List.length (first :: rest) - 1) with (List.length rest)
    by (simpl; lia).
  rewrite !flat_map_concat_map. f_equal.
  apply map_ext_in. intros i Hi. apply in_seq in Hi.
  replace (i - 1) with (S (i - 2)) by lia. reflexivity.
Qed.

Lemma comparison_rows_inv k prev cur row :
  In row (comparison_rows DD pid k prev cur) ->
  exists changes path ch,
    get "values_changed" (DD prev cur) = Some changes
    /\ In (path, ch) changes
    /\ row = mkRow pid k (path_to_field path) (DeepDiffLib.old_value ch)
               (DeepDiffLib.new_value ch) (pick_change_dt prev)
               (pick_change_dt cur).
Proof.
  unfold comparison_rows, rows_of_diff.
  destruct (get "values_changed" (DD prev cur)) as [changes|]; [|intros []].
  rewrite fold_append_map. simpl. intros H. apply in_map_iff in H.
  destruct H as [[path ch] [<- Hin]]. exists changes, path, ch. auto.
Qed.

End SequencerFacts.

(** ** Timestamp resolver *)

Lemma pick_change_dt_resolve (r : record) :
  pick_change_dt r
  = resolve_field (py_or (get "lastMdfcnDt" r) (get "ingested_at" r)).
Proof.
  unfold pick_change_dt, resolve_field.
  destruct (py_or _ _) as [[[]| | |]|]; reflexivity.
Qed.

Lemma pick_change_dt_primary (r : record) (v : value) :
  get "lastMdfcnDt" r = Some v -> truthy v = true ->
  pick_change_dt r = Some (to_text v).
Proof.
  intros Hget Ht. rewrite pick_change_dt_resolve, Hget. unfold py_or.
  rewrite Ht. destruct v as [[]| | |]; try reflexivity. discriminate.
Qed.

Lemma pick_change_dt_fallback (r : record) :
  no_primary r -> pick_change_dt r = resolve_field (get "ingested_at" r).
Proof.
  intros [Hnone | [v [Hget Hf]]]; rewrite pick_change_dt_resolve.
  - now rewrite Hnone.
  - rewrite Hget. unfold py_or. now rewrite Hf.
Qed.

Lemma primary_cases (r : record) :
  no_primary r
  \/ exists v, get "lastMdfcnDt" r = Some v /\ truthy v = true.
Proof.
  unfold no_primary. destruct (get "lastMdfcnDt" r) as [v|].
  - destruct (truthy v) eqn:Ht; [right | left; right]; exists v; auto.
  - left. left. reflexivity.
Qed.

(** ** Path formatter *)

Module TextFacts.
Import PyText.

Lemma append_nil_r (s : string) : (s ++ "")%string = s.
Proof. induction s as [|c s IH]; simpl; [reflexivity | now rewrite IH]. Qed.

Lemma append_assoc (a b c : string) :
  ((a ++ b) ++ c)%string = (a ++ (b ++ c))%string.
Proof. induction a as [|x a IH]; simpl; [reflexivity | now rewrite IH]. Qed.

Lemma concat_empty_cons (x : string) (xs : list string) :
  String.concat "" (x :: xs) = (x ++ String.concat "" xs)%string.
Proof.
  destruct xs as [|y ys]; simpl; [now rewrite append_nil_r | reflexivity].
Qed.

Lemma drop_append (u v : string) : drop (String.length u) (u ++ v) = v.
Proof. induction u as [|c u IH]; simpl; [now destruct v | exact IH]. Qed.

Lemma take_append (u v : string) : take (String.length u) (u ++ v) = u.
Proof.
  induction u as [|c u IH]; simpl; [now destruct v | now rewrite IH].
Qed.

Lemma has_char_cons (c d : ascii) (s : string) :
  has_char c (String d s) = false ->
  Ascii.eqb d c = false /\ has_char c s = false.
Proof.
  simpl. intros H. apply Bool.orb_false_iff in H. destruct H as [H1 H2].
  rewrite Ascii.eqb_sym. auto.
Qed.

End TextFacts.

Module RegexFacts.
Import PyText PathRegex TextFacts.

Lemma findall_aux_skip (u v : string) (n : nat) :
  findall_aux (String.length u + n) (u ++ v) = findall_aux n v.
Proof. induction u as [|c u IH]; simpl; [reflexivity | exact IH]. Qed.

Lemma match_here_other (c : ascii) (s : string) :
  Ascii.eqb c lbracket = false -> match_here (String c s) = None.
Proof. intros H. destruct s; simpl; [reflexivity | now rewrite H]. Qed.

(** The greedy group first runs over the key and its closing quote. *)
Lemma run_length_key (k rest : string) :
  has_char rbracket k = false ->
  run_length (k ++ String quote (String rbracket rest)) = S (String.length k).
Proof.
  induction k as [|c k IH]; intros H; simpl; [reflexivity|].
  apply has_char_cons in H. destruct H as [Hc Hk].
  rewrite Hc. now rewrite IH.
Qed.

(** It then gives the quote back, and the match ends after the bracket. *)
Lemma match_here_key (k rest : string) :
  plain_key k = true ->
  match_here
    (String lbracket (String quote (k ++ String quote (String rbracket rest))))
  = Some k.
Proof.
  unfold plain_key. intros H.
  apply Bool.andb_true_iff in H. destruct H as [H Hq].
  apply Bool.andb_true_iff in H. destruct H as [Hne Hrb].
  apply Bool.negb_true_iff in Hrb.
  unfold match_here. rewrite !Ascii.eqb_refl. cbn [andb].
  rewrite (run_length_key k rest Hrb).
  set (body := (k ++ String quote (String rbracket rest))%string).
  assert (Hdrop1 : drop (S (String.length k)) body = String rbracket rest).
  { unfold body. replace (S (String.length k))
      with (String.length (k ++ String quote "")).
    - replace (k ++ String quote (String rbracket rest))%string
        with ((k ++ String quote "") ++ String rbracket rest)%string
        by now rewrite append_assoc.
      apply drop_append.
    - clear. induction k as [|c k IH]; simpl; [reflexivity | now rewrite IH]. }
  cbn [try_lengths]. rewrite Hdrop1. cbn [prefix].
  destruct (ascii_dec "'" rbracket) as [E|_]; [discriminate E|].
  destruct k as [|c k]; [discriminate Hne|].
  cbn [String.length try_lengths].
  change (S (String.length k)) with (String.length (String c k)).
  unfold body. rewrite drop_append, take_append.
  unfold quote, rbracket. cbn. now destruct rest.
Qed.

Lemma findall_aux_key (k rest : string) :
  plain_key k = true ->
  findall_aux 0
    (String lbracket (String quote (k ++ String quote (String rbracket rest))))
  = k :: findall_aux 0 rest.
Proof.
  intros H. cbn [findall_aux]. rewrite (match_here_key k rest H).
  f_equal. replace (String.length k + 3) with (S (String.length k + 2)) by lia.
  cbn [findall_aux]. rewrite findall_aux_skip. reflexivity.
Qed.

End RegexFacts.

Lemma seg_str_plain (k : string) :
  plain_key k = true ->
  DeepDiffLib.seg_str (DeepDiffLib.Key k)
  = String PathRegex.lbracket
      (String PathRegex.quote
         (k ++ String PathRegex.quote (String PathRegex.rbracket ""))).
Proof.
  unfold plain_key. intros H.
  apply Bool.andb_true_iff in H. destruct H as [_ Hq].
  apply Bool.negb_true_iff in Hq.
  unfold DeepDiffLib.seg_str, DeepDiffLib.stringify_element.
  change PyRepr.squote with PathRegex.quote. rewrite Hq.
  simpl. now rewrite TextFacts.append_assoc.
Qed.

Lemma findall_plain_keys (keys : list string) :
  Forall (fun k => plain_key k = true) keys ->
  PathRegex.findall_aux 0
    (String.concat "" (map DeepDiffLib.seg_str (map DeepDiffLib.Key keys)))
  = keys.
Proof.
  induction 1 as [|k keys Hk _ IH]; [reflexivity|].
  cbn [map]. rewrite TextFacts.concat_empty_cons, (seg_str_plain k Hk).
  simpl append. rewrite TextFacts.append_assoc. simpl append.
  rewrite (RegexFacts.findall_aux_key k _ Hk). now rewrite IH.
Qed.

(** ** The comparison library *)

Module HashFacts.
Import DeepDiffLib.

Lemma same_hash_list (l1 l2 : list json) :
  same_hash (JList l1) (JList l2)
  = forallb (fun x => existsb (same_hash x) l2) l1
    && forallb (fun y => existsb (fun x => same_hash x y) l1) l2.
Proof.
  reflexivity.
Qed.

Lemma same_hash_dict (d1 d2 : list (string * json)) :
  same_hash (JDict d1) (JDict d2)
  = forallb
      (fun kx =>
         private (fst kx)
         || existsb (fun kv => String.eqb (fst kx) (fst kv)
                               && same_hash (snd kx) (snd kv)) d2) d1
    && forallb
         (fun kv =>
            private (fst kv)
            || existsb (fun kx => String.eqb (fst kx) (fst kv)
                                  && same_hash (snd kx) (snd kv)) d1) d2.
Proof.
  cbn [same_hash]. f_equal.
  - induction d1 as [|[k x] d1 IH]; [reflexivity|].
    cbn [forallb fst snd]. now rewrite <- IH.
  - induction d2 as [|kv d2 IH2]; [reflexivity|].
    cbn [forallb]. rewrite <- IH2. f_equal. f_equal.
    clear IH2. induction d1 as [|[k x] d1 IH]; [reflexivity|].
    cbn [existsb fst snd]. f_equal. exact IH.
Qed.

(** A value has the digest of itself. *)
Lemma same_hash_refl : forall j, same_hash j j = true.
Proof.
  induction j as [| b | z | s | l IH | d IH] using json_induction.
  - reflexivity.
  - cbn. now destruct b.
  - cbn. apply Z.eqb_refl.
  - cbn. apply String.eqb_refl.
  - rewrite same_hash_list. rewrite Forall_forall in IH.
    apply Bool.andb_true_iff. split; apply forallb_forall; intros x Hx;
      apply existsb_exists; exists x; auto.
  - rewrite same_hash_dict. rewrite Forall_forall in IH.
    apply Bool.andb_true_iff.
    split; apply forallb_forall; intros kx Hx; apply Bool.orb_true_iff; right;
      apply existsb_exists; exists kx; (split; [exact Hx|]);
      rewrite String.eqb_refl; cbn [andb]; apply (IH kx Hx).
Qed.

(** Two lists with the same items, in any order, have the same digest. *)
Lemma same_hash_permutation (l1 l2 : list json) :
  Permutation l1 l2 -> same_hash (JList l1) (JList l2) = true.
Proof.
  intros Hperm. rewrite same_hash_list. apply Bool.andb_true_iff.
  split; apply forallb_forall; intros x Hx; apply existsb_exists; exists x;
    (split; [|apply same_hash_refl]).
  - apply (Permutation_in _ Hperm Hx).
  - apply (Permutation_in _ (Permutation_sym Hperm) Hx).
Qed.

End HashFacts.

Module ListFacts.

Lemma get_in {A : Type} (k : string) (d : list (string * A)) (v : A) :
  get k d = Some v -> In (k, v) d.
Proof.
  induction d as [|[k' v'] d IH]; simpl; [discriminate|].
  destruct (String.eqb k k') eqn:E.
  - intros H. injection H as ->. apply String.eqb_eq in E. subst. now left.
  - intros H. right. auto.
Qed.

Lemma get_map {A B : Type} (f : A -> B) (k : string) (d : list (string * A)) :
  get k (map (fun kv => (fst kv, f (snd kv))) d) = option_map f (get k d).
Proof.
  induction d as [|[k' v'] d IH]; simpl; [reflexivity|].
  destruct (String.eqb k k'); [reflexivity | exact IH].
Qed.

Lemma get_some_key {A : Type} (k : string) (d : list (string * A)) (v : A) :
  get k d = Some v -> In k (map fst d).
Proof. intros H. apply get_in in H. apply (in_map fst) in H. exact H. Qed.

Lemma Forall_flat_map {A B : Type} (P : B -> Prop) (f : A -> list B)
    (l : list A) :
  (forall x, In x l -> Forall P (f x)) -> Forall P (flat_map f l).
Proof.
  intros H. apply Forall_forall. intros y Hy. apply in_flat_map in Hy.
  destruct Hy as [x [Hx Hy]]. specialize (H x Hx).
  rewrite Forall_forall in H. auto.
Qed.

Lemma enumerate_in {B : Type} (l : list B) :
  forall k i b, In (i, b) (enumerate k l) -> In b l.
Proof.
  induction l as [|x l IH]; intros k i b; simpl; [tauto|].
  intros [H | H]; [injection H as _ ->; now left | right; eauto].
Qed.

Lemma enumerate_bound {B : Type} (l : list B) :
  forall k i b, In (i, b) (enumerate k l) -> k <= i.
Proof.
  induction l as [|x l IH]; intros k i b; simpl; [tauto|].
  intros [H | H]; [injection H as -> _; lia | apply IH in H; lia].
Qed.

Lemma enumerate_unique {B : Type} (l : list B) :
  forall k i b b',
    In (i, b) (enumerate k l) -> In (i, b') (enumerate k l) -> b = b'.
Proof.
  induction l as [|x l IH]; intros k i b b'; simpl; [tauto|].
  intros [H | H] [H' | H'].
  - injection H as _ <-. injection H' as _ <-. reflexivity.
  - injection H as <- _. apply enumerate_bound in H'. lia.
  - injection H' as <- _. apply enumerate_bound in H. lia.
  - eauto.
Qed.

Lemma enumerate_snd {B : Type} (l : list B) :
  forall k, map snd (enumerate k l) = l.
Proof.
  induction l as [|x l IH]; intros k; simpl; [reflexivity | now rewrite IH].
Qed.

Lemma enumerate_nth {B : Type} (l : list B) :
  forall k i b, In (i, b) (enumerate k l) -> nth_error l (i - k) = Some b.
Proof.
  induction l as [|x l IH]; intros k i b; simpl; [tauto|].
  intros [H | H].
  - injection H as -> ->. now rewrite Nat.sub_diag.
  - pose proof (enumerate_bound _ _ _ _ H) as Hb. apply IH in H.
    replace (i - k) with (S (i - S k)) by lia. exact H.
Qed.

Lemma filter_nil {A : Type} (f : A -> bool) (l : list A) :
  (forall x, In x l -> f x = false) -> filter f l = [].
Proof.
  induction l as [|x l IH]; intros H; simpl; [reflexivity|].
  rewrite (H x (or_introl eq_refl)). apply IH. intros y Hy. apply H. now right.
Qed.

Lemma filter_all {A : Type} (f : A -> bool) (l : list A) :
  (forall x, In x l -> f x = true) -> filter f l = l.
Proof.
  induction l as [|x l IH]; intros H; simpl; [reflexivity|].
  rewrite (H x (or_introl eq_refl)). f_equal. apply IH. intros y Hy.
  apply H. now right.
Qed.

Lemma existsb_eqb_in (k : string) (l : list string) :
  existsb (String.eqb k) l = true <-> In k l.
Proof.
  rewrite existsb_exists. split.
  - intros [x [Hx E]]. apply String.eqb_eq in E. now subst.
  - intros H. exists k. split; [exact H | apply String.eqb_refl].
Qed.

End ListFacts.

Module EngineFacts.
Import DeepDiffLib ListFacts.

Lemma hashtable_in {B : Type} (item : B -> json) (l : list (nat * B)) :
  forall seen e, In e (hashtable item seen l) -> In e l.
Proof.
  induction l as [|[i b] l IH]; intros seen e; simpl; [tauto|].
  destruct (existsb _ seen).
  - intros H. right. eauto.
  - intros [H | H]; [now left | right; eauto].
Qed.

Lemma diff_json_eq excl pairing thr_a thr_b (t1 : json) (p : path) (t2 : json) :
  diff_json excl pairing thr_a thr_b t1 p t2
  = let changed :=
      report_result excl values_changed p (Cell (VJson t1)) (Cell (VJson t2)) in
    if skip_this excl p then []
    else if negb (pytype_eqb (type_of_json t1) (type_of_json t2))
    then report_result excl type_changes p (Cell (VJson t1)) (Cell (VJson t2))
    else
      match t1, t2 with
      | JBool a, JBool b => if Bool.eqb a b then [] else changed
      | JInt a, JInt b => if Z.eqb a b then [] else changed
      | JStr a, JStr b => if String.eqb a b then [] else changed
      | JDict d1, JDict d2 =>
          diff_dict excl thr_a thr_b (fun x => Cell (VJson x)) p
            (map (fun kv => (fst kv, (snd kv,
                    diff_json excl pairing thr_a thr_b (snd kv)))) d1)
            d2 (Cell (VJson t1)) (Cell (VJson t2))
      | JList l1, JList l2 =>
          diff_iterable excl pairing p
            (map (fun x => (x, diff_json excl pairing thr_a thr_b x)) l1) l2
      | _, _ => []
      end.
Proof.
  destruct t1; try reflexivity.
  cbn [diff_json]. cbv zeta.
  destruct (skip_this excl p); [reflexivity|].
  destruct (negb _); [reflexivity|].
  destruct t2; try reflexivity.
  f_equal. apply map_ext. intros [k x]. reflexivity.
Qed.

(** *** What every reported level satisfies *)

Section Invariant.

Variable excl : list string.
Variable pairing : path -> list json -> list json -> list (nat * nat).
Variables thr_a thr_b : nat.

(** [R p q]: a comparison at path [p] may report a level at path [q]. *)
Variable R : path -> path -> Prop.
Hypothesis R_here : forall p, skip_this excl p = false -> R p p.
Hypothesis R_up :
  forall p s q, skip_this excl p = false -> R (p ++ [s]) q -> R p q.

Local Abbreviation all_R p := (Forall (fun l => R p (lpath l))).

Lemma report_result_R ty p a b : all_R p (report_result excl ty p a b).
Proof.
  unfold report_result. destruct (skip_this excl p) eqn:E; constructor.
  - now apply R_here.
  - constructor.
Qed.

Lemma all_R_up p s ls :
  skip_this excl p = false -> all_R (p ++ [s]) ls -> all_R p ls.
Proof.
  intros Hp. apply Forall_impl. intros l. now apply R_up.
Qed.

Lemma diff_dict_R {A : Type} (embed : A -> pyobj) p
    (t1 : list (string * (A * differ A))) t2 w1 w2 :
  skip_this excl p = false ->
  (forall k a d, In (k, (a, d)) t1 -> forall p' b, all_R p' (d p' b)) ->
  all_R p (diff_dict excl thr_a thr_b embed p t1 t2 w1 w2).
Proof.
  intros Hp H. unfold diff_dict.
  destruct (too_different _ _ _ _ _ _); [apply report_result_R|].
  apply Forall_app; split; [|apply Forall_app; split];
    apply Forall_flat_map; intros k _.
  - destruct (get k t2); [|constructor].
    apply (all_R_up p (Key k)); [exact Hp | apply report_result_R].
  - destruct (get k t1) as [[a d]|]; [|constructor].
    apply (all_R_up p (Key k)); [exact Hp | apply report_result_R].
  - destruct (get k t1) as [[a d]|] eqn:E1; [|constructor].
    destruct (get k t2) as [b|]; [|constructor].
    apply (all_R_up p (Key k)); [exact Hp|].
    apply (H k a d). now apply get_in.
Qed.

Lemma diff_added_R p pairs (added : list (nat * json)) :
  skip_this excl p = false ->
  forall removed,
    (forall i a d, In (i, (a, d)) removed -> forall p' b, all_R p' (d p' b)) ->
    all_R p (fst (diff_added excl p pairs removed added)).
Proof.
  intros Hp. induction added as [|[i2 b] added IH]; intros removed H.
  - constructor.
  - cbn [diff_added].
    destruct (get_other_pair pairs removed i2) as [[i1 [a d]]|] eqn:E;
      cbn [fst snd].
    + apply Forall_app. split.
      * apply (all_R_up p (Idx i1)); [exact Hp|]. apply (H i1 a d).
        unfold get_other_pair in E.
        destruct (find _ pairs) as [pr|]; [|discriminate].
        apply find_some in E. tauto.
      * apply IH. intros i a' d' Hin. apply filter_In in Hin.
        apply (H i a' d'). tauto.
    + apply Forall_app. split.
      * apply (all_R_up p (Idx i2)); [exact Hp | apply report_result_R].
      * now apply IH.
Qed.

Lemma diff_iterable_R p (t1 : list (json * differ json)) t2 :
  skip_this excl p = false ->
  (forall a d, In (a, d) t1 -> forall p' b, all_R p' (d p' b)) ->
  all_R p (diff_iterable excl pairing p t1 t2).
Proof.
  intros Hp H. unfold diff_iterable. apply Forall_app. split.
  - apply diff_added_R; [exact Hp|]. intros i a d Hin.
    apply filter_In in Hin. destruct Hin as [Hin _].
    apply hashtable_in in Hin. apply enumerate_in in Hin. now apply (H a d).
  - apply Forall_flat_map. intros r _.
    apply (all_R_up p (Idx (fst r))); [exact Hp | apply report_result_R].
Qed.

Lemma diff_json_R : forall t1 p t2,
  all_R p (diff_json excl pairing thr_a thr_b t1 p t2).
Proof.
  induction t1 as [| b | z | s | l IH | d IH] using json_induction;
    intros p t2; rewrite diff_json_eq; cbv zeta;
    (destruct (skip_this excl p) eqn:Hp; [constructor|]);
    (destruct (negb _); [apply report_result_R|]);
    destruct t2; try constructor.
  - destruct (Bool.eqb _ _); [constructor | apply report_result_R].
  - destruct (Z.eqb _ _); [constructor | apply report_result_R].
  - destruct (String.eqb _ _); [constructor | apply report_result_R].
  - apply diff_iterable_R; [exact Hp|]. intros a f Hin.
    apply in_map_iff in Hin. destruct Hin as [x [E Hx]]. injection E as <- <-.
    rewrite Forall_forall in IH. intros p' b. now apply IH.
  - apply diff_dict_R; [exact Hp|]. intros k a f Hin.
    apply in_map_iff in Hin. destruct Hin as [kx [E Hx]].
    injection E as <- <- <-.
    rewrite Forall_forall in IH. intros p' b. now apply (IH kx).
Qed.

Lemma diff_value_R t1 p t2 :
  all_R p (diff_value excl pairing thr_a thr_b t1 p t2).
Proof.
  unfold diff_value.
  destruct (skip_this excl p); [constructor|].
  destruct (negb _); [apply report_result_R|].
  destruct t1, t2; try constructor.
  - apply diff_json_R.
  - destruct (Timestamp_eqb _ _); [constructor | apply report_result_R].
  - destruct (datetime_eqb _ _); [constructor | apply report_result_R].
  - destruct (Nat.eqb _ _); [constructor | apply report_result_R].
Qed.

Lemma diff_root_R base other :
  all_R [] (diff_root excl pairing thr_a thr_b base other).
Proof.
  unfold diff_root. destruct (skip_this excl []) eqn:Hp; [constructor|].
  apply diff_dict_R; [exact Hp|]. intros k a f Hin.
  apply in_map_iff in Hin. destruct Hin as [kx [E Hx]].
  injection E as <- <- <-. intros p' b. apply diff_value_R.
Qed.

End Invariant.

(** *** The clean-up of the tree view and the text view *)

Lemma report_type_eqb_eq (a b : report_type) :
  report_type_eqb a b = true <-> a = b.
Proof. destruct a, b; simpl; split; intros H; try reflexivity; discriminate. Qed.

Lemma set_item_in {V : Type} (k0 : string) (v0 : V) (d : list (string * V)) :
  forall k v, In (k, v) (set_item k0 v0 d) -> (k = k0 /\ v = v0) \/ In (k, v) d.
Proof.
  induction d as [|[k' v'] d IH]; intros k v; simpl.
  - intros [H | []]. injection H as <- <-. now left.
  - destruct (String.eqb k0 k') eqn:E.
    + apply String.eqb_eq in E. subst k'.
      intros [H | H]; [injection H as <- <-; now left | right; now right].
    + intros [H | H]; [right; now left|].
      apply IH in H. destruct H as [H | H]; [now left | right; now right].
Qed.

Lemma set_item_keys {V : Type} (k0 : string) (v0 : V) (d : list (string * V)) :
  forall k, In k (map fst (set_item k0 v0 d)) <-> k = k0 \/ In k (map fst d).
Proof.
  induction d as [|[k' v'] d IH]; intros k; simpl.
  - split; [intros [<- | []]; now left | intros [-> | []]; now left].
  - destruct (String.eqb k0 k') eqn:E; simpl.
    + apply String.eqb_eq in E. subst k'.
      split; intros Hx; repeat destruct Hx as [Hx | Hx]; subst; auto.
    + rewrite IH.
      split; intros Hx; repeat destruct Hx as [Hx | Hx]; subst; auto.
Qed.

Lemma fold_set_item_in {X V : Type} (key : X -> string) (val : X -> V)
    (xs : list X) :
  forall d0 k v,
    In (k, v) (fold_left (fun d x => set_item (key x) (val x) d) xs d0) ->
    (exists x, In x xs /\ k = key x /\ v = val x) \/ In (k, v) d0.
Proof.
  induction xs as [|x xs IH]; intros d0 k v; simpl; [now right|].
  intros H. apply IH in H. destruct H as [[y [Hy E]] | H].
  - left. exists y. split; [now right | exact E].
  - apply set_item_in in H. destruct H as [[-> ->] | H]; [|now right].
    left. exists x. split; [now left | split; reflexivity].
Qed.

Lemma fold_set_item_keys {X V : Type} (key : X -> string) (val : X -> V)
    (xs : list X) :
  forall d0 k,
    In k (map fst (fold_left (fun d x => set_item (key x) (val x) d) xs d0))
    <-> In k (map key xs) \/ In k (map fst d0).
Proof.
  induction xs as [|x xs IH]; intros d0 k; simpl; [tauto|].
  rewrite IH, set_item_keys.
  split; intros Hx; repeat destruct Hx as [Hx | Hx]; subst; auto.
Qed.

Lemma by_path_in (ls : list (nat * level)) (k : string) (il : nat * level) :
  In (k, il) (by_path ls) -> In il ls /\ k = path_str (lpath (snd il)).
Proof.
  unfold by_path. intros H.
  apply (fold_set_item_in (fun il => path_str (lpath (snd il))) (fun il => il))
    in H.
  destruct H as [[x [Hx [-> ->]]] | []]. auto.
Qed.

Lemma text_of_in (ty : report_type) (tree : list level) (s : string) (c : change) :
  In (s, c) (text_of ty tree) ->
  exists l, In l tree /\ report l = ty /\ s = path_str (lpath l)
            /\ c = mkChange (lv_t1 l) (lv_t2 l).
Proof.
  unfold text_of. intros H.
  apply (fold_set_item_in (fun l => path_str (lpath l))
           (fun l => mkChange (lv_t1 l) (lv_t2 l))) in H.
  destruct H as [[l [Hl [-> ->]]] | []].
  unfold of_type in Hl. apply filter_In in Hl. destruct Hl as [Hl Hty].
  apply report_type_eqb_eq in Hty. exists l. auto.
Qed.

Lemma text_of_key (ty : report_type) (tree : list level) (l : level) :
  In l tree -> report l = ty ->
  exists c, In (path_str (lpath l), c) (text_of ty tree).
Proof.
  intros Hl Hty.
  assert (Hk : In (path_str (lpath l)) (map fst (text_of ty tree))).
  { unfold text_of.
    apply (fold_set_item_keys (fun l => path_str (lpath l))
             (fun l => mkChange (lv_t1 l) (lv_t2 l))).
    left. apply (in_map (fun l => path_str (lpath l))).
    unfold of_type. apply filter_In. split; [exact Hl|].
    now apply report_type_eqb_eq. }
  apply in_map_iff in Hk. destruct Hk as [[k c] [E Hin]]. simpl in E. subst k.
  now exists c.
Qed.

Lemma get_values_changed (tree : list level) :
  get "values_changed" (to_text_view tree)
  = match text_of values_changed tree with
    | [] => None
    | entries => Some entries
    end.
Proof.
  unfold to_text_view. cbn [flat_map].
  destruct (text_of type_changes tree); destruct (text_of dictionary_item_added tree);
    destruct (text_of dictionary_item_removed tree);
    destruct (text_of values_changed tree);
    destruct (text_of iterable_item_added tree);
    destruct (text_of iterable_item_removed tree); reflexivity.
Qed.

(** A level of the final tree is a level reported by the comparison, or a
    changed value made of a removal and an addition that the comparison
    reported at the same path text. *)
Lemma mutual_add_removes_in (tree : list level) (l : level) :
  In l (mutual_add_removes tree) ->
  In l tree
  \/ exists before after,
       In before tree /\ In after tree
       /\ report before = iterable_item_removed
       /\ report after = iterable_item_added
       /\ path_str (lpath before) = path_str (lpath after)
       /\ l = mkLevel values_changed (lpath before) (lv_t1 before) (lv_t2 after).
Proof.
  unfold mutual_add_removes. intros H. apply in_app_or in H.
  destruct H as [H | H].
  - left. apply in_map_iff in H. destruct H as [[i l'] [<- H]].
    apply filter_In in H. destruct H as [H _].
    apply enumerate_in in H. exact H.
  - right. apply in_map_iff in H. destruct H as [[[i1 l1] [i2 l2]] [<- H]].
    apply in_flat_map in H. destruct H as [[k [i l']] [Hk H]]. cbn [fst snd] in H.
    destruct (get k _) as [level_after|] eqn:E; [|destruct H].
    destruct H as [H | []]. injection H as -> -> ->.
    apply filter_In in Hk. destruct Hk as [Hk _].
    apply by_path_in in Hk. destruct Hk as [Hin1 Hk1]. cbn [snd] in Hk1.
    apply filter_In in Hin1. destruct Hin1 as [Hin1 Hty1].
    apply report_type_eqb_eq in Hty1. cbn [snd] in Hty1.
    apply get_in, by_path_in in E. destruct E as [Hin2 Hk2]. cbn [snd] in Hk2.
    apply filter_In in Hin2. destruct Hin2 as [Hin2 Hty2].
    apply report_type_eqb_eq in Hty2. cbn [snd] in Hty2.
    apply enumerate_in in Hin1. apply enumerate_in in Hin2.
    exists l1, l2. cbn [fst snd]. repeat split; auto. congruence.
Qed.

End EngineFacts.

(** ** Exclusion *)

Module ExclusionFacts.
Import DeepDiffLib ListFacts EngineFacts.

(** No level is reported at an excluded path or below one. *)
Lemma diff_root_prefixes excl pairing thr_a thr_b base other l :
  In l (diff_root excl pairing thr_a thr_b base other) ->
  forall r1 r2, lpath l = r1 ++ r2 -> skip_this excl r1 = false.
Proof.
  intros Hin.
  pose (R := fun p q : path =>
               exists r, q = p ++ r
                         /\ forall r1 r2, r = r1 ++ r2 ->
                                          skip_this excl (p ++ r1) = false).
  assert (HR : Forall (fun l => R [] (lpath l))
                 (diff_root excl pairing thr_a thr_b base other)).
  { apply diff_root_R.
    - intros p Hp. exists []. split; [now rewrite app_nil_r|].
      intros r1 r2 E. symmetry in E. apply app_eq_nil in E.
      destruct E as [-> _]. now rewrite app_nil_r.
    - intros p s q Hp [r [-> Hr]]. exists (s :: r).
      split; [now rewrite <- app_assoc|].
      intros r1 r2 E. destruct r1 as [|s' r1].
      + now rewrite app_nil_r.
      + injection E as <- E.
        replace (p ++ s :: r1) with ((p ++ [s]) ++ r1)
          by now rewrite <- app_assoc.
        now apply (Hr r1 r2). }
  rewrite Forall_forall in HR. destruct (HR l Hin) as [r [E Hr]].
  intros r1 r2 E'. apply (Hr r1 r2). now rewrite <- E'.
Qed.

Lemma tree_view_prefixes excl pairing thr_a thr_b base other l :
  In l (tree_view excl pairing thr_a thr_b base other) ->
  forall r1 r2, lpath l = r1 ++ r2 -> skip_this excl r1 = false.
Proof.
  unfold tree_view. intros Hin. apply mutual_add_removes_in in Hin.
  destruct Hin as [Hin | [before [after [Hin [_ [_ [_ [_ ->]]]]]]]].
  - exact (diff_root_prefixes _ _ _ _ _ _ _ Hin).
  - cbn [lpath]. exact (diff_root_prefixes _ _ _ _ _ _ _ Hin).
Qed.

Lemma skip_this_false_not_in excl p :
  skip_this excl p = false -> ~ In (path_str p) excl.
Proof.
  unfold skip_this. intros H Hin.
  assert (existsb (String.eqb (path_str p)) excl = true).
  { apply existsb_exists. exists (path_str p). split; [exact Hin|].
    apply String.eqb_refl. }
  congruence.
Qed.

Lemma skip_excluded_name n :
  In n excluded_names -> skip_this exclude_paths [Key n] = true.
Proof.
  intros H. repeat (destruct H as [<- | H]; [reflexivity|]). destruct H.
Qed.

(** The changed values the scripts read come from levels of the tree. *)
Lemma values_changed_level excl pairing thr_a thr_b base other changes path ch :
  get "values_changed" (DeepDiffLib.DeepDiff excl pairing thr_a thr_b base other)
    = Some changes ->
  In (path, ch) changes ->
  exists l,
    In l (tree_view excl pairing thr_a thr_b base other)
    /\ report l = values_changed /\ path = path_str (lpath l)
    /\ ch = mkChange (lv_t1 l) (lv_t2 l).
Proof.
  unfold DeepDiffLib.DeepDiff. rewrite get_values_changed. intros Hget Hin.
  apply text_of_in.
  destruct (text_of values_changed _); [discriminate|].
  injection Hget as <-. exact Hin.
Qed.

End ExclusionFacts.

(** ** Type changes, null and missing keys *)

Module DictFacts.
Import DeepDiffLib ListFacts EngineFacts.

Lemma pytype_eqb_eq (a b : pytype) : pytype_eqb a b = true <-> a = b.
Proof. destruct a, b; simpl; split; intros H; try reflexivity; discriminate. Qed.

Lemma pytype_eqb_neq (a b : pytype) : a <> b -> negb (pytype_eqb a b) = true.
Proof.
  intros H. destruct (pytype_eqb a b) eqn:E; [|reflexivity].
  apply pytype_eqb_eq in E. contradiction.
Qed.

(** Two dicts with the same single key: the items are compared. *)
Lemma diff_dict_single {A : Type} excl thr_a thr_b (embed : A -> pyobj) p k
    (a : A) (da : differ A) (b : A) w1 w2 :
  diff_dict excl thr_a thr_b embed p [(k, (a, da))] [(k, b)] w1 w2
  = if private k then [] else da (p ++ [Key k]) b.
Proof.
  unfold diff_dict, too_different, visible_keys. cbn [map fst filter].
  destruct (private k); cbn [negb filter existsb app List.length flat_map].
  - reflexivity.
  - rewrite !String.eqb_refl. cbn [orb negb filter app flat_map get existsb].
    rewrite !String.eqb_refl. cbn [orb negb filter app flat_map get existsb].
    destruct (negb (existsb _ excl)); cbn [List.length Nat.ltb Nat.leb andb];
      apply app_nil_r.
Qed.

(** A single key against no key: one removal. *)
Lemma diff_dict_removed {A : Type} excl thr_a thr_b (embed : A -> pyobj) p k
    (a : A) (da : differ A) w1 w2 :
  diff_dict excl thr_a thr_b embed p [(k, (a, da))] [] w1 w2
  = if private k then []
    else report_result excl dictionary_item_removed (p ++ [Key k])
           (embed a) notpresent.
Proof.
  unfold diff_dict, too_different, visible_keys. cbn [map fst filter].
  destruct (private k); cbn [negb filter existsb app List.length flat_map].
  - reflexivity.
  - cbn [orb negb filter app flat_map get existsb].
    rewrite ?String.eqb_refl.
    destruct (negb (existsb _ excl));
      cbn [List.length Nat.ltb Nat.leb andb app]; now rewrite ?app_nil_r.
Qed.

(** No key against a single key: one addition. *)
Lemma diff_dict_added {A : Type} excl thr_a thr_b (embed : A -> pyobj) p k
    (b : A) w1 w2 :
  diff_dict excl thr_a thr_b embed p [] [(k, b)] w1 w2
  = if private k then []
    else report_result excl dictionary_item_added (p ++ [Key k])
           notpresent (embed b).
Proof.
  unfold diff_dict, too_different, visible_keys. cbn [map fst filter].
  destruct (private k); cbn [negb filter existsb app List.length flat_map].
  - reflexivity.
  - cbn [orb negb filter app flat_map get existsb].
    rewrite ?String.eqb_refl.
    destruct (negb (existsb _ excl));
      cbn [List.length Nat.ltb Nat.leb andb app]; now rewrite ?app_nil_r.
Qed.


Lemma diff_value_types excl pairing thr_a thr_b v1 p v2 :
  type_of v1 <> type_of v2 ->
  diff_value excl pairing thr_a thr_b v1 p v2
  = if skip_this excl p then []
    else [mkLevel type_changes p (Cell v1) (Cell v2)].
Proof.
  intros H. unfold diff_value, report_result.
  destruct (skip_this excl p); [reflexivity|].
  now rewrite (pytype_eqb_neq _ _ H).
Qed.

(** The rows of two snapshots are those of their one comparison. *)
Lemma change_log_pair pairing thr_a thr_b pid base other :
  change_log pairing thr_a thr_b pid [base; other]
  = rows_of_diff pid 2 (pick_change_dt base) (pick_change_dt other)
      (snapshot_diff pairing thr_a thr_b base other) [].
Proof. reflexivity. Qed.

Lemma diff_root_single pairing thr_a thr_b k v1 v2 :
  diff_root exclude_paths pairing thr_a thr_b (single k v1) (single k v2)
  = if private k then []
    else diff_value exclude_paths pairing thr_a thr_b v1 [Key k] v2.
Proof.
  unfold diff_root, single. cbn [map fst snd].
  change (skip_this exclude_paths []) with false. cbv iota.
  apply diff_dict_single.
Qed.



Lemma change_log_nil pairing thr_a thr_b pid base other :
  text_of values_changed
    (mutual_add_removes (diff_root exclude_paths pairing thr_a thr_b base other))
  = [] ->
  change_log pairing thr_a thr_b pid [base; other] = [].
Proof.
  intros H. rewrite change_log_pair. unfold rows_of_diff, snapshot_diff.
  unfold DeepDiffLib.DeepDiff, tree_view. rewrite get_values_changed, H.
  reflexivity.
Qed.

End DictFacts.

(** ** Order of list items *)

Module IterableFacts.
Import DeepDiffLib ListFacts EngineFacts DictFacts HashFacts.

Lemma get_other_pair_single pairs (r : nat * (json * differ json)) i2 :
  get_other_pair pairs [r] i2 = Some r \/ get_other_pair pairs [r] i2 = None.
Proof.
  unfold get_other_pair. destruct (find _ pairs) as [pr|] eqn:E; [|now right].
  apply find_some in E. destruct E as [_ E].
  apply Bool.andb_true_iff in E. destruct E as [_ E]. cbn [existsb] in E.
  rewrite Bool.orb_false_r in E. left. cbn [find]. now rewrite E.
Qed.

(** Two lists with the same digest: nothing is added, nothing is removed,
    nothing is reported. *)
Lemma diff_json_same_hash_lists excl pairing thr_a thr_b l1 l2 p :
  same_hash (JList l1) (JList l2) = true ->
  diff_json excl pairing thr_a thr_b (JList l1) p (JList l2) = [].
Proof.
  intros H. rewrite same_hash_list in H.
  apply Bool.andb_true_iff in H. destruct H as [H1 H2].
  rewrite forallb_forall in H1, H2.
  rewrite diff_json_eq. cbv zeta.
  destruct (skip_this excl p); [reflexivity|].
  cbn [type_of_json pytype_eqb negb]. unfold diff_iterable.
  rewrite map_map. cbn [fst]. rewrite map_id.
  rewrite (filter_nil _ (hashtable (fun b => b) [] (enumerate 0 l2))).
  2:{ intros [i y] Hin. apply hashtable_in, enumerate_in in Hin.
      cbn [snd]. now rewrite (H2 y Hin). }
  rewrite (filter_nil _ (hashtable fst [] (enumerate 0 (map _ l1)))).
  2:{ intros [i [x f]] Hin. apply hashtable_in, enumerate_in in Hin.
      apply in_map_iff in Hin. destruct Hin as [x' [E Hx]].
      injection E as <- _. cbn [fst snd]. now rewrite (H1 x' Hx). }
  reflexivity.
Qed.

End IterableFacts.

(** ** Exclusion matches exact top-level paths only *)

Module NestedFacts.
Import PyText DeepDiffLib ListFacts EngineFacts DictFacts TextFacts.

Lemma length_append (a b : string) :
  String.length (a ++ b) = String.length a + String.length b.
Proof. induction a as [|c a IH]; simpl; [reflexivity | now rewrite IH]. Qed.

Lemma append_cancel_r (t : string) :
  forall a b : string, (a ++ t)%string = (b ++ t)%string -> a = b.
Proof.
  induction a as [|c a IH]; intros [|d b] H; simpl in H.
  - reflexivity.
  - apply (f_equal String.length) in H. simpl in H. rewrite length_append in H. lia.
  - apply (f_equal String.length) in H. simpl in H. rewrite length_append in H. lia.
  - injection H as -> H. f_equal. now apply IH.
Qed.

Lemma count_char_append c (a b : string) :
  count_char c (a ++ b) = count_char c a + count_char c b.
Proof. induction a as [|d a IH]; simpl; [reflexivity | rewrite IH; lia]. Qed.

Lemma seg_str_count (s : seg) : 1 <= count_char "]" (seg_str s).
Proof.
  destruct s; unfold seg_str; rewrite !count_char_append; simpl; lia.
Qed.

Lemma concat_seg_count (p : path) :
  List.length p <= count_char "]" (String.concat "" (map seg_str p)).
Proof.
  induction p as [|s p IH]; [simpl; lia|].
  cbn [map]. rewrite concat_empty_cons, count_char_append.
  pose proof (seg_str_count s). simpl List.length. lia.
Qed.

Lemma path_str_count (p : path) :
  List.length p <= count_char "]" (path_str p).
Proof.
  unfold path_str. rewrite count_char_append. pose proof (concat_seg_count p).
  simpl. lia.
Qed.

Lemma str_of_nat_head (i : nat) :
  exists c tl, str_of_nat i = String c tl /\ Ascii.eqb c "'" = false.
Proof.
  unfold str_of_nat, NilZero.string_of_uint.
  destruct (Nat.to_uint i); simpl; eauto.
Qed.

Lemma key_of_excluded (k s : string) :
  In s exclude_paths -> path_str [Key k] = s -> In k excluded_names.
Proof.
  intros Hs E. unfold path_str, seg_str, stringify_element in E.
  cbn [map String.concat] in E.
  apply (f_equal (drop 5)) in E. cbn [append drop] in E.
  cbv zeta in E.
  destruct (has_char PyRepr.squote k).
  { exfalso. repeat (destruct Hs as [<- | Hs]; [discriminate E|]). destruct Hs. }
  apply (f_equal (drop 1)) in E. cbn [append drop] in E.
  rewrite append_assoc in E. cbn [append] in E.
  unfold excluded_names.
  destruct Hs as [<- | Hs].
  { left. symmetry. apply (append_cancel_r "']"). exact E. }
  destruct Hs as [<- | Hs].
  { right; left. symmetry. apply (append_cancel_r "']"). exact E. }
  destruct Hs as [<- | Hs].
  { do 2 right; left. symmetry. apply (append_cancel_r "']"). exact E. }
  destruct Hs as [<- | Hs].
  { do 3 right; left. symmetry. apply (append_cancel_r "']"). exact E. }
  destruct Hs as [<- | Hs].
  { do 4 right; left. symmetry. apply (append_cancel_r "']"). exact E. }
  destruct Hs.
Qed.

Lemma skip_this_iff (p : path) :
  skip_this exclude_paths p = true
  <-> exists n, In n excluded_names /\ p = [Key n].
Proof.
  split.
  - unfold skip_this. intros H. apply existsb_exists in H.
    destruct H as [s [Hs E]]. apply String.eqb_eq in E.
    assert (Hlen : List.length p <= 1).
    { pose proof (path_str_count p) as Hc. rewrite E in Hc.
      repeat (destruct Hs as [<- | Hs]; [exact Hc|]). destruct Hs. }
    destruct p as [|[k|i] [|s' p]]; try (simpl in Hlen; lia).
    + exfalso. repeat (destruct Hs as [<- | Hs]; [discriminate E|]). destruct Hs.
    + exists k. split; [|reflexivity]. now apply (key_of_excluded k s).
    + exfalso. unfold path_str, seg_str in E. cbn [map String.concat] in E.
      destruct (str_of_nat_head i) as [c [tl [Hi Hc]]]. rewrite Hi in E.
      apply (f_equal (drop 5)) in E. cbn [append drop] in E.
      repeat (destruct Hs as [<- | Hs];
              [injection E as E _; subst c; discriminate Hc|]).
      destruct Hs.
  - intros [n [Hn ->]]. 
    repeat (destruct Hn as [<- | Hn]; [reflexivity|]). destruct Hn.
Qed.

Lemma visible_keys_map {A B : Type} (f : A -> B) (d : list (string * A)) :
  visible_keys (map (fun kv => (fst kv, f (snd kv))) d) = visible_keys d.
Proof.
  unfold visible_keys. rewrite map_map. cbn [fst]. reflexivity.
Qed.

(** A key of both dicts, when the comparison goes below them: whatever the
    comparison of its two items reports is reported. *)
Lemma diff_dict_shared {A : Type} excl thr_a thr_b (embed : A -> pyobj) p
    (t1 : list (string * (A * differ A))) t2 w1 w2 k x da y l :
  too_different excl thr_a thr_b p (visible_keys t1) (visible_keys t2) = false ->
  private k = false ->
  get k t1 = Some (x, da) -> get k t2 = Some y ->
  In l (da (p ++ [Key k]) y) ->
  In l (diff_dict excl thr_a thr_b embed p t1 t2 w1 w2).
Proof.
  intros Hdeep Hk H1 H2 Hl. unfold diff_dict. rewrite Hdeep.
  apply in_or_app. right. apply in_or_app. right.
  apply in_flat_map. exists k. split.
  - apply filter_In. split.
    + unfold visible_keys. apply filter_In. split.
      * now apply (get_some_key k t2 y).
      * now rewrite Hk.
    + apply existsb_eqb_in. unfold visible_keys. apply filter_In. split.
      * now apply (get_some_key k t1 (x, da)).
      * now rewrite Hk.
  - now rewrite H1, H2.
Qed.

Lemma enumerate_in_ex {B : Type} (l : list B) (b : B) :
  In b l -> forall k, exists i, In (i, b) (enumerate k l).
Proof.
  induction l as [|x l IH]; intros H k; [destruct H|].
  destruct H as [-> | H].
  - exists k. now left.
  - destruct (IH H (S k)) as [i Hi]. exists i. now right.
Qed.

(** The clean-up leaves every level other than an addition to or a removal
    from a list in place. *)
Lemma mutual_keeps (tree : list level) (l : level) :
  In l tree ->
  report l <> iterable_item_added -> report l <> iterable_item_removed ->
  In l (mutual_add_removes tree).
Proof.
  intros Hl Ha Hr. unfold mutual_add_removes. apply in_or_app. left.
  destruct (enumerate_in_ex tree l Hl 0) as [i Hi].
  apply in_map_iff. exists (i, l). split; [reflexivity|].
  apply filter_In. split; [exact Hi|].
  apply Bool.negb_true_iff. apply Bool.not_true_is_false. intros Hex.
  apply existsb_exists in Hex. destruct Hex as [j [Hj E]].
  apply Nat.eqb_eq in E. cbn [fst] in E. subst j.
  apply in_flat_map in Hj. destruct Hj as [[[i1 l1] [i2 l2]] [Hm Hj]].
  cbn [fst snd] in Hj.
  apply in_flat_map in Hm. destruct Hm as [[k [i0 l0]] [Hk Hm]].
  cbn [fst snd] in Hm.
  destruct (get k _) as [after|] eqn:Eg; [|destruct Hm].
  destruct Hm as [Hm | []]. injection Hm as -> -> ->.
  apply filter_In in Hk. destruct Hk as [Hk _].
  apply by_path_in in Hk. destruct Hk as [Hin1 _].
  apply filter_In in Hin1. destruct Hin1 as [Hin1 Hty1].
  apply report_type_eqb_eq in Hty1. cbn [snd] in Hty1.
  apply get_in, by_path_in in Eg. destruct Eg as [Hin2 _].
  apply filter_In in Hin2. destruct Hin2 as [Hin2 Hty2].
  apply report_type_eqb_eq in Hty2. cbn [snd] in Hty2.
  destruct Hj as [<- | [<- | []]].
  - pose proof (enumerate_unique _ _ _ _ _ Hi Hin1) as <-. contradiction.
  - pose proof (enumerate_unique _ _ _ _ _ Hi Hin2) as <-. contradiction.
Qed.

Lemma diff_json_scalar excl pairing thr_a thr_b v1 v2 p :
  scalar v1 = true -> type_of_json v1 = type_of_json v2 -> v1 <> v2 ->
  skip_this excl p = false ->
  diff_json excl pairing thr_a thr_b v1 p v2
  = [mkLevel values_changed p (Cell (VJson v1)) (Cell (VJson v2))].
Proof.
  intros Hs Hty Hne Hp. rewrite diff_json_eq. cbv zeta.
  unfold report_result. rewrite Hp, Hty.
  destruct v1; try discriminate Hs; destruct v2; try discriminate Hty;
    cbn [type_of_json pytype_eqb negb].
  - destruct (Bool.eqb b b0) eqn:E; [|reflexivity].
    apply Bool.eqb_prop in E. now subst.
  - destruct (Z.eqb z z0) eqn:E; [|reflexivity].
    apply Z.eqb_eq in E. now subst.
  - destruct (String.eqb s s0) eqn:E; [|reflexivity].
    apply String.eqb_eq in E. now subst.
Qed.

(** A changed value of the tree gives a row. *)
Lemma level_gives_row pairing thr_a thr_b pid base other l :
  In l (tree_view exclude_paths pairing thr_a thr_b base other) ->
  report l = values_changed ->
  exists row,
    In row (change_log pairing thr_a thr_b pid [base; other])
    /\ compare_seq row = 2
    /\ field row = format (lpath l).
Proof.
  intros Hl Hty. destruct (text_of_key values_changed _ l Hl Hty) as [c Hc].
  rewrite change_log_pair. unfold rows_of_diff, snapshot_diff.
  unfold DeepDiffLib.DeepDiff. rewrite get_values_changed.
  destruct (text_of values_changed _) as [|e es] eqn:E; [destruct Hc|].
  rewrite fold_append_map. cbn [app].
  eexists. split.
  - apply in_map. exact Hc.
  - split; reflexivity.
Qed.

Lemma skip_below (p : path) :
  2 <= List.length p -> skip_this exclude_paths p = false.
Proof.
  intros H. destruct (skip_this exclude_paths p) eqn:E; [|reflexivity].
  apply skip_this_iff in E. destruct E as [n [_ ->]]. simpl in H. lia.
Qed.

Lemma nested_leaf pairing thr_a thr_b (ks : list string) :
  forall t1 t2 p v1 v2,
    skip_this exclude_paths p = false -> 1 <= List.length p ->
    at_json (map Key ks) t1 = Some v1 -> at_json (map Key ks) t2 = Some v2 ->
    dives_along thr_a thr_b p ks t1 t2 ->
    scalar v1 = true -> type_of_json v1 = type_of_json v2 -> v1 <> v2 ->
    In (mkLevel values_changed (p ++ map Key ks) (Cell (VJson v1)) (Cell (VJson v2)))
       (diff_json exclude_paths pairing thr_a thr_b t1 p t2).
Proof.
  induction ks as [|k ks IH]; intros t1 t2 p v1 v2 Hp Hlen H1 H2 Hd Hs Hty Hne.
  - cbn in H1, H2. injection H1 as ->. injection H2 as ->.
    cbn [map]. rewrite app_nil_r.
    rewrite (diff_json_scalar _ _ _ _ _ _ _ Hs Hty Hne Hp). now left.
  - cbn [map at_json] in H1, H2.
    destruct t1 as [| | | | |d1]; try discriminate H1.
    destruct t2 as [| | | | |d2]; try discriminate H2.
    cbn [dives_along] in Hd. destruct Hd as [Hdeep [Hpriv Hd]].
    destruct (get k d1) as [x1|] eqn:E1; [|discriminate H1].
    destruct (get k d2) as [x2|] eqn:E2; [|discriminate H2].
    rewrite diff_json_eq. cbv zeta. rewrite Hp.
    cbn [type_of_json pytype_eqb negb].
    apply (diff_dict_shared _ _ _ _ _ _ _ _ _ k x1
             (diff_json exclude_paths pairing thr_a thr_b x1) x2).
    + rewrite (visible_keys_map
                 (fun v => (v, diff_json exclude_paths pairing thr_a thr_b v))).
      exact Hdeep.
    + exact Hpriv.
    + rewrite (get_map (fun v => (v, diff_json exclude_paths pairing thr_a thr_b v))), E1.
      reflexivity.
    + exact E2.
    + replace (p ++ map Key (k :: ks)) with ((p ++ [Key k]) ++ map Key ks)
        by (cbn [map]; now rewrite <- app_assoc).
      apply IH; try assumption.
      * apply skip_below. rewrite length_app. simpl. lia.
      * rewrite length_app. simpl. lia.
Qed.

Lemma diff_value_json excl pairing thr_a thr_b a p b :
  diff_value excl pairing thr_a thr_b (VJson a) p (VJson b)
  = diff_json excl pairing thr_a thr_b a p b.
Proof.
  unfold diff_value. cbn [type_of].
  destruct (skip_this excl p) eqn:Hs.
  - rewrite diff_json_eq. cbv zeta. now rewrite Hs.
  - destruct (negb _) eqn:Ht; [|reflexivity].
    rewrite diff_json_eq. cbv zeta. now rewrite Hs, Ht.
Qed.

End NestedFacts.

(** ** A comparison with itself, and comparisons that report no changed
    value *)

Module QuietFacts.
Import PyText DeepDiffLib ListFacts EngineFacts DictFacts TextFacts HashFacts
       IterableFacts NestedFacts.

Lemma flat_map_nil {A B : Type} (f : A -> list B) (l : list A) :
  (forall x, In x l -> f x = []) -> flat_map f l = [].
Proof.
  induction l as [|x l IH]; intros H; simpl; [reflexivity|].
  rewrite (H x (or_introl eq_refl)). apply IH. intros y Hy. apply H. now right.
Qed.

Lemma filter_length_le {A : Type} (f : A -> bool) (l : list A) :
  List.length (filter f l) <= List.length l.
Proof.
  induction l as [|x l IH]; simpl; [lia|]. destruct (f x); simpl; lia.
Qed.

(** Two dicts with the same keys are never too different. *)
Lemma too_different_same_keys excl thr_a thr_b p (ks : list string) :
  too_different excl thr_a thr_b p ks ks = false.
Proof.
  unfold too_different.
  rewrite (filter_all (fun k => existsb (String.eqb k) ks) ks)
    by (intros k Hk; now apply existsb_eqb_in).
  rewrite (filter_nil (fun k => negb (existsb (String.eqb k) ks)) ks)
    by (intros k Hk; apply Bool.negb_false_iff; now apply existsb_eqb_in).
  rewrite app_nil_r.
  set (u := filter _ ks). pose proof (filter_length_le
    (fun k => negb (existsb (String.eqb (path_str p ++ "[" ++ PyRepr.repr_str k ++ "]")) excl)) ks) as Hle.
  fold u in Hle.
  apply Bool.andb_false_iff. right. apply Nat.ltb_ge. nia.
Qed.

Lemma diff_dict_same {A : Type} excl thr_a thr_b (embed : A -> pyobj) p
    (f : A -> differ A) (d : list (string * A)) w1 w2 :
  (forall k x, In (k, x) d -> forall p', f x p' x = []) ->
  diff_dict excl thr_a thr_b embed p
    (map (fun kv => (fst kv, (snd kv, f (snd kv)))) d) d w1 w2 = [].
Proof.
  intros H. unfold diff_dict.
  rewrite (visible_keys_map (fun v => (v, f v))).
  rewrite too_different_same_keys.
  set (ks := visible_keys d).
  rewrite (filter_all (fun k => existsb (String.eqb k) ks) ks)
    by (intros k Hk; now apply existsb_eqb_in).
  rewrite (filter_nil (fun k => negb (existsb (String.eqb k) ks)) ks)
    by (intros k Hk; apply Bool.negb_false_iff; now apply existsb_eqb_in).
  cbn [flat_map app]. apply flat_map_nil. intros k _.
  rewrite (get_map (fun v => (v, f v))).
  destruct (get k d) as [x|] eqn:E; [|reflexivity]. cbn [option_map].
  apply (H k x). now apply get_in.
Qed.

Lemma diff_json_refl excl pairing thr_a thr_b :
  forall t p, diff_json excl pairing thr_a thr_b t p t = [].
Proof.
  induction t as [| b | z | s | l IH | d IH] using json_induction; intros p.
  - rewrite diff_json_eq. cbv zeta. destruct (skip_this excl p); reflexivity.
  - rewrite diff_json_eq. cbv zeta. destruct (skip_this excl p); [reflexivity|].
    cbn. now destruct b.
  - rewrite diff_json_eq. cbv zeta. destruct (skip_this excl p); [reflexivity|].
    cbn. now rewrite Z.eqb_refl.
  - rewrite diff_json_eq. cbv zeta. destruct (skip_this excl p); [reflexivity|].
    cbn. now rewrite String.eqb_refl.
  - apply diff_json_same_hash_lists. apply same_hash_refl.
  - rewrite diff_json_eq. cbv zeta. destruct (skip_this excl p); [reflexivity|].
    cbn [type_of_json pytype_eqb negb].
    apply (diff_dict_same excl thr_a thr_b (fun x => Cell (VJson x)) p
             (diff_json excl pairing thr_a thr_b)).
    intros k x Hin p'. rewrite Forall_forall in IH. apply (IH (k, x) Hin).
Qed.
Lemma datetime_eqb_refl d : datetime_eqb d d = true.
Proof. unfold datetime_eqb. now rewrite !Nat.eqb_refl. Qed.

Lemma Timestamp_eqb_refl t : Timestamp_eqb t t = true.
Proof. unfold Timestamp_eqb. now rewrite datetime_eqb_refl, Nat.eqb_refl. Qed.

Lemma diff_value_refl excl pairing thr_a thr_b v p :
  diff_value excl pairing thr_a thr_b v p v = [].
Proof.
  unfold diff_value. destruct (skip_this excl p); [reflexivity|].
  destruct v; cbn [type_of pytype_eqb negb].
  - destruct (pytype_eqb (type_of_json j) (type_of_json j)) eqn:E.
    + cbn [negb]. apply diff_json_refl.
    + assert (pytype_eqb (type_of_json j) (type_of_json j) = true)
        by now apply pytype_eqb_eq.
      congruence.
  - now rewrite Timestamp_eqb_refl.
  - now rewrite datetime_eqb_refl.
  - now rewrite Nat.eqb_refl.
Qed.

(** When the comparison goes below the snapshots and every shared column
    holds equal values or values of different types, only added keys, removed
    keys and type changes are reported. *)
Lemma diff_root_quiet pairing thr_a thr_b base other :
  too_different exclude_paths thr_a thr_b [] (visible_keys base) (visible_keys other) = false ->
  (forall k v v', get k base = Some v -> get k other = Some v' ->
                  v = v' \/ type_of v <> type_of v') ->
  forall l, In l (diff_root exclude_paths pairing thr_a thr_b base other) ->
    report l = dictionary_item_added \/ report l = dictionary_item_removed
    \/ report l = type_changes.
Proof.
  intros Hdeep H l. unfold diff_root.
  change (skip_this exclude_paths []) with false. cbv iota.
  unfold diff_dict.
  rewrite (visible_keys_map (fun v => (v, diff_value exclude_paths pairing thr_a thr_b v))).
  rewrite Hdeep. intros Hin.
  apply in_app_or in Hin. destruct Hin as [Hin | Hin];
    [|apply in_app_or in Hin; destruct Hin as [Hin | Hin]];
    apply in_flat_map in Hin; destruct Hin as [k [_ Hin]].
  - destruct (get k other); [|destruct Hin]. unfold report_result in Hin.
    destruct (skip_this _ _); [destruct Hin|]. destruct Hin as [<- | []]. now left.
  - rewrite (get_map (fun v => (v, diff_value exclude_paths pairing thr_a thr_b v))) in Hin.
    destruct (get k base); [|destruct Hin]. cbn [option_map] in Hin.
    unfold report_result in Hin.
    destruct (skip_this _ _); [destruct Hin|]. destruct Hin as [<- | []].
    right. now left.
  - rewrite (get_map (fun v => (v, diff_value exclude_paths pairing thr_a thr_b v))) in Hin.
    destruct (get k base) as [v|] eqn:Eb; [|destruct Hin]. cbn [option_map] in Hin.
    destruct (get k other) as [v'|] eqn:Eo; [|destruct Hin].
    destruct (H k v v' Eb Eo) as [<- | Hty].
    + rewrite diff_value_refl in Hin. destruct Hin.
    + rewrite (diff_value_types _ _ _ _ _ _ _ Hty) in Hin.
      destruct (skip_this _ _); [destruct Hin|]. destruct Hin as [<- | []].
      right. now right.
Qed.

Lemma change_log_quiet pairing thr_a thr_b pid base other :
  (forall l, In l (diff_root exclude_paths pairing thr_a thr_b base other) ->
     report l = dictionary_item_added \/ report l = dictionary_item_removed
     \/ report l = type_changes) ->
  change_log pairing thr_a thr_b pid [base; other] = [].
Proof.
  intros H. apply change_log_nil. unfold text_of, of_type.
  rewrite filter_nil; [reflexivity|].
  intros l Hl. apply mutual_add_removes_in in Hl.
  destruct Hl as [Hl | [before [after [Hb [_ [Hty _]]]]]].
  - destruct (H l Hl) as [E | [E | E]]; now rewrite E.
  - destruct (H before Hb) as [E | [E | E]]; rewrite E in Hty; discriminate.
Qed.
End QuietFacts.

(** ** Where the old value of a level comes from *)

Module OldValueFacts.
Import DeepDiffLib ListFacts EngineFacts.

Section Generic.

Variable excl : list string.
Variable pairing : path -> list json -> list json -> list (nat * nat).
Variables thr_a thr_b : nat.
Variable Q : level -> Prop.

Lemma report_result_Q ty p a b :
  Q (mkLevel ty p a b) -> Forall Q (report_result excl ty p a b).
Proof.
  intros H. unfold report_result. destruct (skip_this excl p); repeat constructor.
  exact H.
Qed.

Lemma diff_dict_Q {A : Type} (embed : A -> pyobj) p
    (t1 : list (string * (A * differ A))) t2 w1 w2 :
  Q (mkLevel values_changed p w1 w2) ->
  (forall k b, Q (mkLevel dictionary_item_added (p ++ [Key k]) notpresent (embed b))) ->
  (forall k a da, get k t1 = Some (a, da) ->
     Q (mkLevel dictionary_item_removed (p ++ [Key k]) (embed a) notpresent)) ->
  (forall k a da b, get k t1 = Some (a, da) -> Forall Q (da (p ++ [Key k]) b)) ->
  Forall Q (diff_dict excl thr_a thr_b embed p t1 t2 w1 w2).
Proof.
  intros H0 H1 H2 H3. unfold diff_dict.
  destruct (too_different _ _ _ _ _ _); [now apply report_result_Q|].
  apply Forall_app; split; [|apply Forall_app; split];
    apply Forall_flat_map; intros k _.
  - destruct (get k t2); [|constructor]. apply report_result_Q, H1.
  - destruct (get k t1) as [[a d]|] eqn:E; [|constructor].
    apply report_result_Q, (H2 k a d E).
  - destruct (get k t1) as [[a d]|] eqn:E1; [|constructor].
    destruct (get k t2) as [b|]; [|constructor].
    apply (H3 k a d b E1).
Qed.

Lemma diff_added_Q p pairs (added : list (nat * json)) :
  (forall i b, Q (mkLevel iterable_item_added (p ++ [Idx i]) notpresent (Cell (VJson b)))) ->
  forall removed,
    (forall i a d b, In (i, (a, d)) removed -> Forall Q (d (p ++ [Idx i]) b)) ->
    Forall Q (fst (diff_added excl p pairs removed added))
    /\ incl (snd (diff_added excl p pairs removed added)) removed.
Proof.
  intros H1. induction added as [|[i2 b] added IH]; intros removed H.
  - split; [constructor | apply incl_refl].
  - cbn [diff_added].
    destruct (get_other_pair pairs removed i2) as [[i1 [a d]]|] eqn:E;
      cbn [fst snd].
    + assert (Hsub : incl (filter (fun r => negb (Nat.eqb (fst r) i1)) removed) removed).
      { intros r Hr. apply filter_In in Hr. tauto. }
      destruct (IH (filter (fun r => negb (Nat.eqb (fst r) i1)) removed)) as [IH1 IH2].
      { intros i a' d' b' Hin. apply (H i a' d' b'). now apply Hsub. }
      split.
      * apply Forall_app. split; [|exact IH1].
        apply (H i1 a d).
        unfold get_other_pair in E.
        destruct (find _ pairs) as [pr|]; [|discriminate].
        apply find_some in E. tauto.
      * intros r Hr. apply Hsub, IH2, Hr.
    + destruct (IH removed H) as [IH1 IH2]. split; [|exact IH2].
      apply Forall_app. split; [|exact IH1]. apply report_result_Q, H1.
Qed.

Lemma diff_iterable_Q p (t1 : list (json * differ json)) t2 :
  (forall i b, Q (mkLevel iterable_item_added (p ++ [Idx i]) notpresent (Cell (VJson b)))) ->
  (forall i a d, In (i, (a, d)) (enumerate 0 t1) ->
     Q (mkLevel iterable_item_removed (p ++ [Idx i]) (Cell (VJson a)) notpresent)) ->
  (forall i a d b, In (i, (a, d)) (enumerate 0 t1) -> Forall Q (d (p ++ [Idx i]) b)) ->
  Forall Q (diff_iterable excl pairing p t1 t2).
Proof.
  intros H1 H2 H3. unfold diff_iterable.
  set (removed := filter _ (hashtable fst [] (enumerate 0 t1))).
  assert (Hrem : forall r, In r removed -> In r (enumerate 0 t1)).
  { intros r Hr. apply filter_In in Hr. destruct Hr as [Hr _].
    now apply hashtable_in in Hr. }
  destruct (diff_added_Q p (pairing p (map fst t1) t2)
              (filter (fun e => negb (existsb (fun a => same_hash a (snd e)) (map fst t1)))
                 (hashtable (fun b => b) [] (enumerate 0 t2)))
              H1 removed) as [Ha Hs].
  { intros i a d b Hin. apply (H3 i a d b). now apply Hrem. }
  apply Forall_app. split; [exact Ha|].
  apply Forall_flat_map. intros [i [a d]] Hr. cbn [fst snd].
  apply report_result_Q. apply (H2 i a d). apply Hrem, Hs, Hr.
Qed.

End Generic.

Lemma old_in_here ty p t1 b : 
  old_in p t1 (mkLevel ty p (Cell (VJson t1)) b).
Proof. right. exists [], t1. cbn. now rewrite app_nil_r. Qed.

Lemma old_in_key p k d x l :
  get k d = Some x -> old_in (p ++ [Key k]) x l -> old_in p (JDict d) l.
Proof.
  intros Hg [H | [q [y [Hp [Hq Hv]]]]]; [now left|]. right.
  exists (Key k :: q), y. rewrite <- app_assoc in Hp. cbn [app] in Hp.
  split; [exact Hp|]. split; [|exact Hv]. cbn [at_json]. now rewrite Hg.
Qed.

Lemma old_in_idx p i l0 x l :
  nth_error l0 i = Some x -> old_in (p ++ [Idx i]) x l -> old_in p (JList l0) l.
Proof.
  intros Hg [H | [q [y [Hp [Hq Hv]]]]]; [now left|]. right.
  exists (Idx i :: q), y. rewrite <- app_assoc in Hp. cbn [app] in Hp.
  split; [exact Hp|]. split; [|exact Hv]. cbn [at_json]. now rewrite Hg.
Qed.

Lemma diff_json_old excl pairing thr_a thr_b :
  forall t1 p t2,
    Forall (old_in p t1) (diff_json excl pairing thr_a thr_b t1 p t2).
Proof.
  induction t1 as [| b | z | s | l IH | d IH] using json_induction;
    intros p t2; rewrite diff_json_eq; cbv zeta;
    (destruct (skip_this excl p) eqn:Hp; [constructor|]);
    (destruct (negb _); [apply report_result_Q, old_in_here|]);
    destruct t2; try constructor.
  - destruct (Bool.eqb _ _); [constructor | apply report_result_Q, old_in_here].
  - destruct (Z.eqb _ _); [constructor | apply report_result_Q, old_in_here].
  - destruct (String.eqb _ _); [constructor | apply report_result_Q, old_in_here].
  - assert (Hnth : forall i a f,
              In (i, (a, f)) (enumerate 0 (map (fun x => (x, diff_json excl pairing thr_a thr_b x)) l)) ->
              nth_error l i = Some a /\ f = diff_json excl pairing thr_a thr_b a).
    { intros i a f Hin. apply enumerate_nth in Hin. rewrite Nat.sub_0_r in Hin.
      rewrite nth_error_map in Hin. destruct (nth_error l i) as [x|]; [|discriminate].
      cbn in Hin. injection Hin as <- <-. auto. }
    apply diff_iterable_Q.
    + intros i b. left. now right.
    + intros i a f Hin. destruct (Hnth i a f Hin) as [Hn _].
      apply (old_in_idx p i l a _ Hn). apply old_in_here.
    + intros i a f b Hin. destruct (Hnth i a f Hin) as [Hn ->].
      rewrite Forall_forall in IH.
      pose proof (IH a (nth_error_In _ _ Hn) (p ++ [Idx i]) b) as Hall.
      revert Hall. apply Forall_impl. intros lv. now apply old_in_idx.
  - apply diff_dict_Q.
    + apply old_in_here.
    + intros k b. left. now left.
    + intros k a f Hg.
      rewrite (get_map (fun v => (v, diff_json excl pairing thr_a thr_b v))) in Hg.
      destruct (get k d) as [x|] eqn:E; [|discriminate]. cbn in Hg. injection Hg as <- <-.
      apply (old_in_key p k d x _ E). apply old_in_here.
    + intros k a f b Hg.
      rewrite (get_map (fun v => (v, diff_json excl pairing thr_a thr_b v))) in Hg.
      destruct (get k d) as [x|] eqn:E; [|discriminate]. cbn in Hg. injection Hg as <- <-.
      rewrite Forall_forall in IH.
      pose proof (IH (k, x) (get_in _ _ _ E) (p ++ [Key k]) b) as Hall.
      revert Hall. apply Forall_impl. intros lv. now apply old_in_key.
Qed.

Lemma diff_value_old excl pairing thr_a thr_b v p v' :
  Forall (fun l =>
            (report l = dictionary_item_added \/ report l = iterable_item_added)
            \/ exists q, lpath l = p ++ q /\ at_value q v = Some (lv_t1 l))
    (diff_value excl pairing thr_a thr_b v p v').
Proof.
  assert (Hhere : forall ty b,
            (fun l => (report l = dictionary_item_added \/ report l = iterable_item_added)
               \/ exists q, lpath l = p ++ q /\ at_value q v = Some (lv_t1 l))
              (mkLevel ty p (Cell v) b)).
  { intros ty b. right. exists []. cbn. now rewrite app_nil_r. }
  unfold diff_value.
  destruct (skip_this excl p); [constructor|].
  destruct (negb _); [apply report_result_Q, Hhere|].
  destruct v as [j| | |], v' as [j'| | |]; try constructor.
  - pose proof (diff_json_old excl pairing thr_a thr_b j p j') as H.
    revert H. apply Forall_impl. intros l [H | [q [x [Hp [Hq Hv]]]]]; [now left|].
    right. exists q. split; [exact Hp|]. rewrite Hv.
    destruct q as [|s q]; cbn [at_value].
    + cbn in Hq. now injection Hq as ->.
    + now rewrite Hq.
  - destruct (Timestamp_eqb _ _); [constructor | apply report_result_Q, Hhere].
  - destruct (datetime_eqb _ _); [constructor | apply report_result_Q, Hhere].
  - destruct (Nat.eqb _ _); [constructor | apply report_result_Q, Hhere].
Qed.

Lemma diff_root_old excl pairing thr_a thr_b base other :
  Forall (old_from base) (diff_root excl pairing thr_a thr_b base other).
Proof.
  unfold diff_root. destruct (skip_this excl []); [constructor|].
  apply diff_dict_Q.
  - right. reflexivity.
  - intros k b. left. now left.
  - intros k a f Hg.
    rewrite (get_map (fun v => (v, diff_value excl pairing thr_a thr_b v))) in Hg.
    destruct (get k base) as [v|] eqn:E; [|discriminate].
    cbn in Hg. injection Hg as <- <-.
    right. cbn. now rewrite E.
  - intros k a f b Hg.
    rewrite (get_map (fun v => (v, diff_value excl pairing thr_a thr_b v))) in Hg.
    destruct (get k base) as [v|] eqn:E; [|discriminate].
    cbn in Hg. injection Hg as <- <-.
    pose proof (diff_value_old excl pairing thr_a thr_b v ([] ++ [Key k]) b) as H.
    revert H. apply Forall_impl. intros l [H | [q [Hp Hq]]]; [now left|].
    right. rewrite Hp. cbn. now rewrite E.
Qed.

Lemma tree_view_old excl pairing thr_a thr_b base other l :
  In l (tree_view excl pairing thr_a thr_b base other) ->
  report l = values_changed ->
  at_path (lpath l) base = Some (lv_t1 l).
Proof.
  unfold tree_view. intros Hin Hty.
  pose proof (diff_root_old excl pairing thr_a thr_b base other) as Hall.
  rewrite Forall_forall in Hall.
  apply mutual_add_removes_in in Hin.
  destruct Hin as [Hin | [before [after [Hb [_ [Htyb [_ [_ ->]]]]]]]].
  - destruct (Hall l Hin) as [[E | E] | H]; [congruence | congruence | exact H].
  - cbn. destruct (Hall before Hb) as [[E | E] | H];
      [congruence | congruence | exact H].
Qed.

End OldValueFacts.

(** The old value of a row is the value found in the base snapshot at the
    path the row was formatted from. *)
Lemma row_old_value pairing thr_a thr_b pid k prev cur row :
  In row (comparison_rows (snapshot_diff pairing thr_a thr_b) pid k prev cur) ->
  exists p, field row = format p /\ at_path p prev = Some (old_value row).
Proof.
  intros Hrow. apply comparison_rows_inv in Hrow.
  destruct Hrow as [changes [path [ch [Hget [Hch ->]]]]].
  destruct (ExclusionFacts.values_changed_level _ _ _ _ _ _ _ _ _ Hget Hch)
    as [l [Hl [Hty [-> ->]]]].
  exists (DeepDiffLib.lpath l). split; [reflexivity|]. cbn.
  now apply (OldValueFacts.tree_view_old _ _ _ _ _ _ _ Hl).
Qed.

(** ** The types of the two values of a changed value *)

Module TypeFacts.
Import DeepDiffLib ListFacts EngineFacts.








End TypeFacts.

(** ** An item of a list replaced by an item of another type *)

Module ItemFacts.
Import DeepDiffLib ListFacts EngineFacts DictFacts IterableFacts NestedFacts.






End ItemFacts.


(** ** Lists with the same items *)

Module SetFacts.
Import DeepDiffLib.

Lemma same_items_hash (l1 l2 : list json) :
  same_items l1 l2 <-> same_hash (JList l1) (JList l2) = true.
Proof.
  rewrite HashFacts.same_hash_list, Bool.andb_true_iff, !forallb_forall.
  unfold same_items. split; intros [H1 H2]; split; intros x Hx.
  - apply existsb_exists. destruct (H1 x Hx) as [y Hy]. now exists y.
  - apply existsb_exists. destruct (H2 x Hx) as [y Hy]. now exists y.
  - specialize (H1 x Hx). apply existsb_exists in H1. exact H1.
  - specialize (H2 x Hx). apply existsb_exists in H2. exact H2.
Qed.

Lemma same_items_permutation (l1 l2 : list json) :
  Permutation l1 l2 -> same_items l1 l2.
Proof.
  intros H. apply same_items_hash. now apply HashFacts.same_hash_permutation.
Qed.

Lemma same_items_texts (l1 l2 : list string) :
  (forall s, In s l1 <-> In s l2) -> same_items (map JStr l1) (map JStr l2).
Proof.
  intros H. split; intros x Hx; apply in_map_iff in Hx;
    destruct Hx as [s [<- Hs]]; exists (JStr s);
    (split; [apply in_map; now apply H | apply HashFacts.same_hash_refl]).
Qed.

End SetFacts.

(** ** The entry of the comparison a row is built from *)

Module SourceFacts.
Import ListFacts EngineFacts.

(** Every row comes from a changed value of the final tree of the
    comparison that carries its number. *)
Lemma row_level pairing thr_a thr_b pid (records : list record) row :
  In row (change_log pairing thr_a thr_b pid records) ->
  exists l,
    In l (DeepDiffLib.tree_view exclude_paths pairing thr_a thr_b
            (nth (compare_seq row - 2) records [])
            (nth (compare_seq row - 1) records []))
    /\ DeepDiffLib.report l = DeepDiffLib.values_changed
    /\ built_from pairing thr_a thr_b records row (DeepDiffLib.lpath l)
    /\ old_value row = DeepDiffLib.lv_t1 l
    /\ new_value row = DeepDiffLib.lv_t2 l.
Proof.
  intros Hin. unfold change_log in Hin. rewrite compare_group_nth in Hin.
  apply in_flat_map in Hin. destruct Hin as [k [_ Hrow]].
  pose proof (comparison_rows_seq _ _ _ _ _ _ Hrow) as Hk.
  apply comparison_rows_inv in Hrow.
  destruct Hrow as [changes [path [ch [Hget [Hch E]]]]].
  destruct (ExclusionFacts.values_changed_level _ _ _ _ _ _ _ _ _ Hget Hch)
    as [l [Hl [Hty [Hpath Hchange]]]].
  exists l. subst row path ch. clear Hk. cbn.
  split; [exact Hl|]. split; [exact Hty|]. split; [|split; reflexivity].
  exists changes, (DeepDiffLib.mkChange (DeepDiffLib.lv_t1 l) (DeepDiffLib.lv_t2 l)).
  cbn. auto.
Qed.

End SourceFacts.

(** * The properties of the specification *)

(** C1. Every row of find_diff_2.py numbered k is made from one changed
    value of the comparison of snapshot k-1 (the base) with snapshot k: its
    field, old value and new value are those of that entry and its two
    timestamps are those of snapshots k-1 and k.  For S1={x:1}, S2={x:2},
    S3={x:3} the rows are (2, x, 1, 2) and (3, x, 2, 3).  With the library in
    place, the old value of a row numbered k is the value found in snapshot
    k-1 at the path the field was formatted from. *)
Theorem base_rolls_forward :
  (forall (DD : record -> record -> DeepDiffLib.text_view) (pid : string)
          (records : list record) (row : diff_row),
      In row (compare_group DD pid records []) ->
      let k := compare_seq row in
      let prev := nth (k - 2) records [] in
      let cur := nth (k - 1) records [] in
      2 <= k <= List.length records
      /\ exists changes path ch,
           get "values_changed" (DD prev cur) = Some changes
           /\ In (path, ch) changes
           /\ policy_id row = pid
           /\ field row = path_to_field path
           /\ old_value row = DeepDiffLib.old_value ch
           /\ new_value row = DeepDiffLib.new_value ch
           /\ base_change_dt row = pick_change_dt prev
           /\ change_dt row = pick_change_dt cur)
  /\ (forall pairing thr_a thr_b pid,
        change_log pairing thr_a thr_b pid
          [snapshot_x 1; snapshot_x 2; snapshot_x 3]
        = [mkRow pid 2 "x" (Cell (VJson (JInt 1))) (Cell (VJson (JInt 2)))
             None None;
           mkRow pid 3 "x" (Cell (VJson (JInt 2))) (Cell (VJson (JInt 3)))
             None None])
  /\ (forall pairing thr_a thr_b (pid : string) (records : list record)
             (row : diff_row),
        In row (change_log pairing thr_a thr_b pid records) ->
        exists p : DeepDiffLib.path,
          field row = format p
          /\ at_path p (nth (compare_seq row - 2) records [])
             = Some (old_value row)).
Proof.
  split; [|split].
  - intros DD pid records row Hin. cbv zeta.
    rewrite compare_group_nth in Hin. apply in_flat_map in Hin.
    destruct Hin as [k [Hk Hrow]]. apply in_seq in Hk.
    pose proof (comparison_rows_seq _ _ _ _ _ _ Hrow) as Hseq.
    rewrite Hseq. split; [lia|].
    apply comparison_rows_inv in Hrow.
    destruct Hrow as [changes [path [ch [Hget [Hin ->]]]]].
    exists changes, path, ch. simpl. auto 10.
  - intros pairing thr_a thr_b pid. reflexivity.
  - intros pairing thr_a thr_b pid records row Hin.
    unfold change_log in Hin. rewrite compare_group_nth in Hin.
    apply in_flat_map in Hin. destruct Hin as [k [_ Hrow]].
    rewrite (comparison_rows_seq _ _ _ _ _ _ Hrow).
    destruct (row_old_value _ _ _ _ _ _ _ _ Hrow) as [p [Hf Hat]].
    exists p. split; [exact Hf | exact Hat].
Qed.

Lemma base_rolls_forward_witness :
  let DD := snapshot_diff no_pairs 0 1 in
  let records := [snapshot_x 1; snapshot_x 2; snapshot_x 3] in
  let row := mkRow "P001" 3 "x" (Cell (VJson (JInt 2))) (Cell (VJson (JInt 3)))
               None None in
  In row (compare_group DD "P001" records [])
  /\ 2 <= 3 <= 3
  /\ exists changes path ch,
       get "values_changed" (DD (snapshot_x 2) (snapshot_x 3)) = Some changes
       /\ In (path, ch) changes
       /\ "P001" = "P001"
       /\ "x" = path_to_field path
       /\ Cell (VJson (JInt 2)) = DeepDiffLib.old_value ch
       /\ Cell (VJson (JInt 3)) = DeepDiffLib.new_value ch
       /\ None = pick_change_dt (snapshot_x 2)
       /\ None = pick_change_dt (snapshot_x 3).
Proof.
  intros DD records row.
  assert (Hin : In row (compare_group DD "P001" records [])).
  { right. left. reflexivity. }
  split; [exact Hin|].
  exact (proj1 base_rolls_forward DD "P001" records row Hin).
Defined.

(** find_diff_1.py on the same snapshots: the third snapshot is compared
    with the first one. *)
Lemma find_diff_1_compares_with_first :
  forall pairing thr_a thr_b pid,
    change_log_v1 pairing thr_a thr_b pid
      [snapshot_x 1; snapshot_x 2; snapshot_x 3]
    = [mkRowV1 pid 2 "['x']" (Cell (VJson (JInt 1))) (Cell (VJson (JInt 2)));
       mkRowV1 pid 3 "['x']" (Cell (VJson (JInt 1))) (Cell (VJson (JInt 3)))].
Proof. intros. reflexivity. Qed.

(** C2, counterexample. Two snapshots that differ at lastMdfcnDt inside the
    raw_json payload give a row whose field is the formatted form of the
    excluded path root['lastMdfcnDt']. *)
Lemma excluded_name_reported :
  In "root['lastMdfcnDt']" exclude_paths
  /\ path_to_field "root['lastMdfcnDt']" = "lastMdfcnDt"
  /\ change_log no_pairs 0 1 "P001"
       [[("raw_json", VJson (JDict [("lastMdfcnDt", JStr "2024-01-01")]))];
        [("raw_json", VJson (JDict [("lastMdfcnDt", JStr "2024-02-01")]))]]
     = [mkRow "P001" 2 "lastMdfcnDt" (Cell (VJson (JStr "2024-01-01")))
          (Cell (VJson (JStr "2024-02-01"))) None None].
Proof. split; [now left | split; reflexivity]. Qed.

(** Two snapshots that share too few columns are reported as one changed
    value at the root: the row holds the two whole snapshots, the excluded
    columns with them. *)
Lemma root_row_holds_excluded_columns :
  let base :=
    [("a", VJson (JInt 1)); ("b", VJson (JInt 1)); ("c", VJson (JInt 1));
     ("lastMdfcnDt", VJson (JStr "2024-01-01"))] in
  let other :=
    [("d", VJson (JInt 1)); ("e", VJson (JInt 1)); ("f", VJson (JInt 1));
     ("lastMdfcnDt", VJson (JStr "2024-02-01"))] in
  change_log no_pairs 33 67 "P001" [base; other]
  = [mkRow "P001" 2 "" (Row base) (Row other)
       (Some "2024-01-01") (Some "2024-02-01")].
Proof. reflexivity. Qed.

(** C2, amended. Every row is built from a changed value that the
    comparison of two consecutive snapshots reports at a path that is
    neither one of the five excluded paths nor below one: no prefix of the
    path is excluded, and the path does not start with the key of an
    excluded column.  (The field of the row can still be the bare name of an
    excluded column, from the same key inside raw_json; and a row reported
    at the root holds the whole snapshots, excluded columns included.) *)
Theorem exclusion_invariant :
  forall pairing thr_a thr_b (pid : string) (records : list record)
         (row : diff_row),
    In row (change_log pairing thr_a thr_b pid records) ->
    exists p : DeepDiffLib.path,
      built_from pairing thr_a thr_b records row p
      /\ (forall r1 r2, p = r1 ++ r2 ->
                        ~ In (DeepDiffLib.path_str r1) exclude_paths)
      /\ (forall n r, In n excluded_names -> p <> DeepDiffLib.Key n :: r).
Proof.
  intros pairing thr_a thr_b pid records row Hin.
  destruct (SourceFacts.row_level pairing thr_a thr_b pid records row Hin)
    as [l [Hl [_ [Hbuilt _]]]].
  exists (DeepDiffLib.lpath l). split; [exact Hbuilt|].
  pose proof (ExclusionFacts.tree_view_prefixes _ _ _ _ _ _ _ Hl) as Hpre.
  split.
  - intros r1 r2 E. apply ExclusionFacts.skip_this_false_not_in.
    now apply (Hpre r1 r2).
  - intros n r Hn E.
    pose proof (Hpre [DeepDiffLib.Key n] r E) as Hs.
    rewrite (ExclusionFacts.skip_excluded_name n Hn) in Hs. discriminate.
Qed.

Lemma exclusion_invariant_witness :
  let records :=
    [[("status", VJson (JStr "open")); ("lastMdfcnDt", VJson (JStr "2024-01-01"))];
     [("status", VJson (JStr "closed")); ("lastMdfcnDt", VJson (JStr "2024-02-01"))]] in
  let row := mkRow "P001" 2 "status" (Cell (VJson (JStr "open")))
               (Cell (VJson (JStr "closed")))
               (Some "2024-01-01") (Some "2024-02-01") in
  In row (change_log no_pairs 0 1 "P001" records)
  /\ exists p : DeepDiffLib.path,
       built_from no_pairs 0 1 records row p
       /\ (forall r1 r2, p = r1 ++ r2 ->
                         ~ In (DeepDiffLib.path_str r1) exclude_paths)
       /\ (forall n r, In n excluded_names -> p <> DeepDiffLib.Key n :: r).
Proof.
  intros records row.
  assert (Hin : In row (change_log no_pairs 0 1 "P001" records)).
  { left. reflexivity. }
  split; [exact Hin|].
  exact (exclusion_invariant no_pairs 0 1 "P001" records row Hin).
Defined.

(** C3. For the N snapshots of one policy_id, in time order, the inner loop
    of either script runs over the N-1 later snapshots, numbered 2..N; the
    rows of find_diff_2.py are those of N-1 comparisons, number k comparing
    snapshot k-1 with snapshot k (find_diff_1.py: snapshot 1 with snapshot
    k); every row carries a number between 2 and N; a single snapshot yields
    no row. *)
Theorem chain_length :
  forall (DD : record -> record -> DeepDiffLib.text_view) (pid : string)
         (records : list record),
    let N := List.length records in
    map fst (enumerate 2 (tl records)) = seq 2 (N - 1)
    /\ List.length (enumerate 2 (tl records)) = N - 1
    /\ compare_group DD pid records []
       = flat_map
           (fun k => comparison_rows DD pid k
                       (nth (k - 2) records []) (nth (k - 1) records []))
           (seq 2 (N - 1))
    /\ compare_group_v1 DD pid records []
       = flat_map
           (fun k => comparison_rows_v1 DD pid k
                       (nth 0 records []) (nth (k - 1) records []))
           (seq 2 (N - 1))
    /\ (forall row, In row (compare_group DD pid records []) ->
          2 <= compare_seq row <= N)
    /\ (forall only, compare_group DD pid [only] [] = []
                     /\ compare_group_v1 DD pid [only] [] = []).
Proof.
  intros DD pid records N.
  pose proof (compare_group_nth DD pid records) as Hrows. fold N in Hrows.
  repeat split.
  - subst N. rewrite enumerate_fst. destruct records; [reflexivity|].
    f_equal. simpl. lia.
  - subst N. rewrite enumerate_length. destruct records; simpl; lia.
  - exact Hrows.
  - subst N. destruct records as [|first rest]; [reflexivity|].
    replace (List.length (first :: rest) - 1) with (List.length rest)
      by (simpl; lia).
    unfold compare_group_v1.
    destruct rest as [|second tl]; [reflexivity|].
    rewrite loop_v1_first. cbn [app].
    remember (second :: tl) as rest eqn:Hrest. clear Hrest Hrows.
    assert (Hgen : forall l k,
      flat_map (fun io => comparison_rows_v1 DD pid (fst io) first (snd io))
        (enumerate k l)
      = flat_map
          (fun i => comparison_rows_v1 DD pid i first (nth (i - k) l []))
          (seq k (List.length l))).
    { induction l as [|x l IH]; intros k; [reflexivity|].
      cbn [enumerate flat_map List.length seq fst snd]. rewrite IH.
      rewrite Nat.sub_diag. cbn [nth]. f_equal.
      rewrite !flat_map_concat_map. f_equal.
      apply map_ext_in. intros i Hi. apply in_seq in Hi.
      replace (i - k) with (S (i - S k)) by lia. reflexivity. }
    rewrite Hgen, !flat_map_concat_map. f_equal.
    apply map_ext_in. intros i Hi. apply in_seq in Hi.
    replace (i - 1) with (S (i - 2)) by lia. reflexivity.
  - rewrite Hrows in H. apply in_flat_map in H.
    destruct H as [k [Hk Hrow]]. apply in_seq in Hk.
    apply comparison_rows_seq in Hrow. lia.
  - rewrite Hrows in H. apply in_flat_map in H.
    destruct H as [k [Hk Hrow]]. apply in_seq in Hk.
    apply comparison_rows_seq in Hrow. lia.
Qed.

(** C4, counterexample. With both candidate fields present and empty, or
    holding only white space, the resolver returns the empty text, not the
    absent marker. *)
Lemma resolver_empty_texts_not_absent :
  pick_change_dt [("lastMdfcnDt", VJson (JStr "")); ("ingested_at", VJson (JStr ""))]
    = Some ""
  /\ pick_change_dt
       [("lastMdfcnDt", VJson (JStr "  ")); ("ingested_at", VJson (JStr " "))]
     = Some ""
  /\ Some "" <> (None : option string).
Proof. repeat split; discriminate. Qed.

(** C4, amended. The resolver takes lastMdfcnDt when it is present and
    truthy and ingested_at otherwise; a typed timestamp or datetime becomes
    its ISO text and a text is trimmed, unvalidated; the result is absent
    exactly when lastMdfcnDt is missing or falsy and ingested_at is missing
    or None; when both fields hold empty or white-space-only text the result
    is the empty text. *)
Theorem resolver_contract :
  forall r : record,
    let primary := get "lastMdfcnDt" r in
    let fallback := get "ingested_at" r in
    (forall v, primary = Some v -> truthy v = true ->
       pick_change_dt r = Some (to_text v))
    /\ (no_primary r -> pick_change_dt r = resolve_field fallback)
    /\ (forall t, resolve_field (Some (VTimestamp t))
                  = Some (isoformat (to_pydatetime t)))
    /\ (forall d, resolve_field (Some (VDatetime d)) = Some (isoformat d))
    /\ (forall s, resolve_field (Some (VJson (JStr s))) = Some (PyText.strip s))
    /\ (pick_change_dt r = None
        <-> no_primary r /\ (fallback = None \/ fallback = Some (VJson JNone)))
    /\ (forall s1 s2,
          primary = Some (VJson (JStr s1)) -> fallback = Some (VJson (JStr s2)) ->
          PyText.strip s1 = "" -> PyText.strip s2 = "" ->
          pick_change_dt r = Some "").
Proof.
  intros r primary fallback. subst primary fallback.
  split; [intros v; apply pick_change_dt_primary|].
  split; [apply pick_change_dt_fallback|].
  split; [reflexivity|]. split; [reflexivity|]. split; [reflexivity|].
  split.
  - split.
    + intros Hnone. destruct (primary_cases r) as [Hno | [v [Hget Ht]]].
      * split; [exact Hno|]. rewrite (pick_change_dt_fallback r Hno) in Hnone.
        destruct (get "ingested_at" r) as [[[]| | |]|];
          try discriminate; auto.
      * rewrite (pick_change_dt_primary r v Hget Ht) in Hnone. discriminate.
    + intros [Hno [Hf | Hf]]; rewrite (pick_change_dt_fallback r Hno), Hf;
        reflexivity.
  - intros s1 s2 H1 H2 Hs1 Hs2.
    destruct (primary_cases r) as [Hno | [v [Hget Ht]]].
    + rewrite (pick_change_dt_fallback r Hno), H2. simpl. now rewrite Hs2.
    + rewrite (pick_change_dt_primary r v Hget Ht).
      rewrite H1 in Hget. injection Hget as <-. simpl. now rewrite Hs1.
Qed.




(** The list case on values: [[1]] against [["1"]] gives the row 1 to "1"
    when the library does not pair the two items. *)
Lemma replaced_item_of_another_type :
  forall thr_a thr_b pid,
    change_log no_pairs thr_a thr_b pid
      [single "codes" (VJson (JList [JInt 1]));
       single "codes" (VJson (JList [JStr "1"]))]
    = [mkRow pid 2 "codes" (Cell (VJson (JInt 1))) (Cell (VJson (JStr "1")))
         None None].
Proof. intros. reflexivity. Qed.

(** C6, counterexample. Compared with the field present with "x", the field
    present with null and the field missing both give the same rows as "x"
    compared with itself: none. *)
Lemma null_and_missing_like_present :
  let null := single "note" (VJson JNone) in
  let missing : record := [] in
  let present := single "note" (VJson (JStr "x")) in
  change_log no_pairs 0 1 "P001" [null; present]
    = change_log no_pairs 0 1 "P001" [present; present]
  /\ change_log no_pairs 0 1 "P001" [missing; present]
     = change_log no_pairs 0 1 "P001" [present; present].
Proof. cbv zeta. split; reflexivity. Qed.

(** C6, amended. A field present with null and the same field missing give
    no row between them, in either direction; each of them compared with the
    field present with a text gives no row either, like the text compared
    with itself.  The library does tell the cases apart, in report types the
    loop does not read: a removed key for null against missing, a type change
    for null against the text, an added key for missing against the text,
    nothing for the text against itself.  The same holds with other columns
    around, equal on both sides, when the comparison goes below the
    snapshots. *)
Theorem null_and_missing :
  forall pairing thr_a thr_b (pid k x : string),
    let null := single k (VJson JNone) in
    let missing : record := [] in
    let present := single k (VJson (JStr x)) in
    let tree := DeepDiffLib.diff_root exclude_paths pairing thr_a thr_b in
    let hidden :=
      DeepDiffLib.private k
      || DeepDiffLib.skip_this exclude_paths [DeepDiffLib.Key k] in
    change_log pairing thr_a thr_b pid [null; missing] = []
    /\ change_log pairing thr_a thr_b pid [missing; null] = []
    /\ change_log pairing thr_a thr_b pid [null; present] = []
    /\ change_log pairing thr_a thr_b pid [missing; present] = []
    /\ change_log pairing thr_a thr_b pid [present; present] = []
    /\ tree null missing
       = (if hidden then []
          else [DeepDiffLib.mkLevel DeepDiffLib.dictionary_item_removed
                  [DeepDiffLib.Key k] (Cell (VJson JNone)) notpresent])
    /\ tree null present
       = (if hidden then []
          else [DeepDiffLib.mkLevel DeepDiffLib.type_changes
                  [DeepDiffLib.Key k] (Cell (VJson JNone))
                  (Cell (VJson (JStr x)))])
    /\ tree missing present
       = (if hidden then []
          else [DeepDiffLib.mkLevel DeepDiffLib.dictionary_item_added
                  [DeepDiffLib.Key k] notpresent (Cell (VJson (JStr x)))])
    /\ tree present present = []
    /\ (forall base other,
          DeepDiffLib.too_different exclude_paths thr_a thr_b []
            (DeepDiffLib.visible_keys base) (DeepDiffLib.visible_keys other)
            = false ->
          (forall k', k' <> k -> get k' base = get k' other) ->
          missing_null_or x (get k base) -> missing_null_or x (get k other) ->
          change_log pairing thr_a thr_b pid [base; other] = []).
Proof.
  intros pairing thr_a thr_b pid k x null missing present tree hidden.
  assert (Hnm : tree null missing
                = if hidden then []
                  else [DeepDiffLib.mkLevel DeepDiffLib.dictionary_item_removed
                          [DeepDiffLib.Key k] (Cell (VJson JNone)) notpresent]).
  { subst tree null missing hidden. unfold DeepDiffLib.diff_root, single.
    change (DeepDiffLib.skip_this exclude_paths []) with false. cbv iota.
    cbn [map fst snd].
    etransitivity; [apply DictFacts.diff_dict_removed|].
    unfold DeepDiffLib.report_result. cbn [app].
    destruct (DeepDiffLib.private k); [reflexivity|].
    destruct (DeepDiffLib.skip_this _ _); reflexivity. }
  assert (Hmn : tree missing null
                = if hidden then []
                  else [DeepDiffLib.mkLevel DeepDiffLib.dictionary_item_added
                          [DeepDiffLib.Key k] notpresent (Cell (VJson JNone))]).
  { subst tree null missing hidden. unfold DeepDiffLib.diff_root, single.
    change (DeepDiffLib.skip_this exclude_paths []) with false. cbv iota.
    cbn [map fst snd].
    etransitivity; [apply DictFacts.diff_dict_added|].
    unfold DeepDiffLib.report_result. cbn [app].
    destruct (DeepDiffLib.private k); [reflexivity|].
    destruct (DeepDiffLib.skip_this _ _); reflexivity. }
  assert (Hnp : tree null present
                = if hidden then []
                  else [DeepDiffLib.mkLevel DeepDiffLib.type_changes
                          [DeepDiffLib.Key k] (Cell (VJson JNone))
                          (Cell (VJson (JStr x)))]).
  { subst tree null present hidden. rewrite DictFacts.diff_root_single.
    rewrite DictFacts.diff_value_types by discriminate.
    destruct (DeepDiffLib.private k); [reflexivity|].
    destruct (DeepDiffLib.skip_this _ _); reflexivity. }
  assert (Hmp : tree missing present
                = if hidden then []
                  else [DeepDiffLib.mkLevel DeepDiffLib.dictionary_item_added
                          [DeepDiffLib.Key k] notpresent
                          (Cell (VJson (JStr x)))]).
  { subst tree missing present hidden. unfold DeepDiffLib.diff_root, single.
    change (DeepDiffLib.skip_this exclude_paths []) with false. cbv iota.
    cbn [map fst snd].
    etransitivity; [apply DictFacts.diff_dict_added|].
    unfold DeepDiffLib.report_result. cbn [app].
    destruct (DeepDiffLib.private k); [reflexivity|].
    destruct (DeepDiffLib.skip_this _ _); reflexivity. }
  assert (Hpp : tree present present = []).
  { subst tree present. rewrite DictFacts.diff_root_single.
    destruct (DeepDiffLib.private k); [reflexivity|].
    unfold DeepDiffLib.diff_value.
    destruct (DeepDiffLib.skip_this _ _); [reflexivity|].
    cbn [DeepDiffLib.type_of DeepDiffLib.type_of_json DeepDiffLib.pytype_eqb negb].
    rewrite EngineFacts.diff_json_eq. cbv zeta.
    destruct (DeepDiffLib.skip_this _ _); [reflexivity|].
    cbn [DeepDiffLib.type_of_json DeepDiffLib.pytype_eqb negb].
    now rewrite String.eqb_refl. }
  assert (Hgen : forall base other,
            DeepDiffLib.too_different exclude_paths thr_a thr_b []
              (DeepDiffLib.visible_keys base) (DeepDiffLib.visible_keys other)
              = false ->
            (forall k', k' <> k -> get k' base = get k' other) ->
            missing_null_or x (get k base) -> missing_null_or x (get k other) ->
            change_log pairing thr_a thr_b pid [base; other] = []).
  { intros base other Hdeep Hsame Hb Ho. apply QuietFacts.change_log_quiet.
    apply QuietFacts.diff_root_quiet; [exact Hdeep|].
    intros k' v v' Hv Hv'. destruct (string_dec k' k) as [-> | Hne].
    - rewrite Hv in Hb. rewrite Hv' in Ho.
      destruct Hb as [Hb | [Hb | Hb]]; [discriminate Hb| |];
        destruct Ho as [Ho | [Ho | Ho]]; try discriminate Ho;
        injection Hb as ->; injection Ho as ->;
        first [now left | right; discriminate].
    - left. rewrite (Hsame k' Hne), Hv' in Hv. now injection Hv. }
  subst tree.
  repeat split; try assumption; apply DictFacts.change_log_nil.
  - rewrite Hnm. destruct hidden; reflexivity.
  - rewrite Hmn. destruct hidden; reflexivity.
  - rewrite Hnp. destruct hidden; reflexivity.
  - rewrite Hmp. destruct hidden; reflexivity.
  - rewrite Hpp. reflexivity.
Qed.

Lemma null_and_missing_witness :
  let base :=
    [("policy_id", VJson (JStr "P001")); ("note", VJson JNone);
     ("zipCd", VJson (JStr "11000"))] in
  let other :=
    [("policy_id", VJson (JStr "P001")); ("zipCd", VJson (JStr "11000"))] in
  change_log no_pairs 33 67 "P001" [base; other] = [].
Proof.
  intros base other.
  apply (proj2 (proj2 (proj2 (proj2 (proj2 (proj2 (proj2 (proj2 (proj2
           (null_and_missing no_pairs 33 67 "P001" "note" "x")))))))))
           base other).
  - reflexivity.
  - intros k' Hne. unfold base, other. cbn [get].
    destruct (String.eqb k' "policy_id"); [reflexivity|].
    destruct (String.eqb k' "note") eqn:E; [|reflexivity].
    apply String.eqb_eq in E. contradiction.
  - right. left. reflexivity.
  - left. reflexivity.
Defined.

(** C7, counterexample. The lists are not compared as multisets.
    ["a","a","b"] and ["a","b","b"] differ as multisets, yet the comparison
    reports nothing at all for them; ["a","b"] and ["c","a"] differ as
    multisets, yet they give no row when the library does not pair b with c:
    the removal and the addition sit at different positions and the loops do
    not read them. *)
Lemma multiset_difference_unreported :
  ~ Permutation ["a"; "a"; "b"] ["a"; "b"; "b"]
  /\ (forall pairing thr_a thr_b,
        DeepDiffLib.tree_view exclude_paths pairing thr_a thr_b
          (tags ["a"; "a"; "b"]) (tags ["a"; "b"; "b"]) = [])
  /\ (forall pairing thr_a thr_b pid,
        change_log pairing thr_a thr_b pid
          [tags ["a"; "a"; "b"]; tags ["a"; "b"; "b"]] = [])
  /\ ~ Permutation ["a"; "b"] ["c"; "a"]
  /\ (forall thr_a thr_b pid,
        change_log no_pairs thr_a thr_b pid [tags ["a"; "b"]; tags ["c"; "a"]]
        = []).
Proof.
  split; [|split; [|split; [|split]]].
  - intros H.
    pose proof (proj1 (Permutation_count_occ string_dec _ _) H "a") as E.
    vm_compute in E. discriminate E.
  - reflexivity.
  - reflexivity.
  - intros H.
    pose proof (proj1 (Permutation_count_occ string_dec _ _) H "b") as E.
    vm_compute in E. discriminate E.
  - reflexivity.
Qed.

(** C7, amended. With the order of list items ignored, {"tags": ["a","b"]}
    against {"tags": ["b","a"]} gives no row and against {"tags": ["a","c"]}
    exactly one row (tags: b to c), whatever items the library pairs.  Lists
    are compared as sets of items: two lists in which every item of one has
    an equal item in the other are never reported as different, at any path
    and in any column, wherever the items stand and however often they are
    repeated; lists that are permutations of each other are such lists, and
    so are lists of texts with the same members. *)
Theorem order_insensitive :
  forall pairing thr_a thr_b,
    (forall pid,
        change_log pairing thr_a thr_b pid [tags ["a"; "b"]; tags ["b"; "a"]]
        = [])
    /\ (forall pid,
          change_log pairing thr_a thr_b pid [tags ["a"; "b"]; tags ["a"; "c"]]
          = [mkRow pid 2 "tags" (Cell (VJson (JStr "b")))
               (Cell (VJson (JStr "c"))) None None])
    /\ (forall p l1 l2,
          same_items l1 l2 ->
          DeepDiffLib.diff_json exclude_paths pairing thr_a thr_b
            (JList l1) p (JList l2)
          = [])
    /\ (forall pid k l1 l2,
          same_items l1 l2 ->
          change_log pairing thr_a thr_b pid
            [single k (VJson (JList l1)); single k (VJson (JList l2))] = [])
    /\ (forall l1 l2 : list json, Permutation l1 l2 -> same_items l1 l2)
    /\ (forall pid l1 l2,
          (forall s, In s l1 <-> In s l2) ->
          change_log pairing thr_a thr_b pid [tags l1; tags l2] = []).
Proof.
  intros pairing thr_a thr_b.
  assert (Hset : forall p l1 l2,
            same_items l1 l2 ->
            DeepDiffLib.diff_json exclude_paths pairing thr_a thr_b
              (JList l1) p (JList l2)
            = []).
  { intros p l1 l2 H. apply IterableFacts.diff_json_same_hash_lists.
    now apply SetFacts.same_items_hash. }
  assert (Hcol : forall pid k l1 l2,
            same_items l1 l2 ->
            change_log pairing thr_a thr_b pid
              [single k (VJson (JList l1)); single k (VJson (JList l2))] = []).
  { intros pid k l1 l2 H. apply DictFacts.change_log_nil.
    rewrite DictFacts.diff_root_single.
    destruct (DeepDiffLib.private k); [reflexivity|].
    unfold DeepDiffLib.diff_value.
    destruct (DeepDiffLib.skip_this _ _); [reflexivity|].
    cbn [DeepDiffLib.type_of DeepDiffLib.type_of_json DeepDiffLib.pytype_eqb
         negb].
    now rewrite (Hset _ _ _ H). }
  split; [reflexivity|].
  split; [|split; [exact Hset|split; [exact Hcol|split]]].
  - intros pid. rewrite DictFacts.change_log_pair.
    unfold snapshot_diff, DeepDiffLib.DeepDiff, DeepDiffLib.tree_view, tags.
    fold (single "tags" (VJson (JList (map JStr ["a"; "b"])))).
    fold (single "tags" (VJson (JList (map JStr ["a"; "c"])))).
    rewrite DictFacts.diff_root_single.
    change (DeepDiffLib.private "tags") with false. cbv iota.
    unfold DeepDiffLib.diff_value.
    change (DeepDiffLib.skip_this exclude_paths [DeepDiffLib.Key "tags"])
      with false.
    cbn [DeepDiffLib.type_of DeepDiffLib.type_of_json DeepDiffLib.pytype_eqb
         negb map].
    rewrite EngineFacts.diff_json_eq. cbv zeta.
    change (DeepDiffLib.skip_this exclude_paths [DeepDiffLib.Key "tags"])
      with false.
    cbn [DeepDiffLib.type_of DeepDiffLib.type_of_json DeepDiffLib.pytype_eqb
         negb map].
    unfold DeepDiffLib.diff_iterable.
    cbn [map fst snd enumerate DeepDiffLib.hashtable existsb
         DeepDiffLib.same_hash String.eqb Ascii.eqb Bool.eqb orb andb negb
         filter app DeepDiffLib.diff_added].
    set (g := DeepDiffLib.get_other_pair _ _ _).
    assert (H : g = Some (1, (JStr "b",
                    DeepDiffLib.diff_json exclude_paths pairing thr_a thr_b
                      (JStr "b")))
                \/ g = None) by apply IterableFacts.get_other_pair_single.
    clearbody g. destruct H as [-> | ->]; reflexivity.
  - exact SetFacts.same_items_permutation.
  - intros pid l1 l2 H. unfold tags. apply Hcol.
    now apply SetFacts.same_items_texts.
Qed.

Lemma order_insensitive_witness :
  change_log no_pairs 33 67 "P001"
    [tags ["a"; "b"; "c"]; tags ["c"; "a"; "b"; "a"]] = [].
Proof.
  apply (proj2 (proj2 (proj2 (proj2 (proj2
           (order_insensitive no_pairs 33 67)))))).
  intros s. simpl. tauto.
Defined.

(** C8, counterexample. Distinct structural paths with the same formatted
    text: the wrapper key taken off, a key that holds a dot, a list position
    left out. *)
Lemma format_collides :
  let Key := DeepDiffLib.Key in
  let Idx := DeepDiffLib.Idx in
  ([Key "raw_json"; Key "a"] <> [Key "a"]
   /\ format [Key "raw_json"; Key "a"] = format [Key "a"])
  /\ ([Key "a.b"] <> [Key "a"; Key "b"]
      /\ format [Key "a.b"] = format [Key "a"; Key "b"])
  /\ ([Key "tags"; Idx 1] <> [Key "tags"]
      /\ format [Key "tags"; Idx 1] = format [Key "tags"]).
Proof. cbv zeta. repeat split; discriminate. Qed.

(** C8, amended. For a path of one or more dict keys, each of at least one
    character and none holding "]" or a single quote, [path_to_field] joins
    the keys with ".", after dropping the first one when it is raw_json, and
    gives "root" when nothing is left; equal paths format identically.
    (Distinct paths may format identically.) *)
Theorem path_formatter :
  forall keys : list string,
    keys <> [] ->
    Forall (fun k => plain_key k = true) keys ->
    format (map DeepDiffLib.Key keys) = dotted (strip_wrapper keys)
    /\ forall q, q = map DeepDiffLib.Key keys ->
                 format q = format (map DeepDiffLib.Key keys).
Proof.
  intros keys Hne Hplain. split; [|now intros q ->].
  unfold format, path_to_field, PathRegex.findall, DeepDiffLib.path_str.
  cbn [append PathRegex.findall_aux].
  rewrite !RegexFacts.match_here_other by reflexivity.
  rewrite (findall_plain_keys keys Hplain).
  destruct keys as [|k0 rest]; [now elim Hne|].
  unfold strip_wrapper, dotted. destruct (String.eqb k0 "raw_json"); reflexivity.
Qed.

Lemma path_formatter_witness :
  let keys := ["raw_json"; "plcyNm"; "zipCd"] in
  format (map DeepDiffLib.Key keys) = "plcyNm.zipCd"
  /\ forall q, q = map DeepDiffLib.Key keys ->
               format q = format (map DeepDiffLib.Key keys).
Proof.
  intros keys.
  apply (path_formatter keys); [discriminate|].
  repeat constructor.
Defined.

(** C9. When lastMdfcnDt is present and holds None or the empty text, the
    resolver returns the normalized ingested_at, the same result as for any
    snapshot without the lastMdfcnDt key and the same ingested_at; when
    ingested_at then holds the empty text, the result is the empty text and
    not the absent marker. *)
Theorem falsy_primary_falls_back :
  forall r r' : record,
    get "lastMdfcnDt" r = Some (VJson JNone)
    \/ get "lastMdfcnDt" r = Some (VJson (JStr "")) ->
    get "lastMdfcnDt" r' = None ->
    get "ingested_at" r' = get "ingested_at" r ->
    pick_change_dt r = resolve_field (get "ingested_at" r)
    /\ pick_change_dt r = pick_change_dt r'
    /\ (get "ingested_at" r = Some (VJson (JStr "")) ->
        pick_change_dt r = Some "" /\ pick_change_dt r <> None).
Proof.
  intros r r' Hprim Habs Hsame.
  assert (Hno : no_primary r).
  { right. destruct Hprim as [H | H]; eexists; (split; [exact H|reflexivity]). }
  assert (Hno' : no_primary r') by (left; exact Habs).
  rewrite (pick_change_dt_fallback r Hno).
  rewrite (pick_change_dt_fallback r' Hno'), Hsame.
  split; [reflexivity|]. split; [reflexivity|].
  intros ->. split; [reflexivity | discriminate].
Qed.

Lemma falsy_primary_falls_back_witness :
  let r := [("lastMdfcnDt", VJson (JStr "")); ("ingested_at", VJson (JStr ""))] in
  let r' := [("ingested_at", VJson (JStr ""))] in
  pick_change_dt r = resolve_field (get "ingested_at" r)
  /\ pick_change_dt r = pick_change_dt r'
  /\ (get "ingested_at" r = Some (VJson (JStr "")) ->
      pick_change_dt r = Some "" /\ pick_change_dt r <> None).
Proof.
  intros r r'.
  apply (falsy_primary_falls_back r r');
    [right; reflexivity | reflexivity | reflexivity].
Defined.

(** C10, counterexample. A differing value at a key of an excluded name
    inside raw_json is not always reported.  lastMdfcnDt going from None to
    a date there is a change of type, which the loops do not read: no row.
    And when the two raw_json dicts share too few keys, the comparison does
    not go below them: the one row holds the two whole dicts, and its field
    is "root", not the bare name. *)
Lemma nested_change_unreported :
  (forall pairing thr_a thr_b pid,
      change_log pairing thr_a thr_b pid
        [single_payload "lastMdfcnDt" JNone;
         single_payload "lastMdfcnDt" (JStr "2024-01-01")] = [])
  /\ (forall pairing pid,
        let payload := fun dt c d =>
          JDict [("lastMdfcnDt", JStr dt); (c, JInt 1); (d, JInt 2)] in
        let base := [("raw_json", VJson (payload "2024-01-01" "a" "b"))] in
        let other := [("raw_json", VJson (payload "2024-02-01" "c" "d"))] in
        change_log pairing 33 67 pid [base; other]
        = [mkRow pid 2 "root"
             (Cell (VJson (payload "2024-01-01" "a" "b")))
             (Cell (VJson (payload "2024-02-01" "c" "d"))) None None]).
Proof. split; intros; reflexivity. Qed.

(** C10, amended. The exclusion matches exactly the five top-level paths
    root['lastMdfcnDt'], ..., root['raw_ingest_id']: a level is skipped
    only at the path made of one of these keys alone.  Below a column that is
    not excluded, a key at any depth (of an excluded name or not) that holds
    two different values of one scalar type is reported as a changed value
    and gives a row, whenever the comparison goes below the dicts on the way;
    for a key of an excluded name directly inside raw_json the field of the
    row is the bare name. *)
Theorem nested_name_still_reported :
  (forall p : DeepDiffLib.path,
      DeepDiffLib.skip_this exclude_paths p = true
      <-> exists n, In n excluded_names /\ p = [DeepDiffLib.Key n])
  /\ (forall pairing thr_a thr_b (pid : string) (base other : record)
             (c : string) (t1 t2 : json) (ks : list string) (v1 v2 : json),
        DeepDiffLib.skip_this exclude_paths [DeepDiffLib.Key c] = false ->
        DeepDiffLib.private c = false ->
        get c base = Some (VJson t1) ->
        get c other = Some (VJson t2) ->
        DeepDiffLib.too_different exclude_paths thr_a thr_b []
          (DeepDiffLib.visible_keys base) (DeepDiffLib.visible_keys other)
          = false ->
        at_json (map DeepDiffLib.Key ks) t1 = Some v1 ->
        at_json (map DeepDiffLib.Key ks) t2 = Some v2 ->
        dives_along thr_a thr_b [DeepDiffLib.Key c] ks t1 t2 ->
        scalar v1 = true ->
        DeepDiffLib.type_of_json v1 = DeepDiffLib.type_of_json v2 ->
        v1 <> v2 ->
        In (DeepDiffLib.mkLevel DeepDiffLib.values_changed
              (DeepDiffLib.Key c :: map DeepDiffLib.Key ks)
              (Cell (VJson v1)) (Cell (VJson v2)))
           (DeepDiffLib.tree_view exclude_paths pairing thr_a thr_b base other)
        /\ exists row,
             In row (change_log pairing thr_a thr_b pid [base; other])
             /\ compare_seq row = 2
             /\ field row
                = format (DeepDiffLib.Key c :: map DeepDiffLib.Key ks))
  /\ (forall n, In n excluded_names ->
        format [DeepDiffLib.Key "raw_json"; DeepDiffLib.Key n] = n).
Proof.
  split; [exact NestedFacts.skip_this_iff|]. split.
  - intros pairing thr_a thr_b pid base other c t1 t2 ks v1 v2
           Hc Hpriv Hb Ho Hroot H1 H2 Hd Hs Hty Hne.
    set (leaf := DeepDiffLib.mkLevel DeepDiffLib.values_changed
                   (DeepDiffLib.Key c :: map DeepDiffLib.Key ks)
                   (Cell (VJson v1)) (Cell (VJson v2))).
    assert (Hleaf : In leaf
              (DeepDiffLib.tree_view exclude_paths pairing thr_a thr_b
                 base other)).
    { unfold DeepDiffLib.tree_view.
      apply NestedFacts.mutual_keeps; [|discriminate|discriminate].
      unfold DeepDiffLib.diff_root.
      change (DeepDiffLib.skip_this exclude_paths []) with false. cbv iota.
      apply (NestedFacts.diff_dict_shared _ _ _ _ _ _ _ _ _ c (VJson t1)
               (DeepDiffLib.diff_value exclude_paths pairing thr_a thr_b
                  (VJson t1))
               (VJson t2)).
      - rewrite (NestedFacts.visible_keys_map
                   (fun v => (v, DeepDiffLib.diff_value exclude_paths pairing
                                   thr_a thr_b v))).
        exact Hroot.
      - exact Hpriv.
      - rewrite (ListFacts.get_map
                   (fun v => (v, DeepDiffLib.diff_value exclude_paths pairing
                                   thr_a thr_b v))), Hb.
        reflexivity.
      - exact Ho.
      - rewrite NestedFacts.diff_value_json. cbn [app].
        apply (NestedFacts.nested_leaf pairing thr_a thr_b ks t1 t2
                 [DeepDiffLib.Key c] v1 v2); try assumption.
        simpl. lia. }
    split; [exact Hleaf|].
    exact (NestedFacts.level_gives_row pairing thr_a thr_b pid base other
             leaf Hleaf eq_refl).
  - intros n Hn.
    repeat (destruct Hn as [<- | Hn]; [reflexivity|]). destruct Hn.
Qed.

Lemma nested_name_still_reported_witness :
  let stamp := fun d => VTimestamp (mkTimestamp (mkDatetime 2024 3 d 9 30 0 0) 0) in
  let payload := fun dt => JDict [("plcyNm", JStr "A"); ("lastMdfcnDt", JStr dt)] in
  let base :=
    [("policy_id", VJson (JStr "P001"));
     ("raw_json", VJson (payload "2024-01-01")); ("ingested_at", stamp 1)] in
  let other :=
    [("policy_id", VJson (JStr "P001"));
     ("raw_json", VJson (payload "2024-02-01")); ("ingested_at", stamp 2)] in
  In (DeepDiffLib.mkLevel DeepDiffLib.values_changed
        [DeepDiffLib.Key "raw_json"; DeepDiffLib.Key "lastMdfcnDt"]
        (Cell (VJson (JStr "2024-01-01"))) (Cell (VJson (JStr "2024-02-01"))))
     (DeepDiffLib.tree_view exclude_paths all_pairs 33 67 base other)
  /\ exists row,
       In row (change_log all_pairs 33 67 "P001" [base; other])
       /\ compare_seq row = 2
       /\ field row
          = format [DeepDiffLib.Key "raw_json"; DeepDiffLib.Key "lastMdfcnDt"].
Proof.
  intros stamp payload base other.
  apply (proj1 (proj2 nested_name_still_reported) all_pairs 33 67 "P001"
           base other "raw_json" (payload "2024-01-01") (payload "2024-02-01")
           ["lastMdfcnDt"] (JStr "2024-01-01") (JStr "2024-02-01"));
    try reflexivity; [|discriminate].
  cbn. repeat split; reflexivity.
Defined.

(** * Further properties of the code *)

(** ** The scripts over all the groups *)

Section GroupFacts.

Variable DD : record -> record -> DeepDiffLib.text_view.

Lemma compare_group_app pid records rows :
  compare_group DD pid records rows = rows ++ compare_group DD pid records [].
Proof.
  destruct records as [|first [|second rest]]; try (now rewrite app_nil_r).
  unfold compare_group. rewrite !loop_chain. reflexivity.
Qed.

Lemma compare_group_v1_app pid records rows :
  compare_group_v1 DD pid records rows
  = rows ++ compare_group_v1 DD pid records [].
Proof.
  destruct records as [|first [|second rest]]; try (now rewrite app_nil_r).
  unfold compare_group_v1. rewrite !loop_v1_first. reflexivity.
Qed.

Lemma fold_groups {R : Type} (f : string -> list record -> list R -> list R)
    (Happ : forall pid records rows, f pid records rows = rows ++ f pid records [])
    (groups : list (string * list record)) :
  forall acc,
    fold_left (fun rows g => f (fst g) (snd g) rows) groups acc
    = acc ++ flat_map (fun g => f (fst g) (snd g) []) groups.
Proof.
  induction groups as [|g groups IH]; intros acc; simpl.
  - now rewrite app_nil_r.
  - rewrite IH, (Happ (fst g) (snd g) acc), <- app_assoc. reflexivity.
Qed.

Lemma StronglySorted_app {A : Type} (R : A -> A -> Prop) (l1 l2 : list A) :
  StronglySorted R l1 -> StronglySorted R l2 ->
  (forall x y, In x l1 -> In y l2 -> R x y) ->
  StronglySorted R (l1 ++ l2).
Proof.
  induction 1 as [|x l1 Hs IH Hx]; intros H2 Hc; simpl; [exact H2|].
  constructor.
  - apply IH; [exact H2|]. intros a b Ha Hb. apply Hc; [now right | exact Hb].
  - apply Forall_app. split; [exact Hx|].
    apply Forall_forall. intros y Hy. apply Hc; [now left | exact Hy].
Qed.

Lemma chain_rows_from pid (rest : list record) :
  forall k prev row,
    In row (chain_rows DD pid k prev rest) -> k <= compare_seq row.
Proof.
  induction rest as [|cur tl IH]; intros k prev row; simpl; [intros []|].
  intros H. apply in_app_or in H. destruct H as [H | H].
  - apply comparison_rows_seq in H. lia.
  - apply IH in H. lia.
Qed.

Lemma comparison_rows_sorted pid k prev cur :
  StronglySorted (fun a b => compare_seq a <= compare_seq b)
    (comparison_rows DD pid k prev cur).
Proof.
  assert (H : forall l : list diff_row,
             (forall r, In r l -> compare_seq r = k) ->
             StronglySorted (fun a b => compare_seq a <= compare_seq b) l).
  { induction l as [|r l IH]; intros Hl; constructor.
    - apply IH. intros x Hx. apply Hl. now right.
    - apply Forall_forall. intros x Hx.
      rewrite (Hl r (or_introl eq_refl)), (Hl x (or_intror Hx)). lia. }
  apply H. intros r. apply comparison_rows_seq.
Qed.

Lemma chain_rows_sorted pid (rest : list record) :
  forall prev k,
    StronglySorted (fun a b => compare_seq a <= compare_seq b)
      (chain_rows DD pid k prev rest).
Proof.
  induction rest as [|cur tl IH]; intros prev k; simpl; [constructor|].
  apply StronglySorted_app.
  - apply comparison_rows_sorted.
  - apply IH.
  - intros x y Hx Hy. apply comparison_rows_seq in Hx.
    apply chain_rows_from in Hy. lia.
Qed.

Lemma compare_group_row pid records row :
  In row (compare_group DD pid records []) ->
  2 <= compare_seq row
  /\ base_change_dt row = pick_change_dt (nth (compare_seq row - 2) records [])
  /\ change_dt row = pick_change_dt (nth (compare_seq row - 1) records []).
Proof.
  rewrite compare_group_nth. intros H. apply in_flat_map in H.
  destruct H as [k [Hk Hin]]. apply in_seq in Hk.
  pose proof (comparison_rows_seq _ _ _ _ _ _ Hin) as Hseq.
  apply comparison_rows_inv in Hin.
  destruct Hin as [changes [path [ch [_ [_ ->]]]]]. simpl. split; [lia | auto].
Qed.

End GroupFacts.

(** X1. The rows either script collects over the whole query result are the
    rows of each policy_id on its own, one group after the other in the order
    of the groups. *)
Theorem rows_by_group :
  forall (DD : record -> record -> DeepDiffLib.text_view)
         (groups : list (string * list record)),
    find_diff_2 DD groups
    = flat_map (fun g => compare_group DD (fst g) (snd g) []) groups
    /\ find_diff_1 DD groups
       = flat_map (fun g => compare_group_v1 DD (fst g) (snd g) []) groups.
Proof.
  intros DD groups. split.
  - unfold find_diff_2. now rewrite (fold_groups _ (compare_group_app DD)).
  - unfold find_diff_1. now rewrite (fold_groups _ (compare_group_v1_app DD)).
Qed.

(** X2. The rows find_diff_2.py collects for one policy_id come in the order
    of their compare_seq: a row is never followed by a row of an earlier
    comparison. *)
Theorem compare_seq_sorted :
  forall (DD : record -> record -> DeepDiffLib.text_view) (pid : string)
         (records : list record),
    StronglySorted (fun a b => compare_seq a <= compare_seq b)
      (compare_group DD pid records []).
Proof.
  intros DD pid records. destruct records as [|first rest]; [constructor|].
  rewrite compare_group_chain. apply chain_rows_sorted.
Qed.

(** X3. In the rows of one policy_id the timestamps chain: the base
    timestamp of a row of comparison k+1 is the change timestamp of every row
    of comparison k. *)
Theorem timestamps_chain :
  forall (DD : record -> record -> DeepDiffLib.text_view) (pid : string)
         (records : list record) (r1 r2 : diff_row),
    In r1 (compare_group DD pid records []) ->
    In r2 (compare_group DD pid records []) ->
    compare_seq r2 = S (compare_seq r1) ->
    base_change_dt r2 = change_dt r1.
Proof.
  intros DD pid records r1 r2 H1 H2 E.
  apply compare_group_row in H1. apply compare_group_row in H2.
  destruct H1 as [_ [_ ->]]. destruct H2 as [_ [-> _]].
  rewrite E. reflexivity.
Qed.

Lemma timestamps_chain_witness :
  let records :=
    [[("x", VJson (JInt 1)); ("ingested_at", VJson (JStr "d1"))];
     [("x", VJson (JInt 2)); ("ingested_at", VJson (JStr "d2"))];
     [("x", VJson (JInt 3)); ("ingested_at", VJson (JStr "d3"))]] in
  let r1 :=
    mkRow "P001" 2 "x" (Cell (VJson (JInt 1))) (Cell (VJson (JInt 2)))
      (Some "d1") (Some "d2") in
  let r2 :=
    mkRow "P001" 3 "x" (Cell (VJson (JInt 2))) (Cell (VJson (JInt 3)))
      (Some "d2") (Some "d3") in
  base_change_dt r2 = change_dt r1.
Proof.
  intros records r1 r2.
  apply (timestamps_chain (snapshot_diff no_pairs 0 1) "P001" records r1 r2).
  - left. reflexivity.
  - right. left. reflexivity.
  - reflexivity.
Defined.

(** ** Snapshots that differ only where the comparison does not look *)

Module SilentFacts.
Import PyText DeepDiffLib ListFacts EngineFacts DictFacts NestedFacts
       QuietFacts ExclusionFacts.

Lemma same_but_excluded_refl a : same_but_excluded a a.
Proof. split; [reflexivity | intros; reflexivity]. Qed.

Lemma same_but_excluded_sym a b :
  same_but_excluded a b -> same_but_excluded b a.
Proof. intros [H1 H2]. split; [now symmetry | intros k Hk; symmetry; auto]. Qed.

Lemma same_but_excluded_trans a b c :
  same_but_excluded a b -> same_but_excluded b c -> same_but_excluded a c.
Proof.
  intros [H1 H2] [H3 H4]. split; [congruence|].
  intros k Hk. rewrite (H2 k Hk). auto.
Qed.

Lemma diff_root_silent pairing thr_a thr_b a b :
  same_but_excluded a b ->
  diff_root exclude_paths pairing thr_a thr_b a b = [].
Proof.
  intros [Hkeys Hval]. unfold diff_root.
  change (skip_this exclude_paths []) with false. cbv iota.
  unfold diff_dict.
  rewrite (visible_keys_map
             (fun v => (v, diff_value exclude_paths pairing thr_a thr_b v))).
  assert (Hvis : visible_keys b = visible_keys a)
    by (unfold visible_keys; now rewrite Hkeys).
  rewrite Hvis, too_different_same_keys.
  set (ks := visible_keys a).
  rewrite (filter_all (fun k => existsb (String.eqb k) ks) ks)
    by (intros k Hk; now apply existsb_eqb_in).
  rewrite (filter_nil (fun k => negb (existsb (String.eqb k) ks)) ks)
    by (intros k Hk; apply Bool.negb_false_iff; now apply existsb_eqb_in).
  cbn [flat_map app]. apply flat_map_nil. intros k _.
  rewrite (get_map
             (fun v => (v, diff_value exclude_paths pairing thr_a thr_b v))).
  destruct (get k a) as [v|] eqn:Ea; [|reflexivity]. cbn [option_map].
  destruct (get k b) as [v'|] eqn:Eb; [|reflexivity].
  destruct (in_dec string_dec k excluded_names) as [Hin | Hout].
  - unfold diff_value. cbn [app]. now rewrite (skip_excluded_name k Hin).
  - specialize (Hval k Hout). rewrite Ea, Eb in Hval. injection Hval as <-.
    apply diff_value_refl.
Qed.

Lemma snapshot_diff_silent pairing thr_a thr_b a b :
  same_but_excluded a b -> snapshot_diff pairing thr_a thr_b a b = [].
Proof.
  intros H. unfold snapshot_diff, DeepDiff, tree_view.
  now rewrite (diff_root_silent pairing thr_a thr_b a b H).
Qed.

End SilentFacts.

(** X5. Snapshots of one policy_id that have the same columns and hold, in
    every column that is not excluded (lastMdfcnDt, frstRegDt, ingested_at,
    record_hash, raw_ingest_id), the same value (for NaN: the same float
    object) give no row in either script, however many of them there are.
    NaN objects are compared by identity only: two snapshots with the same
    columns that hold, in a column that is not excluded, two NaN that are
    not one object (as two rows of the query do for a NULL number) give a
    row for that column. *)
Theorem only_excluded_columns_give_no_row :
  forall pairing thr_a thr_b (pid : string),
    (forall (first : record) (rest : list record),
        Forall (same_but_excluded first) rest ->
        change_log pairing thr_a thr_b pid (first :: rest) = []
        /\ change_log_v1 pairing thr_a thr_b pid (first :: rest) = [])
    /\ (forall (a b : record) (k : string) (i j : nat),
          map fst a = map fst b ->
          DeepDiffLib.private k = false ->
          ~ In k excluded_names ->
          get k a = Some (VNaN i) ->
          get k b = Some (VNaN j) ->
          i <> j ->
          In (DeepDiffLib.mkLevel DeepDiffLib.values_changed
                [DeepDiffLib.Key k] (Cell (VNaN i)) (Cell (VNaN j)))
             (DeepDiffLib.tree_view exclude_paths pairing thr_a thr_b a b)
          /\ exists row,
               In row (change_log pairing thr_a thr_b pid [a; b])
               /\ compare_seq row = 2
               /\ field row = format [DeepDiffLib.Key k]).
Proof.
  intros pairing thr_a thr_b pid. split; [intros first rest Hall; split|].
  - unfold change_log. rewrite compare_group_chain.
    generalize 2 as k.
    assert (H0 : same_but_excluded first first)
      by apply SilentFacts.same_but_excluded_refl.
    revert H0. generalize first at 2 3 as prev.
    induction Hall as [|cur tl Hcur _ IH]; intros prev Hprev k;
      [reflexivity|].
    cbn [chain_rows]. rewrite (IH cur Hcur).
    unfold comparison_rows.
    rewrite (SilentFacts.snapshot_diff_silent pairing thr_a thr_b prev cur).
    + reflexivity.
    + apply (SilentFacts.same_but_excluded_trans prev first cur);
        [now apply SilentFacts.same_but_excluded_sym | exact Hcur].
  - unfold change_log_v1, compare_group_v1.
    destruct rest as [|second tl]; [reflexivity|].
    rewrite loop_v1_first. cbn [app].
    apply QuietFacts.flat_map_nil. intros [i cur] Hin.
    apply ListFacts.enumerate_in in Hin.
    rewrite Forall_forall in Hall. unfold comparison_rows_v1. cbn [fst snd].
    now rewrite (SilentFacts.snapshot_diff_silent pairing thr_a thr_b first cur
                   (Hall cur Hin)).
  - intros a b k i j Hkeys Hpriv Hk Ha Hb Hij.
    set (leaf := DeepDiffLib.mkLevel DeepDiffLib.values_changed
                   [DeepDiffLib.Key k] (Cell (VNaN i)) (Cell (VNaN j))).
    assert (Hleaf : In leaf
              (DeepDiffLib.tree_view exclude_paths pairing thr_a thr_b a b)).
    { unfold DeepDiffLib.tree_view.
      apply NestedFacts.mutual_keeps; [|discriminate|discriminate].
      unfold DeepDiffLib.diff_root.
      change (DeepDiffLib.skip_this exclude_paths []) with false. cbv iota.
      apply (NestedFacts.diff_dict_shared _ _ _ _ _ _ _ _ _ k (VNaN i)
               (DeepDiffLib.diff_value exclude_paths pairing thr_a thr_b
                  (VNaN i))
               (VNaN j)).
      - rewrite (NestedFacts.visible_keys_map
                   (fun v => (v, DeepDiffLib.diff_value exclude_paths pairing
                                   thr_a thr_b v))).
        unfold DeepDiffLib.visible_keys. rewrite Hkeys.
        apply QuietFacts.too_different_same_keys.
      - exact Hpriv.
      - rewrite (ListFacts.get_map
                   (fun v => (v, DeepDiffLib.diff_value exclude_paths pairing
                                   thr_a thr_b v))), Ha.
        reflexivity.
      - exact Hb.
      - cbn [app]. unfold DeepDiffLib.diff_value.
        assert (Hskip : DeepDiffLib.skip_this exclude_paths
                          [DeepDiffLib.Key k] = false).
        { destruct (DeepDiffLib.skip_this exclude_paths [DeepDiffLib.Key k])
            eqn:E; [|reflexivity].
          apply NestedFacts.skip_this_iff in E.
          destruct E as [n [Hn E]]. injection E as ->. contradiction. }
        rewrite Hskip.
        cbn [DeepDiffLib.type_of DeepDiffLib.pytype_eqb negb].
        apply Nat.eqb_neq in Hij. rewrite Hij.
        unfold DeepDiffLib.report_result. rewrite Hskip. left. reflexivity. }
    split; [exact Hleaf|].
    exact (NestedFacts.level_gives_row pairing thr_a thr_b pid a b
             leaf Hleaf eq_refl).
Qed.

Lemma only_excluded_columns_give_no_row_witness :
  let first := [("x", VJson (JInt 1)); ("ingested_at", VJson (JStr "d1"))] in
  let second := [("x", VJson (JInt 1)); ("ingested_at", VJson (JStr "d2"))] in
  change_log no_pairs 0 1 "P001" [first; second] = []
  /\ change_log_v1 no_pairs 0 1 "P001" [first; second] = [].
Proof.
  intros first second.
  apply (proj1 (only_excluded_columns_give_no_row no_pairs 0 1 "P001")
           first [second]).
  constructor; [|constructor].
  split; [reflexivity|].
  intros k Hk. simpl.
  destruct (String.eqb k "x"); [reflexivity|].
  destruct (String.eqb k "ingested_at") eqn:E; [|reflexivity].
  apply String.eqb_eq in E. subst k. exfalso. apply Hk. simpl. auto.
Defined.

(** Two rows of the query with NULL in the number column n: each holds a NaN
    of its own, and the loop reports nan to nan. *)
Lemma null_numbers_reported :
  forall pairing thr_a thr_b pid,
    change_log pairing thr_a thr_b pid
      [[("n", VNaN 1)]; [("n", VNaN 2)]]
    = [mkRow pid 2 "n" (Cell (VNaN 1)) (Cell (VNaN 2)) None None].
Proof. intros. reflexivity. Qed.

(** ** The path formatter on paths through lists *)

Module PositionFacts.
Import PyText PathRegex TextFacts RegexFacts.

Lemma findall_aux_no_bracket (u rest : string) :
  has_char lbracket u = false ->
  findall_aux 0 (u ++ rest) = findall_aux 0 rest.
Proof.
  induction u as [|c u IH]; intros H; [reflexivity|].
  apply has_char_cons in H. destruct H as [Hc Hu].
  change (String c u ++ rest)%string with (String c (u ++ rest)).
  cbn [findall_aux]. rewrite (match_here_other c _ Hc). now apply IH.
Qed.

Lemma string_of_uint_digits (d : Decimal.uint) :
  digits (NilEmpty.string_of_uint d) = true.
Proof. induction d; simpl; auto. Qed.

Lemma str_of_nat_digits (i : nat) : digits (str_of_nat i) = true.
Proof.
  unfold str_of_nat, NilZero.string_of_uint.
  destruct (Nat.to_uint i) eqn:E; try reflexivity;
    rewrite <- E; apply string_of_uint_digits.
Qed.

Lemma digits_has_char (c : ascii) (s : string) :
  digit c = false -> digits s = true -> has_char c s = false.
Proof.
  intros Hc. induction s as [|d s IH]; simpl; [reflexivity|].
  intros H. apply Bool.andb_true_iff in H. destruct H as [Hd Hs].
  rewrite (IH Hs), Bool.orb_false_r.
  destruct (Ascii.eqb c d) eqn:E; [|reflexivity].
  apply Ascii.eqb_eq in E. subst. congruence.
Qed.

Lemma has_char_append (c : ascii) (a b : string) :
  has_char c (a ++ b) = has_char c a || has_char c b.
Proof.
  induction a as [|d a IH]; simpl; [reflexivity|].
  now rewrite IH, Bool.orb_assoc.
Qed.

Lemma findall_aux_miss (c : ascii) (s : string) :
  match_here (String c s) = None ->
  findall_aux 0 (String c s) = findall_aux 0 s.
Proof. intros H. cbn [findall_aux]. now rewrite H. Qed.

(** The pattern finds nothing in a list position. *)
Lemma findall_aux_idx (i : nat) (rest : string) :
  findall_aux 0 (DeepDiffLib.seg_str (DeepDiffLib.Idx i) ++ rest)
  = findall_aux 0 rest.
Proof.
  unfold DeepDiffLib.seg_str.
  pose proof (str_of_nat_digits i) as Hd.
  destruct (NestedFacts.str_of_nat_head i) as [c [tl [E Hq]]].
  rewrite E in Hd |- *. change "'"%char with quote in Hq.
  simpl in Hd. apply Bool.andb_true_iff in Hd. destruct Hd as [Hc Htl].
  change (("[" ++ String c tl ++ "]") ++ rest)%string
    with (String lbracket ((String c tl ++ "]") ++ rest)).
  rewrite findall_aux_miss
    by (cbn [append match_here]; now rewrite Hq, Bool.andb_false_r).
  apply findall_aux_no_bracket.
  rewrite has_char_append, (digits_has_char lbracket (String c tl));
    [reflexivity | reflexivity | simpl; now rewrite Hc, Htl].
Qed.

Lemma findall_path (p : DeepDiffLib.path) :
  Forall (fun k => plain_key k = true) (keys_of p) ->
  findall_aux 0 (String.concat "" (map DeepDiffLib.seg_str p)) = keys_of p.
Proof.
  induction p as [|[k | i] p IH]; intros H; [reflexivity | |].
  - cbn [keys_of] in H. inversion H as [|? ? Hk Hrest]; subst.
    cbn [map keys_of]. rewrite concat_empty_cons, (seg_str_plain k Hk).
    simpl append. rewrite append_assoc. simpl append.
    rewrite (findall_aux_key k _ Hk). now rewrite (IH Hrest).
  - cbn [map keys_of]. rewrite concat_empty_cons, findall_aux_idx. now apply IH.
Qed.

End PositionFacts.

(** X6. [path_to_field] leaves list positions out: for a path through dict
    keys (each of at least one character, none holding "]" or a single
    quote) and list positions, with at least one key, the field is the keys
    joined with ".", after dropping the first one when it is raw_json, and
    "root" when no key is left. *)
Theorem path_to_field_leaves_positions_out :
  forall p : DeepDiffLib.path,
    keys_of p <> [] ->
    Forall (fun k => plain_key k = true) (keys_of p) ->
    format p = dotted (strip_wrapper (keys_of p)).
Proof.
  intros p Hne Hplain.
  unfold format, path_to_field, PathRegex.findall, DeepDiffLib.path_str.
  cbn [append PathRegex.findall_aux].
  rewrite !RegexFacts.match_here_other by reflexivity.
  rewrite (PositionFacts.findall_path p Hplain).
  destruct (keys_of p) as [|k0 rest]; [now elim Hne|].
  unfold strip_wrapper, dotted. destruct (String.eqb k0 "raw_json"); reflexivity.
Qed.

Lemma path_to_field_leaves_positions_out_witness :
  let Key := DeepDiffLib.Key in
  let Idx := DeepDiffLib.Idx in
  format [Key "raw_json"; Key "tags"; Idx 12; Key "name"] = "tags.name".
Proof.
  intros Key Idx.
  apply (path_to_field_leaves_positions_out
           [Key "raw_json"; Key "tags"; Idx 12; Key "name"]);
    [discriminate | repeat constructor].
Defined.

(** ** Environment, printed date, trimmed timestamps *)

(** X7. [env_str] returns the value of the variable, or the default when the
    variable is not set, and only when that text is not empty: a variable
    set to the empty text raises even when a default is given. *)
Theorem env_str_returns :
  forall (environ : list (string * string)) (name : string)
         (default : option string) (v : string),
    env_str environ name default = Returns v
    <-> v <> ""
        /\ (get name environ = Some v
            \/ (get name environ = None /\ default = Some v)).
Proof.
  intros environ name default v. unfold env_str, getenv.
  destruct (get name environ) as [x|]; [|destruct default as [x|]];
    try (destruct (String.eqb x "") eqn:E;
         [apply String.eqb_eq in E | apply String.eqb_neq in E]).
  - subst x. split; [discriminate|].
    intros [Hne [H | [H _]]]; [injection H as <-; now elim Hne | discriminate].
  - split.
    + intros H. injection H as <-. split; [exact E | now left].
    + intros [_ [H | [H _]]]; [now injection H as <- | discriminate].
  - subst x. split; [discriminate|].
    intros [Hne [H | [_ H]]]; [discriminate | injection H as <-; now elim Hne].
  - split.
    + intros H. injection H as <-. split; [exact E | now right].
    + intros [_ [H | [_ H]]]; [discriminate | now injection H as <-].
  - split; [discriminate|].
    intros [_ [H | [_ H]]]; discriminate.
Qed.

Module TrimFacts.
Import PyText.

Lemma rstrip_idempotent (s : string) : rstrip (rstrip s) = rstrip s.
Proof.
  induction s as [|c tl IH]; [reflexivity|].
  cbn [rstrip]. destruct (rstrip tl) as [|d r] eqn:E.
  - destruct (is_space c) eqn:Ec; [reflexivity|].
    cbn [rstrip]. now rewrite Ec.
  - remember (String d r) as u eqn:Eu.
    cbn [rstrip]. rewrite IH. now subst u.
Qed.

Lemma lstrip_head (s : string) :
  lstrip s = "" \/ exists c tl, lstrip s = String c tl /\ is_space c = false.
Proof.
  induction s as [|c tl IH]; [now left|].
  cbn [lstrip]. destruct (is_space c) eqn:E; [exact IH|].
  right. exists c, tl. auto.
Qed.

Lemma lstrip_rstrip (c : ascii) (tl : string) :
  is_space c = false -> lstrip (rstrip (String c tl)) = rstrip (String c tl).
Proof.
  intros H. cbn [rstrip]. destruct (rstrip tl); [rewrite H|];
    cbn [lstrip]; now rewrite H.
Qed.

Lemma strip_idempotent (s : string) : strip (strip s) = strip s.
Proof.
  unfold strip. destruct (lstrip_head s) as [E | [c [tl [E Hc]]]]; rewrite E.
  - reflexivity.
  - rewrite (lstrip_rstrip c tl Hc). apply rstrip_idempotent.
Qed.

Lemma no_space_append (a b : string) :
  no_space (a ++ b) = no_space a && no_space b.
Proof.
  induction a as [|c a IH]; simpl; [reflexivity|].
  now rewrite IH, Bool.andb_assoc.
Qed.

Lemma no_space_rstrip (s : string) : no_space s = true -> rstrip s = s.
Proof.
  induction s as [|c tl IH]; [reflexivity|].
  simpl. intros H. apply Bool.andb_true_iff in H. destruct H as [Hc Htl].
  rewrite (IH Htl). apply Bool.negb_true_iff in Hc. rewrite Hc.
  now destruct tl.
Qed.

Lemma no_space_strip (s : string) : no_space s = true -> strip s = s.
Proof.
  intros H. unfold strip.
  assert (E : lstrip s = s).
  { destruct s as [|c tl]; [reflexivity|]. simpl in H |- *.
    apply Bool.andb_true_iff in H. destruct H as [Hc _].
    apply Bool.negb_true_iff in Hc. now rewrite Hc. }
  rewrite E. now apply no_space_rstrip.
Qed.

Lemma digit_no_space (c : ascii) :
  digit c = true -> is_space c = false.
Proof.
  destruct c as [[] [] [] [] [] [] [] []]; vm_compute; congruence.
Qed.

Lemma digits_no_space (s : string) :
  digits s = true -> no_space s = true.
Proof.
  induction s as [|c tl IH]; [reflexivity|].
  simpl. intros H. apply Bool.andb_true_iff in H. destruct H as [Hc Htl].
  now rewrite (digit_no_space c Hc), (IH Htl).
Qed.

Lemma no_space_pad (w n : nat) : no_space (pad w n) = true.
Proof.
  unfold pad. rewrite no_space_append.
  rewrite (digits_no_space _ (PositionFacts.str_of_nat_digits n)).
  rewrite Bool.andb_true_r.
  induction (w - String.length (str_of_nat n)) as [|k IH]; [reflexivity|].
  exact IH.
Qed.

Lemma no_space_isoformat (d : datetime) : no_space (isoformat d) = true.
Proof.
  unfold isoformat.
  repeat (rewrite no_space_append, ?no_space_pad; cbn [andb]).
  repeat (cbn [append no_space]; rewrite ?no_space_append, ?no_space_pad;
          cbn [andb]).
  destruct (Nat.eqb (microsecond d) 0); [reflexivity|].
  cbn [append no_space]. now rewrite no_space_pad.
Qed.

Lemma to_text_trimmed (v : value) : strip (to_text v) = to_text v.
Proof.
  destruct v as [j | t | d | o]; unfold to_text.
  - apply strip_idempotent.
  - apply no_space_strip, no_space_isoformat.
  - apply no_space_strip, no_space_isoformat.
  - apply strip_idempotent.
Qed.

End TrimFacts.

(** X8. Whatever text [pick_change_dt] returns has no white space at either
    end, be it a trimmed text or the ISO text of a timestamp: trimming it
    again changes nothing. *)
Theorem resolved_text_is_trimmed :
  forall (r : record) (s : string),
    pick_change_dt r = Some s -> PyText.strip s = s.
Proof.
  intros r s. rewrite pick_change_dt_resolve. unfold resolve_field.
  destruct (py_or _ _) as [v|]; [|discriminate].
  assert (H : Some (to_text v) = Some s -> PyText.strip s = s).
  { intros E. injection E as <-. apply TrimFacts.to_text_trimmed. }
  destruct v as [[] | | |]; try exact H. discriminate.
Qed.

Lemma resolved_text_is_trimmed_witness :
  PyText.strip "2025-08-05 10:00" = "2025-08-05 10:00".
Proof.
  apply (resolved_text_is_trimmed
           [("lastMdfcnDt", VJson (JStr "  2025-08-05 10:00 "))]).
  reflexivity.
Defined.

(** X9. A row made from a snapshot whose lastMdfcnDt and ingested_at are both
    missing, None or a text of white space only is printed with "-" as its
    date. *)
Theorem blank_dates_print_dash :
  forall (DD : record -> record -> DeepDiffLib.text_view) (pid : string)
         (k : nat) (prev cur : record) (row : diff_row),
    blank (get "lastMdfcnDt" cur) ->
    blank (get "ingested_at" cur) ->
    In row (comparison_rows DD pid k prev cur) ->
    when row = "-".
Proof.
  intros DD pid k prev cur row H1 H2 Hin.
  apply comparison_rows_inv in Hin.
  destruct Hin as [changes [path [ch [_ [_ ->]]]]].
  unfold when. cbn [change_dt].
  assert (Hfb : resolve_field (get "ingested_at" cur) = None
                \/ resolve_field (get "ingested_at" cur) = Some "").
  { destruct H2 as [-> | [-> | [s [-> Hs]]]]; [now left | now left |].
    right. simpl. now rewrite Hs. }
  assert (Hres : pick_change_dt cur = None \/ pick_change_dt cur = Some "").
  { destruct H1 as [E | [E | [s [E Hs]]]].
    - rewrite pick_change_dt_fallback; [exact Hfb | now left].
    - rewrite pick_change_dt_fallback; [exact Hfb|].
      right. exists (VJson JNone). auto.
    - destruct (String.eqb s "") eqn:Es.
      + rewrite pick_change_dt_fallback; [exact Hfb|].
        right. exists (VJson (JStr s)). split; [exact E|].
        simpl. now rewrite Es.
      + right. rewrite (pick_change_dt_primary cur (VJson (JStr s)) E).
        * simpl. now rewrite Hs.
        * simpl. now rewrite Es. }
  destruct Hres as [-> | ->]; reflexivity.
Qed.

Lemma blank_dates_print_dash_witness :
  when (mkRow "P001" 2 "x" (Cell (VJson (JInt 1))) (Cell (VJson (JInt 2)))
          None (Some ""))
  = "-".
Proof.
  apply (blank_dates_print_dash (snapshot_diff no_pairs 0 1) "P001" 2
           [("x", VJson (JInt 1))]
           [("x", VJson (JInt 2)); ("lastMdfcnDt", VJson (JStr "  "))]).
  - right. right. exists "  ". split; reflexivity.
  - left. reflexivity.
  - left. reflexivity.
Defined.

(** ** tools/generate_data_for_ai.py *)

Module DictLemmas.
Import AiData.

Lemma get_set_item {V : Type} (k : string) (v : V) (d : list (string * V))
    (k' : string) :
  get k' (assign k v d) = if String.eqb k' k then Some v else get k' d.
Proof.
  unfold assign.
  induction d as [|[k0 v0] d IH]; simpl; [reflexivity|].
  destruct (String.eqb k k0) eqn:E; simpl.
  - apply String.eqb_eq in E. subst k0.
    destruct (String.eqb k' k); reflexivity.
  - rewrite IH. destruct (String.eqb k' k0) eqn:E0; [|reflexivity].
    apply String.eqb_eq in E0. subst k0.
    rewrite String.eqb_sym in E. now rewrite E.
Qed.

Lemma find_last {X : Type} (p : X -> bool) (l : list X) (a : X) :
  find p (l ++ [a])
  = match find p l with
    | Some x => Some x
    | None => if p a then Some a else None
    end.
Proof.
  induction l as [|x l IH]; simpl; [reflexivity|].
  destruct (p x); [reflexivity | exact IH].
Qed.

(** A dict filled by successive assignments holds, under a key, the value
    of the last assignment to that key. *)
Lemma get_fold_set_item {X V : Type} (key : X -> string) (val : X -> V)
    (xs : list X) :
  forall d0 k,
    get k (fold_left (fun d x => assign (key x) (val x) d) xs d0)
    = match find (fun x => String.eqb k (key x)) (rev xs) with
      | Some x => Some (val x)
      | None => get k d0
      end.
Proof.
  induction xs as [|x xs IH]; intros d0 k; [reflexivity|].
  cbn [fold_left rev]. rewrite IH, find_last.
  destruct (find _ (rev xs)); [reflexivity|].
  rewrite get_set_item. now destruct (String.eqb k (key x)).
Qed.

Lemma Forall_set_item {V : Type} (P : string * V -> Prop) (k : string) (v : V)
    (d : list (string * V)) :
  P (k, v) -> Forall P d -> Forall P (assign k v d).
Proof.
  unfold assign. intros Hkv.
  induction 1 as [|[k0 v0] d H0 Hd IH]; simpl; [now constructor|].
  destruct (String.eqb k k0) eqn:E.
  - apply String.eqb_eq in E. subst k0. now constructor.
  - now constructor.
Qed.

End DictLemmas.

Module ResolverFacts.
Import AiData DictLemmas.

Lemma exact_of_fold (adds : list (string * string)) :
  forall r,
    _exact (fold_left (fun r ka => add (fst ka) (snd ka) r) adds r)
    = fold_left (fun d ka => assign (fst ka) (snd ka) d) adds (_exact r).
Proof.
  induction adds as [|a adds IH]; intros r; [reflexivity|].
  cbn [fold_left]. now rewrite IH.
Qed.

Lemma canonical_of_fold (adds : list (string * string)) :
  forall r c,
    get c (_canonical (fold_left (fun r ka => add (fst ka) (snd ka) r) adds r))
    = match get c (_canonical r) with
      | Some alias => Some alias
      | None =>
          option_map snd
            (find (fun ka => String.eqb (lower (fst ka)) c) adds)
      end.
Proof.
  induction adds as [|a adds IH]; intros r c.
  - simpl. now destruct (get c (_canonical r)).
  - cbn [fold_left find]. rewrite IH. unfold add. cbn [_canonical].
    unfold has_key.
    destruct (get (lower (fst a)) (_canonical r)) as [old|] eqn:Eold.
    + destruct (get c (_canonical r)) as [x|] eqn:Ec; [reflexivity|].
      destruct (String.eqb (lower (fst a)) c) eqn:E; [|reflexivity].
      apply String.eqb_eq in E. congruence.
    + rewrite get_set_item. rewrite (String.eqb_sym c).
      destruct (String.eqb (lower (fst a)) c) eqn:E.
      * apply String.eqb_eq in E. subst c. now rewrite Eold.
      * reflexivity.
Qed.

End ResolverFacts.

Module RegisterFacts.

Lemma translate_register (adds : list (string * string)) (key : string) :
  AiData.translate key (register adds)
  = match find (fun ka => String.eqb key (fst ka)) (rev adds) with
    | Some ka => snd ka
    | None =>
        match
          find (fun ka => String.eqb (AiData.lower (fst ka)) (AiData.lower key))
            adds
        with
        | Some ka => snd ka
        | None => key
        end
    end.
Proof.
  unfold AiData.translate, register.
  rewrite ResolverFacts.exact_of_fold.
  rewrite (DictLemmas.get_fold_set_item fst snd).
  destruct (find _ (rev adds)); [reflexivity|].
  cbn [AiData._exact AiData.new_resolver get].
  rewrite ResolverFacts.canonical_of_fold.
  cbn [AiData._canonical AiData.new_resolver get].
  now destruct (find _ adds).
Qed.

End RegisterFacts.

(** X10. After a series of registrations, [translate] gives a key the alias
    of the last registration of exactly that key; failing that, the alias
    of the first registration of a key that differs from it only in case;
    failing that, the key itself. *)
Theorem translate_registered :
  forall (adds : list (string * string)) (key : string),
    AiData.translate key (register adds)
    = match find (fun ka => String.eqb key (fst ka)) (rev adds) with
      | Some ka => snd ka
      | None =>
          match
            find (fun ka => String.eqb (AiData.lower (fst ka)) (AiData.lower key))
              adds
          with
          | Some ka => snd ka
          | None => key
          end
      end.
Proof. intros. apply RegisterFacts.translate_register. Qed.

Module TrackerFacts.
Import PyText AiData DictLemmas.

Lemma set_add_length (code : string) (bucket : list string) :
  List.length (set_add code bucket) <= S (List.length bucket).
Proof.
  unfold set_add. destruct (existsb _ bucket); [lia|].
  rewrite length_app. simpl. lia.
Qed.

Lemma set_add_NoDup (code : string) (bucket : list string) :
  NoDup bucket -> NoDup (set_add code bucket).
Proof.
  intros H. unfold set_add.
  destruct (existsb (String.eqb code) bucket) eqn:E; [exact H|].
  apply NoDup_app; [exact H | repeat constructor; intros [] |].
  intros x Hx [Ex | []]. subst x.
  apply (ListFacts.existsb_eqb_in code bucket) in Hx. congruence.
Qed.

Lemma set_add_in (code : string) (bucket : list string) (x : string) :
  In x (set_add code bucket) -> x = code \/ In x bucket.
Proof.
  unfold set_add. destruct (existsb _ bucket); [now right|].
  intros H. apply in_app_or in H. destruct H as [H | [<- | []]]; auto.
Qed.

Lemma tracker_add_kept (field code : string) (t : MissingCodeTracker) :
  Forall (kept (_limit t)) (_data t) ->
  _limit (tracker_add field code t) = _limit t
  /\ Forall (kept (_limit t)) (_data (tracker_add field code t)).
Proof.
  intros H. unfold tracker_add.
  destruct (String.eqb (strip code) "") eqn:Ecode; [now split|].
  cbn [_limit _data]. split; [reflexivity|].
  apply Forall_set_item; [|exact H].
  assert (Hb : kept (_limit t)
                 (field, match get field (_data t) with
                         | Some b => b
                         | None => []
                         end)).
  { destruct (get field (_data t)) as [b|] eqn:E.
    - apply ListFacts.get_in in E. rewrite Forall_forall in H.
      exact (H _ E).
    - repeat split; simpl; [lia | constructor | constructor]. }
  destruct Hb as [Hlen [Hnd Hcodes]]. cbn [snd] in *.
  destruct (Nat.ltb _ _) eqn:Elt; [|now repeat split].
  apply Nat.ltb_lt in Elt. repeat split; cbn [snd].
  - pose proof (set_add_length (strip code)
                  (match get field (_data t) with Some b => b | None => [] end)).
    lia.
  - now apply set_add_NoDup.
  - apply Forall_forall. intros x Hx. apply set_add_in in Hx.
    destruct Hx as [-> | Hx].
    + split; [now apply String.eqb_neq | apply TrimFacts.strip_idempotent].
    + rewrite Forall_forall in Hcodes. auto.
Qed.

Lemma fold_tracker_add_kept (adds : list (string * string)) :
  forall t,
    Forall (kept (_limit t)) (_data t) ->
    Forall (kept (_limit t))
      (_data (fold_left (fun t fc => tracker_add (fst fc) (snd fc) t) adds t)).
Proof.
  induction adds as [|a adds IH]; intros t H; [exact H|].
  cbn [fold_left].
  destruct (tracker_add_kept (fst a) (snd a) t H) as [Hl Hk].
  rewrite <- Hl. apply IH. now rewrite Hl.
Qed.

End TrackerFacts.

(** X11. Whatever is added to a new [MissingCodeTracker], in any order, every
    field holds at most [per_field_limit] codes, no code twice, and every
    code kept is a trimmed text that is not empty. *)
Theorem tracker_keeps_its_limit :
  forall (limit : nat) (adds : list (string * string))
         (field : string) (codes : list string),
    In (field, codes) (AiData._data (track limit adds)) ->
    List.length codes <= limit
    /\ NoDup codes
    /\ Forall (fun c => c <> "" /\ PyText.strip c = c) codes.
Proof.
  intros limit adds field codes Hin.
  pose proof (TrackerFacts.fold_tracker_add_kept adds (AiData.new_tracker limit))
    as H.
  cbn [AiData.new_tracker AiData._limit AiData._data] in H.
  specialize (H (Forall_nil _)). rewrite Forall_forall in H.
  exact (H _ Hin).
Qed.

Lemma tracker_keeps_its_limit_witness :
  List.length ["B"; "C"] <= 2
  /\ NoDup ["B"; "C"]
  /\ Forall (fun c => c <> "" /\ PyText.strip c = c) ["B"; "C"].
Proof.
  apply (tracker_keeps_its_limit 2
           [("f", " B "); ("f", "C"); ("f", "B"); ("f", "  "); ("f", "D")]
           "f" ["B"; "C"]).
  left. reflexivity.
Defined.

Module MappingFacts.
Import PyText AiData DictLemmas.

Lemma lower_char_idempotent (c : ascii) :
  lower_char (lower_char c) = lower_char c.
Proof. destruct c as [[] [] [] [] [] [] [] []]; reflexivity. Qed.

Lemma lower_idempotent (s : string) : lower (lower s) = lower s.
Proof.
  induction s as [|c s IH]; simpl; [reflexivity|].
  now rewrite lower_char_idempotent, IH.
Qed.

Section Loaded.

Variables col_class col_code col_label : string.

Lemma cell_trimmed (column : string) (row : csv_row) :
  strip (cell column row) = cell column row.
Proof. unfold cell. apply TrimFacts.strip_idempotent. Qed.

Lemma load_value_row_loaded mappings (row : csv_row) :
  Forall loaded mappings ->
  Forall loaded (load_value_row col_class col_code col_label mappings row).
Proof.
  intros H. unfold load_value_row.
  destruct (String.eqb (cell col_class row) "") eqn:E1; [exact H|].
  destruct (String.eqb (cell col_code row) "") eqn:E2; [exact H|].
  destruct (String.eqb (cell col_label row) "") eqn:E3; [exact H|].
  cbn [orb]. apply Forall_set_item; [|exact H].
  split; cbn [fst snd]; [apply lower_idempotent|].
  apply Forall_set_item.
  - cbn [fst snd]. repeat split;
      try (now apply String.eqb_neq); apply cell_trimmed.
  - destruct (get (lower (cell col_class row)) mappings) as [b|] eqn:E;
      [|constructor].
    apply ListFacts.get_in in E. rewrite Forall_forall in H.
    exact (proj2 (H _ E)).
Qed.

Lemma load_value_mappings_loaded (rows : list csv_row) :
  Forall loaded (load_value_mappings col_class col_code col_label rows).
Proof.
  unfold load_value_mappings.
  assert (H : forall m, Forall loaded m ->
                Forall loaded
                  (fold_left (load_value_row col_class col_code col_label) rows m)).
  { induction rows as [|row rows IH]; intros m Hm; [exact Hm|].
    cbn [fold_left]. apply IH. now apply load_value_row_loaded. }
  apply H. constructor.
Qed.

End Loaded.

Lemma table_of_lower (field : string) value_mappings :
  Forall (fun fb => lower (fst fb) = fst fb) value_mappings ->
  table_of field value_mappings = get (lower field) value_mappings.
Proof.
  intros H. unfold table_of.
  destruct (get field value_mappings) as [t|] eqn:E; [|reflexivity].
  pose proof (ListFacts.get_in _ _ _ E) as Hin.
  rewrite Forall_forall in H. specialize (H _ Hin). cbn [fst] in H.
  now rewrite H, E.
Qed.

Lemma translate_code_value_table (field : string) (value : json) value_mappings :
  translate_code_value field value value_mappings
  = translate_code_value field value
      (match table_of field value_mappings with
       | Some t => [(field, t)]
       | None => []
       end).
Proof.
  unfold translate_code_value. fold (table_of field value_mappings).
  destruct (table_of field value_mappings) as [t|]; cbn [get].
  - now rewrite String.eqb_refl.
  - reflexivity.
Qed.

End MappingFacts.

(** X12. With the value mappings loaded from the mapping file, the case of
    the field name does not matter to [translate_code_value]: two names
    that differ only in case are translated with the same table. *)
Theorem loaded_tables_ignore_case :
  forall (col_class col_code col_label : string) (rows : list AiData.csv_row)
         (f1 f2 : string) (value : json),
    AiData.lower f1 = AiData.lower f2 ->
    AiData.translate_code_value f1 value
      (AiData.load_value_mappings col_class col_code col_label rows)
    = AiData.translate_code_value f2 value
        (AiData.load_value_mappings col_class col_code col_label rows).
Proof.
  intros c1 c2 c3 rows f1 f2 value H.
  unfold AiData.translate_code_value.
  fold (table_of f1 (AiData.load_value_mappings c1 c2 c3 rows)).
  fold (table_of f2 (AiData.load_value_mappings c1 c2 c3 rows)).
  assert (Hl : Forall (fun fb => AiData.lower (fst fb) = fst fb)
                 (AiData.load_value_mappings c1 c2 c3 rows)).
  { pose proof (MappingFacts.load_value_mappings_loaded c1 c2 c3 rows) as Hl.
    rewrite Forall_forall in Hl |- *. intros fb Hfb. exact (proj1 (Hl fb Hfb)). }
  rewrite !(MappingFacts.table_of_lower _ _ Hl), H. reflexivity.
Qed.

Lemma loaded_tables_ignore_case_witness :
  let rows := [[("class", Some "zipCd"); ("code", Some "11"); ("label", Some "Seoul")]] in
  AiData.translate_code_value "ZIPCD" (JStr "11")
    (AiData.load_value_mappings "class" "code" "label" rows)
  = AiData.translate_code_value "zipcd" (JStr "11")
      (AiData.load_value_mappings "class" "code" "label" rows).
Proof.
  intros rows.
  apply (loaded_tables_ignore_case "class" "code" "label" rows "ZIPCD" "zipcd").
  reflexivity.
Defined.

Module TranslateFacts.
Import PyText AiData DictLemmas.

Lemma Forall_snoc {A : Type} (P : A -> Prop) (l : list A) (a : A) :
  Forall P l -> P a -> Forall P (l ++ [a]).
Proof. intros Hl Ha. apply Forall_app. split; [exact Hl | now constructor]. Qed.

Lemma code_items_missing table (items : list json) :
  forall st,
    Forall (unlabelled table) (snd st) ->
    Forall (unlabelled table) (snd (fold_left (code_item table) items st)).
Proof.
  induction items as [|item items IH]; intros st H; [exact H|].
  cbn [fold_left]. apply IH. unfold code_item.
  destruct (String.eqb _ "") eqn:E; [exact H|].
  destruct (get _ table) eqn:Eg; cbn [snd]; [exact H|].
  apply Forall_snoc; [exact H|]. repeat split;
    [now apply String.eqb_neq | apply TrimFacts.strip_idempotent | exact Eg].
Qed.

Lemma code_parts_missing table (parts : list string) :
  Forall (fun p => strip p = p) parts ->
  forall st,
    Forall (unlabelled table) (missing st) ->
    Forall (unlabelled table) (missing (fold_left (code_part table) parts st)).
Proof.
  induction 1 as [|part parts Hp _ IH]; intros st H; [exact H|].
  cbn [fold_left]. apply IH. unfold code_part.
  destruct (String.eqb part "") eqn:E; [exact H|].
  destruct (get part table) eqn:Eg; cbn [missing]; [exact H|].
  apply Forall_snoc; [exact H|]. repeat split;
    [now apply String.eqb_neq | exact Hp | exact Eg].
Qed.

Lemma parts_trimmed (l : list string) : Forall (fun p => strip p = p) (map strip l).
Proof.
  apply Forall_forall. intros p Hp. apply in_map_iff in Hp.
  destruct Hp as [x [<- _]]. apply TrimFacts.strip_idempotent.
Qed.

Lemma code_separators_missing table raw_text (seps : list ascii) :
  forall missing,
    Forall (unlabelled table) missing ->
    Forall (unlabelled table)
      (snd (code_separators table raw_text seps missing)).
Proof.
  induction seps as [|sep seps IH]; intros missing H; [exact H|].
  cbn [code_separators]. destruct (has_char sep raw_text); [|now apply IH].
  pose proof (code_parts_missing table _ (parts_trimmed (split sep raw_text))
                (mkParts [] false missing) H) as Hst.
  destruct (changed _); [exact Hst | now apply IH].
Qed.

Lemma region_items_missing lookup (items : list json) :
  forall st,
    Forall (unlabelled lookup) (snd st) ->
    Forall (unlabelled lookup) (snd (fold_left (region_item lookup) items st)).
Proof.
  induction items as [|item items IH]; intros st H; [exact H|].
  cbn [fold_left]. apply IH. unfold region_item, resolve.
  destruct (String.eqb _ "") eqn:E; [exact H|].
  destruct (get _ lookup) eqn:Eg; cbn [snd]; [exact H|].
  apply Forall_snoc; [exact H|]. repeat split;
    [now apply String.eqb_neq | apply TrimFacts.strip_idempotent | exact Eg].
Qed.

Lemma region_parts_missing lookup (parts : list string) :
  Forall (fun p => strip p = p /\ p <> "") parts ->
  forall st,
    Forall (unlabelled lookup) (missing st) ->
    Forall (unlabelled lookup)
      (missing (fold_left (region_part lookup) parts st)).
Proof.
  induction 1 as [|part parts [Hp Hne] _ IH]; intros st H; [exact H|].
  cbn [fold_left]. apply IH. unfold region_part.
  destruct (get part lookup) eqn:Eg; cbn [missing]; [exact H|].
  apply Forall_snoc; [exact H|]. repeat split; assumption.
Qed.

Lemma region_parts_trimmed (l : list string) :
  Forall (fun p => strip p = p /\ p <> "")
    (map strip (filter (fun p => negb (String.eqb (strip p) "")) l)).
Proof.
  apply Forall_forall. intros p Hp. apply in_map_iff in Hp.
  destruct Hp as [x [<- Hx]]. apply filter_In in Hx. destruct Hx as [_ Hx].
  apply Bool.negb_true_iff in Hx.
  split; [apply TrimFacts.strip_idempotent | now apply String.eqb_neq].
Qed.

Lemma region_separators_missing lookup raw_text (seps : list ascii) :
  forall missing,
    Forall (unlabelled lookup) missing ->
    Forall (unlabelled lookup)
      (snd (region_separators lookup raw_text seps missing)).
Proof.
  induction seps as [|sep seps IH]; intros missing H; [exact H|].
  cbn [region_separators]. destruct (has_char sep raw_text); [|now apply IH].
  pose proof (region_parts_missing lookup _
                (region_parts_trimmed (split sep raw_text))
                (mkParts [] false missing) H) as Hst.
  destruct (changed _); [exact Hst | now apply IH].
Qed.

Lemma code_missing :
  forall (field : string) (value : json)
         (value_mappings : list (string * list (string * string)))
         (c : string),
    In c (snd (AiData.translate_code_value field value value_mappings)) ->
    exists table,
      table_of field value_mappings = Some table /\ unlabelled table c.
Proof.
  intros field value M c. unfold AiData.translate_code_value.
  fold (table_of field M).
  destruct (table_of field M) as [table|]; [|intros []].
  intros Hin. exists table. split; [reflexivity|].
  revert c Hin. apply Forall_forall.
  assert (Hscalar :
    Forall (unlabelled table)
      (snd (let raw_text := PyText.strip (PyRepr.str_json value) in
            if String.eqb raw_text "" then (value, [])
            else
              match get raw_text table with
              | Some direct_label => (JStr direct_label, [])
              | None =>
                  match
                    AiData.code_separators table raw_text AiData.separators []
                  with
                  | (Some text, missing) => (JStr text, missing)
                  | (None, missing) => (value, missing ++ [raw_text])
                  end
              end))).
  { cbv zeta. destruct (String.eqb _ "") eqn:E; [constructor|].
    destruct (get _ table) eqn:Eg; [constructor|].
    pose proof (code_separators_missing table
                  (PyText.strip (PyRepr.str_json value)) AiData.separators []
                  (Forall_nil _)) as Hs.
    destruct (AiData.code_separators _ _ _ _) as [[text|] missing];
      cbn [snd] in *; [exact Hs|].
    apply Forall_snoc; [exact Hs|]. repeat split;
      [now apply String.eqb_neq | apply TrimFacts.strip_idempotent | exact Eg]. }
  destruct value; try exact Hscalar.
  - constructor.
  - cbn [snd]. apply code_items_missing. constructor.
Qed.

Lemma region_missing :
  forall (value : json) (region_lookup : list (string * string)) (c : string),
    In c (snd (AiData.translate_region_value value region_lookup)) ->
    unlabelled region_lookup c.
Proof.
  intros value L c. unfold AiData.translate_region_value.
  revert c. apply Forall_forall.
  assert (Hscalar :
    Forall (unlabelled L)
      (snd (let raw_text := PyText.strip (PyRepr.str_json value) in
            if String.eqb raw_text "" then (value, [])
            else
              match get raw_text L with
              | Some direct => (JStr direct, [])
              | None =>
                  match
                    AiData.region_separators L raw_text AiData.separators []
                  with
                  | (Some text, missing) => (JStr text, missing)
                  | (None, missing) => (value, missing ++ [raw_text])
                  end
              end))).
  { cbv zeta. destruct (String.eqb _ "") eqn:E; [constructor|].
    destruct (get _ L) eqn:Eg; [constructor|].
    pose proof (region_separators_missing L
                  (PyText.strip (PyRepr.str_json value)) AiData.separators []
                  (Forall_nil _)) as Hs.
    destruct (AiData.region_separators _ _ _ _) as [[text|] missing];
      cbn [snd] in *; [exact Hs|].
    apply Forall_snoc; [exact Hs|]. repeat split;
      [now apply String.eqb_neq | apply TrimFacts.strip_idempotent | exact Eg]. }
  destruct value; try exact Hscalar.
  - constructor.
  - cbn [snd]. apply region_items_missing. constructor.
Qed.

End TranslateFacts.

(** X13. [translate_code_value] reports codes as missing only when the field
    has a table, and then only trimmed texts, not empty, that this table has
    no label for. *)
Theorem missing_codes_have_no_label :
  forall (field : string) (value : json)
         (value_mappings : list (string * list (string * string)))
         (c : string),
    In c (snd (AiData.translate_code_value field value value_mappings)) ->
    exists table,
      table_of field value_mappings = Some table /\ unlabelled table c.
Proof.
  intros field value value_mappings c H.
  exact (TranslateFacts.code_missing field value value_mappings c H).
Qed.

Lemma missing_codes_have_no_label_witness :
  exists table,
    table_of "Kind" [("kind", [("a", "Alpha")])] = Some table
    /\ unlabelled table "b".
Proof.
  apply (missing_codes_have_no_label "Kind" (JStr "a, b")
           [("kind", [("a", "Alpha")])] "b").
  left. reflexivity.
Defined.

(** X14. [translate_region_value] reports as missing only trimmed texts, not
    empty, that the region lookup has no name for. *)
Theorem missing_regions_have_no_name :
  forall (value : json) (region_lookup : list (string * string)) (c : string),
    In c (snd (AiData.translate_region_value value region_lookup)) ->
    unlabelled region_lookup c.
Proof.
  intros value region_lookup c H.
  exact (TranslateFacts.region_missing value region_lookup c H).
Qed.

Lemma missing_regions_have_no_name_witness :
  unlabelled [("11000", "Seoul")] "99000".
Proof.
  apply (missing_regions_have_no_name
           (JList [JStr " 11000 "; JStr "99000"]) [("11000", "Seoul")] "99000").
  left. reflexivity.
Defined.

Module CsvFacts.
Import PyText AiData DictLemmas.

Lemma single_prefix (c d : ascii) (tl : string) :
  prefix (String c "") (String d tl) = Ascii.eqb c d.
Proof.
  simpl. destruct (ascii_dec c d) as [E | E].
  - subst. rewrite Ascii.eqb_refl. now destruct tl.
  - symmetry. now apply Ascii.eqb_neq.
Qed.

(** Replacing a character leaves none of it, when the replacement does not
    hold it. *)
Lemma replace_char_gone (c : ascii) (new s : string) :
  has_char c new = false ->
  has_char c (replace (String c "") new s) = false.
Proof.
  intros Hnew. unfold replace.
  induction s as [|d tl IH]; [reflexivity|].
  cbn [replace_aux]. rewrite single_prefix.
  destruct (Ascii.eqb c d) eqn:E.
  - cbn [String.length Nat.sub]. rewrite PositionFacts.has_char_append.
    now rewrite Hnew, IH.
  - cbn [has_char]. now rewrite E, IH.
Qed.

(** Replacing a character brings in no other character that neither the
    text nor the replacement holds. *)
Lemma replace_char_keeps (x c : ascii) (new s : string) :
  has_char x new = false -> has_char x s = false ->
  has_char x (replace (String c "") new s) = false.
Proof.
  intros Hnew. unfold replace.
  induction s as [|d tl IH]; [reflexivity|].
  intros Hs. apply TextFacts.has_char_cons in Hs. destruct Hs as [Hd Htl].
  cbn [replace_aux]. rewrite single_prefix.
  destruct (Ascii.eqb c d).
  - cbn [String.length Nat.sub]. rewrite PositionFacts.has_char_append.
    now rewrite Hnew, (IH Htl).
  - cbn [has_char]. rewrite (Ascii.eqb_sym x d), Hd. now apply IH.
Qed.

(** Nothing is replaced in a text that does not hold the first character of
    what is looked for. *)
Lemma replace_absent (c : ascii) (old' new s : string) :
  has_char c s = false -> replace (String c old') new s = s.
Proof.
  unfold replace. induction s as [|d tl IH]; [reflexivity|].
  intros Hs. apply TextFacts.has_char_cons in Hs. destruct Hs as [Hd Htl].
  cbn [replace_aux prefix].
  destruct (ascii_dec c d) as [E | _].
  - subst. now rewrite Ascii.eqb_refl in Hd.
  - now rewrite (IH Htl).
Qed.

Lemma escaped_breaks (s : string) :
  let out :=
    replace (String LF "") (String PyRepr.backslash "n")
      (replace (String CR "") (String PyRepr.backslash "n")
         (replace (String CR (String LF "")) (String PyRepr.backslash "n") s)) in
  has_char CR out = false /\ has_char LF out = false.
Proof.
  cbv zeta. split.
  - apply replace_char_keeps; [reflexivity|].
    apply replace_char_gone. reflexivity.
  - apply replace_char_gone. reflexivity.
Qed.

Lemma add_header_ok st key : headers_ok st -> headers_ok (add_header st key).
Proof.
  intros [Hnd Hsame]. unfold add_header.
  destruct (existsb (String.eqb key) (snd st)) eqn:E; [now split|].
  assert (Hout : ~ In key (snd st)).
  { intros Hin. apply ListFacts.existsb_eqb_in in Hin. congruence. }
  split; cbn [fst snd].
  - apply NoDup_app; [exact Hnd | repeat constructor; intros [] |].
    intros x Hx [Ex | []]. subst x. apply Hout. now apply Hsame.
  - intros x. unfold set_add. rewrite E, !in_app_iff, Hsame. reflexivity.
Qed.

Lemma add_header_in st key x :
  headers_ok st ->
  (In x (fst (add_header st key)) <-> In x (fst st) \/ x = key).
Proof.
  intros [_ Hsame]. unfold add_header.
  destruct (existsb (String.eqb key) (snd st)) eqn:E; cbn [fst].
  - apply ListFacts.existsb_eqb_in in E. apply Hsame in E.
    split; [now left | intros [H | ->]; assumption].
  - rewrite in_app_iff. simpl. split; intros [H | H]; auto.
    + destruct H as [<- | []]. now right.
Qed.

Lemma add_header_head st key h rest :
  fst st = h :: rest -> exists rest', fst (add_header st key) = h :: rest'.
Proof.
  intros E. unfold add_header. destruct (existsb _ _); cbn [fst]; rewrite E.
  - now exists rest.
  - now exists (rest ++ [key]).
Qed.

Lemma add_headers_ok (keys : list string) :
  forall st h rest,
    headers_ok st -> fst st = h :: rest ->
    headers_ok (fold_left add_header keys st)
    /\ (exists rest', fst (fold_left add_header keys st) = h :: rest')
    /\ forall x, In x (fst (fold_left add_header keys st))
                 <-> In x (fst st) \/ In x keys.
Proof.
  induction keys as [|key keys IH]; intros st h rest Hok Hhd.
  - cbn [fold_left]. split; [exact Hok|]. split; [now exists rest|].
    intros x. simpl. tauto.
  - cbn [fold_left].
    destruct (add_header_head st key h rest Hhd) as [rest' Hhd'].
    destruct (IH (add_header st key) h rest' (add_header_ok st key Hok) Hhd')
      as [H1 [H2 H3]].
    split; [exact H1|]. split; [exact H2|].
    intros x. rewrite H3, (add_header_in st key x Hok). simpl.
    split; intros Hx; repeat destruct Hx as [Hx | Hx]; subst; auto.
Qed.

Lemma collect_ok_all (records : list (list (string * json))) :
  forall st h rest,
    headers_ok st -> fst st = h :: rest ->
    let final :=
      fold_left (fun st record => fold_left add_header (map fst record) st)
        records st in
    headers_ok final
    /\ (exists rest', fst final = h :: rest')
    /\ forall x, In x (fst final)
                 <-> In x (fst st)
                     \/ exists record, In record records /\ In x (map fst record).
Proof.
  induction records as [|record records IH]; intros st h rest Hok Hhd; cbv zeta.
  - cbn [fold_left]. split; [exact Hok|]. split; [now exists rest|].
    intros x. split; [now left | intros [H | [r [[] _]]]; exact H].
  - cbn [fold_left].
    destruct (add_headers_ok (map fst record) st h rest Hok Hhd)
      as [Hok' [[rest' Hhd'] Hin']].
    destruct (IH _ h rest' Hok' Hhd') as [H1 [H2 H3]].
    split; [exact H1|]. split; [exact H2|].
    intros x. rewrite H3, Hin'. split.
    + intros [[H | H] | [r [Hr H]]].
      * now left.
      * right. exists record. split; [now left | exact H].
      * right. exists r. split; [now right | exact H].
    + intros [H | [r [[<- | Hr] H]]].
      * left. now left.
      * left. now right.
      * right. now exists r.
Qed.

(** The transformed record is the ID entry with one assignment for each
    entry of the payload. *)
Lemma transform_record field_names value_mappings region_lookup
    (payload : list (string * json)) :
  forall st,
    fst (fold_left (transform_item field_names value_mappings region_lookup)
           payload st)
    = fold_left
        (fun d kv =>
           assign (translate (fst kv) field_names)
             (fst (translation value_mappings region_lookup (fst kv) (snd kv)))
             d)
        payload (fst st).
Proof.
  induction payload as [|kv payload IH]; intros st; [reflexivity|].
  cbn [fold_left]. now rewrite IH.
Qed.

(** What a tracker holds after an [add] was added by it or held before. *)
Lemma tracker_add_in (f' c' : string) (t : MissingCodeTracker)
    (f : string) (codes : list string) (c : string) :
  In (f, codes) (_data (tracker_add f' c' t)) -> In c codes ->
  (f = f' /\ c = strip c')
  \/ exists codes0, In (f, codes0) (_data t) /\ In c codes0.
Proof.
  unfold tracker_add.
  destruct (String.eqb (strip c') ""); [intros H Hc; right; eauto|].
  cbn [_data]. intros H Hc. apply EngineFacts.set_item_in in H.
  destruct H as [[-> ->] | H]; [|right; eauto].
  assert (Hb : In c (match get f' (_data t) with Some b => b | None => [] end)
               -> exists codes0, In (f', codes0) (_data t) /\ In c codes0).
  { destruct (get f' (_data t)) as [b|] eqn:E; [|intros []].
    intros Hin. exists b. split; [now apply ListFacts.get_in | exact Hin]. }
  destruct (Nat.ltb _ _); [|right; now apply Hb].
  apply TrackerFacts.set_add_in in Hc.
  destruct Hc as [-> | Hc]; [now left | right; now apply Hb].
Qed.

Lemma fold_tracker_add_in (key : string) (codes : list string) :
  forall (t : MissingCodeTracker) (f : string) (cs : list string) (c : string),
    In (f, cs)
      (_data (fold_left (fun t code => tracker_add key code t) codes t)) ->
    In c cs ->
    (f = key /\ exists code, In code codes /\ c = strip code)
    \/ exists cs0, In (f, cs0) (_data t) /\ In c cs0.
Proof.
  induction codes as [|code codes IH]; intros t f cs c H Hc; [right; eauto|].
  cbn [fold_left] in H.
  destruct (IH _ f cs c H Hc) as [[-> [x [Hx ->]]] | [cs0 [H0 Hc0]]].
  - left. split; [reflexivity|]. exists x. split; [now right | reflexivity].
  - destruct (tracker_add_in key code t f cs0 c H0 Hc0) as [[-> ->] | Hold].
    + left. split; [reflexivity|]. exists code. split; [now left | reflexivity].
    + now right.
Qed.

(** A code the tracker holds after [transform_policy] was reported missing
    for a payload entry, or was held before. *)
Lemma transform_tracker field_names value_mappings region_lookup
    (payload : list (string * json)) :
  forall st (f : string) (cs : list string) (c : string),
    In (f, cs)
      (_data (snd (fold_left
                     (transform_item field_names value_mappings region_lookup)
                     payload st))) ->
    In c cs ->
    (exists value code,
       In (f, value) payload
       /\ In code (snd (translation value_mappings region_lookup f value))
       /\ c = strip code)
    \/ exists cs0, In (f, cs0) (_data (snd st)) /\ In c cs0.
Proof.
  induction payload as [|[key value] payload IH]; intros st f cs c H Hc;
    [right; eauto|].
  cbn [fold_left] in H.
  destruct (IH _ f cs c H Hc) as [[v [code [Hin [Hcode ->]]]] | [cs0 [H0 Hc0]]].
  - left. exists v, code. split; [now right | auto].
  - unfold transform_item in H0. cbn [fst snd] in H0.
    fold (translation value_mappings region_lookup key value) in H0.
    destruct (fold_tracker_add_in key _ _ f cs0 c H0 Hc0)
      as [[-> [code [Hcode ->]]] | Hold].
    + left. exists value, code. split; [now left | auto].
    + now right.
Qed.

(** Assignments under keys that are all different, none of them in the dict
    yet, append to the dict in order. *)
Lemma fold_set_item_fresh {X V : Type} (key : X -> string) (val : X -> V)
    (xs : list X) :
  forall d0,
    NoDup (map key xs) ->
    (forall x, In x xs -> ~ In (key x) (map fst d0)) ->
    fold_left (fun d x => assign (key x) (val x) d) xs d0
    = d0 ++ map (fun x => (key x, val x)) xs.
Proof.
  assert (Hfresh : forall (k : string) (v : V) d,
             ~ In k (map fst d) -> assign k v d = d ++ [(k, v)]).
  { unfold assign. intros k v d. induction d as [|[k0 v0] d IH]; simpl;
      [reflexivity|].
    intros H. destruct (String.eqb k k0) eqn:E.
    - apply String.eqb_eq in E. subst. exfalso. apply H. now left.
    - rewrite IH; [reflexivity|]. intros Hin. apply H. now right. }
  induction xs as [|x xs IH]; intros d0 Hnd Hout.
  - simpl. now rewrite app_nil_r.
  - cbn [fold_left map]. inversion Hnd as [|? ? Hx Hnd']; subst.
    rewrite (Hfresh (key x) (val x) d0) by (apply Hout; now left).
    rewrite IH; [now rewrite <- app_assoc | exact Hnd'|].
    intros y Hy Hin. rewrite map_app, in_app_iff in Hin.
    destruct Hin as [Hin | [E | []]].
    + apply (Hout y); [now right | exact Hin].
    + cbn [fst] in E. apply Hx. rewrite E. now apply in_map.
Qed.

Lemma collect_ok (id_header : string) (records : list (list (string * json))) :
  NoDup (collect_headers id_header records)
  /\ (exists rest, collect_headers id_header records = id_header :: rest)
  /\ forall h,
       In h (collect_headers id_header records)
       <-> h = id_header
           \/ exists record, In record records /\ In h (map fst record).
Proof.
  unfold collect_headers.
  assert (Hok : headers_ok ([id_header], [id_header])).
  { split; [repeat constructor; intros [] | intros x; reflexivity]. }
  destruct (collect_ok_all records ([id_header], [id_header])
              id_header [] Hok eq_refl) as [[Hnd _] [Hhd Hin]].
  split; [exact Hnd|]. split; [exact Hhd|].
  intros h. rewrite Hin. cbn [fst In].
  split; intros [H | H]; auto.
  - destruct H as [<- | []]. now left.
Qed.

End CsvFacts.

(** X15. Whatever the value, the cell [normalize_csv_value] writes holds no
    carriage return and no line feed. *)
Theorem cells_hold_no_line_break :
  forall (dumps : list (string * json) -> string) (value : option json),
    PyText.has_char AiData.CR (AiData.normalize_csv_value dumps value) = false
    /\ PyText.has_char AiData.LF (AiData.normalize_csv_value dumps value) = false.
Proof.
  intros dumps value. unfold AiData.normalize_csv_value.
  destruct (String.eqb _ "");
    [split; reflexivity | apply CsvFacts.escaped_breaks].
Qed.

(** X16. A text without carriage return and line feed is written as it
    is. *)
Theorem plain_text_is_written_unchanged :
  forall (dumps : list (string * json) -> string) (s : string),
    PyText.has_char AiData.CR s = false ->
    PyText.has_char AiData.LF s = false ->
    AiData.normalize_csv_value dumps (Some (JStr s)) = s.
Proof.
  intros dumps s Hcr Hlf. unfold AiData.normalize_csv_value.
  cbn [PyRepr.str_json].
  destruct (String.eqb s "") eqn:E.
  - apply String.eqb_eq in E. now subst.
  - rewrite (CsvFacts.replace_absent AiData.CR _ _ s Hcr).
    rewrite (CsvFacts.replace_absent AiData.CR _ _ s Hcr).
    apply (CsvFacts.replace_absent AiData.LF _ _ s Hlf).
Qed.

Lemma plain_text_is_written_unchanged_witness :
  AiData.normalize_csv_value (fun _ => "{}") (Some (JStr "a, b\n")) = "a, b\n".
Proof.
  apply (plain_text_is_written_unchanged (fun _ => "{}") "a, b\n");
    reflexivity.
Defined.

(** X17. The headers [main] collects start with the ID header, hold no
    header twice, and are the ID header together with every key of every
    record. *)
Theorem headers_collected :
  forall (id_header : string) (records : list (list (string * json))),
    NoDup (AiData.collect_headers id_header records)
    /\ (exists rest, AiData.collect_headers id_header records = id_header :: rest)
    /\ forall h,
         In h (AiData.collect_headers id_header records)
         <-> h = id_header
             \/ exists record, In record records /\ In h (map fst record).
Proof.
  intros id_header records. apply CsvFacts.collect_ok.
Qed.

(** X18. The record [transform_policy] builds holds, under a column, the
    translated value of the last payload entry whose key translates to that
    column; with no such entry, the policy_id under the ID header and
    nothing under any other column. *)
Theorem transformed_record_lookup :
  forall (id_header policy_id : string) (payload : list (string * json))
         (field_names : AiData.FieldNameResolver)
         (value_mappings : list (string * list (string * string)))
         (region_lookup : list (string * string))
         (missing_tracker : AiData.MissingCodeTracker) (column : string),
    get column
      (fst (AiData.transform_policy id_header policy_id payload field_names
              value_mappings region_lookup missing_tracker))
    = match
        find (fun kv => String.eqb column (AiData.translate (fst kv) field_names))
          (rev payload)
      with
      | Some kv =>
          Some (fst (translation value_mappings region_lookup (fst kv) (snd kv)))
      | None => if String.eqb column id_header then Some (JStr policy_id) else None
      end.
Proof.
  intros id_header policy_id payload fn M L t column.
  unfold AiData.transform_policy.
  rewrite CsvFacts.transform_record. cbn [fst].
  rewrite (DictLemmas.get_fold_set_item
             (fun kv => AiData.translate (fst kv) fn)
             (fun kv => fst (translation M L (fst kv) (snd kv)))).
  destruct (find _ (rev payload)); reflexivity.
Qed.

(** X19. With the headers [main] collects, the row [write_csv] makes for a
    record has one cell for each header, in the order of the headers: the
    normalized value the record holds under the header, empty when the
    record lacks the column. *)
Theorem one_cell_per_header :
  forall (dumps : list (string * json) -> string) (id_header : string)
         (records : list (list (string * json)))
         (record : list (string * json)),
    AiData.csv_cells dumps (AiData.collect_headers id_header records) record
    = map (fun h => (h, AiData.normalize_csv_value dumps (get h record)))
        (AiData.collect_headers id_header records)
    /\ forall h, get h record = None ->
                 AiData.normalize_csv_value dumps (get h record) = "".
Proof.
  intros dumps id_header records record. split.
  - unfold AiData.csv_cells.
    destruct (CsvFacts.collect_ok id_header records) as [Hnd _].
    rewrite (CsvFacts.fold_set_item_fresh (fun h => h)
               (fun h => AiData.normalize_csv_value dumps (get h record))).
    + reflexivity.
    + now rewrite map_id.
    + intros x _ [].
  - intros h ->. reflexivity.
Qed.

Module LoaderFacts.
Import PyText AiData DictLemmas.

Lemma load_field_rows cf cd (rows : list csv_row) :
  forall st seen,
    (forall d, count_of (name_counts st) d = count_occ string_dec seen d) ->
    resolver (fold_left (load_field_row cf cd) rows st)
    = fold_left (fun r ka => add (fst ka) (snd ka) r)
        (numbered seen (flat_map (accepted cf cd) rows)) (resolver st).
Proof.
  induction rows as [|row rows IH]; intros st seen Hc; [reflexivity|].
  cbn [fold_left flat_map]. unfold load_field_row at 2, accepted at 1.
  destruct (String.eqb (cell cf row) "") eqn:E1; [now apply IH|].
  destruct (String.eqb (cell cd row) "") eqn:E2; [now apply IH|].
  cbn [orb].
  destruct (String.eqb (strip (replace ">" "" (replace "<" "" (cell cf row)))) "")
    eqn:E3; [now apply IH|].
  cbn [app numbered fold_left fst snd].
  rewrite (IH _ (cell cd row :: seen)).
  - cbn [resolver]. fold (count_of (name_counts st) (cell cd row)).
    rewrite Hc. reflexivity.
  - intros d. cbn [name_counts]. unfold count_of.
    rewrite get_set_item. fold (count_of (name_counts st) (cell cd row)).
    fold (count_of (name_counts st) d). cbn [count_occ].
    destruct (string_dec (cell cd row) d) as [E | E].
    + subst d. rewrite String.eqb_refl, Hc. lia.
    + rewrite (String.eqb_sym d). apply String.eqb_neq in E. rewrite E.
      apply Hc.
Qed.

Lemma load_field_name_mapping_numbered cf cd (rows : list csv_row) :
  load_field_name_mapping cf cd rows
  = register (numbered [] (flat_map (accepted cf cd) rows)).
Proof.
  unfold load_field_name_mapping, register.
  now rewrite (load_field_rows cf cd rows (mkLoader new_resolver []) []).
Qed.

End LoaderFacts.

(** X20. [load_field_name_mapping] registers, for each row it does not pass
    over and in the order of the file, the field key under the description
    of the row, with "_n" appended when the row is the n-th of its
    description, n being 2 or more. *)
Theorem aliases_are_numbered :
  forall (col_field col_description : string) (rows : list AiData.csv_row),
    AiData.load_field_name_mapping col_field col_description rows
    = register (numbered [] (flat_map (accepted col_field col_description) rows)).
Proof. intros. apply LoaderFacts.load_field_name_mapping_numbered. Qed.

Module AliasFacts.
Import PyText AiData.

Lemma to_uint_not_nil (n : nat) : Nat.to_uint n <> Decimal.Nil.
Proof.
  intros E. pose proof (Unsigned.of_to n) as H. rewrite E in H.
  simpl in H. subst n. discriminate E.
Qed.

Lemma str_of_nat_inj (n m : nat) : str_of_nat n = str_of_nat m -> n = m.
Proof.
  unfold str_of_nat. intros E. apply Unsigned.to_uint_inj.
  pose proof (NilZero.usu _ (to_uint_not_nil n)) as Hn.
  pose proof (NilZero.usu _ (to_uint_not_nil m)) as Hm.
  rewrite E in Hn. congruence.
Qed.

Lemma append_inj_l (a b c : string) : (a ++ b)%string = (a ++ c)%string -> b = c.
Proof.
  induction a as [|x a IH]; simpl; intros H; [exact H|].
  injection H as H. auto.
Qed.

Lemma append_longer (a b : string) : b <> "" -> (a ++ b)%string <> a.
Proof.
  intros Hb E. apply (f_equal String.length) in E.
  rewrite NestedFacts.length_append in E.
  destruct b; [now elim Hb | simpl in E; lia].
Qed.

Lemma alias_for_inj (d : string) (n m : nat) :
  alias_for n d = alias_for m d -> n = m.
Proof.
  unfold alias_for. destruct n as [|n], m as [|m]; cbn [Nat.eqb]; intros E.
  - reflexivity.
  - symmetry in E. apply append_longer in E; [destruct E | discriminate].
  - apply append_longer in E; [destruct E | discriminate].
  - apply append_inj_l in E. simpl in E. injection E as E.
    apply str_of_nat_inj in E. lia.
Qed.

Lemma numbered_app (a b : list (string * string)) :
  forall seen,
    numbered seen (a ++ b)
    = numbered seen a ++ numbered (rev (map snd a) ++ seen) b.
Proof.
  induction a as [|[key d] a IH]; intros seen; [reflexivity|].
  cbn [app numbered map rev snd]. rewrite IH, <- app_assoc. reflexivity.
Qed.

Lemma numbered_keys (l : list (string * string)) :
  forall seen, map fst (numbered seen l) = map fst l.
Proof.
  induction l as [|[key d] l IH]; intros seen; [reflexivity|].
  cbn [numbered map fst]. now rewrite IH.
Qed.

Lemma find_unique (adds : list (string * string)) (k a : string) :
  NoDup (map fst adds) -> In (k, a) adds ->
  find (fun ka => String.eqb k (fst ka)) (rev adds) = Some (k, a).
Proof.
  intros Hnd Hin.
  destruct (find (fun ka => String.eqb k (fst ka)) (rev adds)) as [[k' a']|] eqn:E.
  - apply find_some in E. destruct E as [Hin' Ek]. cbn [fst] in Ek.
    apply String.eqb_eq in Ek. subst k'. apply in_rev in Hin'.
    f_equal. f_equal. clear - Hnd Hin Hin'.
    induction adds as [|[k0 a0] adds IH]; [destruct Hin|].
    cbn [map fst] in Hnd. inversion Hnd as [|? ? Hout Hnd']; subst.
    destruct Hin as [E | Hin], Hin' as [E' | Hin'].
    + congruence.
    + injection E as -> ->. exfalso. apply Hout.
      apply (in_map fst) in Hin'. exact Hin'.
    + injection E' as -> ->. exfalso. apply Hout.
      apply (in_map fst) in Hin. exact Hin.
    + now apply IH.
  - apply in_rev in Hin. pose proof (find_none _ _ E (k, a) Hin) as H.
    cbn [fst] in H. now rewrite String.eqb_refl in H.
Qed.

End AliasFacts.

(** X21. When the rows of the field mapping file that are not passed over
    have different field keys, two of them with the same description get
    different column names: [translate] never gives their two keys the same
    alias. *)
Theorem same_description_different_alias :
  forall (col_field col_description : string) (rows : list AiData.csv_row)
         (l1 l2 l3 : list (string * string)) (k1 k2 d : string),
    flat_map (accepted col_field col_description) rows
    = l1 ++ (k1, d) :: l2 ++ (k2, d) :: l3 ->
    NoDup (map fst (flat_map (accepted col_field col_description) rows)) ->
    let names := AiData.load_field_name_mapping col_field col_description rows in
    AiData.translate k1 names <> AiData.translate k2 names.
Proof.
  intros cf cd rows l1 l2 l3 k1 k2 d Hacc Hnd names. subst names.
  rewrite LoaderFacts.load_field_name_mapping_numbered.
  set (adds := numbered [] (flat_map (accepted cf cd) rows)).
  assert (Hkeys : NoDup (map fst adds))
    by (unfold adds; now rewrite AliasFacts.numbered_keys).
  assert (Hadds :
    adds
    = numbered [] l1
      ++ (k1, alias_for (count_occ string_dec (rev (map snd l1) ++ []) d) d)
         :: numbered (d :: rev (map snd l1) ++ []) l2
         ++ (k2, alias_for
                   (count_occ string_dec
                      (rev (map snd l2) ++ d :: rev (map snd l1) ++ []) d) d)
            :: numbered (d :: rev (map snd l2) ++ d :: rev (map snd l1) ++ []) l3).
  { unfold adds. rewrite Hacc, AliasFacts.numbered_app. cbn [numbered].
    rewrite AliasFacts.numbered_app. reflexivity. }
  rewrite !RegisterFacts.translate_register.
  rewrite (AliasFacts.find_unique adds k1 _ Hkeys)
    by (rewrite Hadds; apply in_or_app; right; now left).
  rewrite (AliasFacts.find_unique adds k2 _ Hkeys)
    by (rewrite Hadds; apply in_or_app; right; right;
        apply in_or_app; right; now left).
  cbn [snd]. intros E. apply AliasFacts.alias_for_inj in E.
  rewrite (count_occ_app string_dec (rev (map snd l2))) in E.
  rewrite count_occ_cons_eq in E by reflexivity. lia.
Qed.

Lemma same_description_different_alias_witness :
  let rows :=
    [[("field", Some "<bizPrdBgngYmd>"); ("text", Some "Date")];
     [("field", Some "<bizPrdEndYmd>"); ("text", Some "Date")]] in
  let names := AiData.load_field_name_mapping "field" "text" rows in
  AiData.translate "bizPrdBgngYmd" names <> AiData.translate "bizPrdEndYmd" names.
Proof.
  intros rows.
  apply (same_description_different_alias "field" "text" rows
           [] [] [] "bizPrdBgngYmd" "bizPrdEndYmd" "Date").
  - reflexivity.
  - constructor; [|constructor; [intros [] | constructor]].
    intros [H | []]. discriminate H.
Defined.

Module LookupFacts.
Import PyText AiData DictLemmas.

Lemma load_region_rows (rows : list (json * json)) (zip : string) :
  forall lookup,
    get zip (fold_left load_region_row rows lookup)
    = match get zip lookup with
      | Some name => Some name
      | None =>
          option_map (fun row => strip (PyRepr.str_json (snd row)))
            (find (names zip) rows)
      end.
Proof.
  induction rows as [|row rows IH]; intros lookup.
  - simpl. now destruct (get zip lookup).
  - cbn [fold_left find]. rewrite IH. unfold load_region_row, has_key.
    destruct (String.eqb (strip (PyRepr.str_json (fst row))) "") eqn:E1.
    { assert (En : names zip row = false) by (unfold names; now rewrite E1).
      now rewrite En. }
    destruct (String.eqb (strip (PyRepr.str_json (snd row))) "") eqn:E2.
    { assert (En : names zip row = false)
        by (unfold names; now rewrite E1, E2).
      now rewrite En. }
    cbn [orb].
    destruct (String.eqb (strip (PyRepr.str_json (fst row))) zip) eqn:E3.
    + assert (En : names zip row = true)
        by (unfold names; now rewrite E1, E2, E3).
      rewrite En. apply String.eqb_eq in E3. rewrite E3.
      destruct (get zip lookup) as [name|] eqn:Eg; [now rewrite Eg|].
      now rewrite get_set_item, String.eqb_refl.
    + assert (En : names zip row = false)
        by (unfold names; now rewrite E1, E2, E3).
      rewrite En.
      destruct (get (strip (PyRepr.str_json (fst row))) lookup); [reflexivity|].
      rewrite get_set_item, String.eqb_sym, E3. reflexivity.
Qed.

(** Every name of the loaded region lookup is a trimmed text, not empty. *)
Lemma load_region_named (rows : list (json * json)) :
  Forall (fun kv => snd kv <> "" /\ strip (snd kv) = snd kv)
    (load_region_lookup rows).
Proof.
  unfold load_region_lookup.
  assert (H : forall lookup,
             Forall (fun kv : string * string =>
                       snd kv <> "" /\ strip (snd kv) = snd kv) lookup ->
             Forall (fun kv : string * string =>
                       snd kv <> "" /\ strip (snd kv) = snd kv)
               (fold_left load_region_row rows lookup)).
  { induction rows as [|row rows IH]; intros lookup Hl; [exact Hl|].
    cbn [fold_left]. apply IH. unfold load_region_row.
    destruct (String.eqb (strip (PyRepr.str_json (fst row))) ""); [exact Hl|].
    destruct (String.eqb (strip (PyRepr.str_json (snd row))) "") eqn:E2;
      [exact Hl|].
    cbn [orb]. destruct (has_key _ lookup); [exact Hl|].
    apply Forall_set_item; [|exact Hl]. cbn [snd].
    split; [now apply String.eqb_neq | apply TrimFacts.strip_idempotent]. }
  apply H. constructor.
Qed.

Lemma load_value_row_label c1 c2 c3 mappings (row : csv_row) field code :
  label_in (load_value_row c1 c2 c3 mappings row) field code
  = if labels c1 c2 c3 field code row then Some (cell c3 row)
    else label_in mappings field code.
Proof.
  unfold load_value_row, labels.
  destruct (String.eqb (cell c1 row) ""); [reflexivity|].
  destruct (String.eqb (cell c2 row) ""); [reflexivity|].
  destruct (String.eqb (cell c3 row) ""); [reflexivity|].
  cbn [orb negb andb]. unfold label_in at 1. rewrite get_set_item.
  rewrite (String.eqb_sym field).
  destruct (String.eqb (lower (cell c1 row)) field) eqn:E; [|reflexivity].
  apply String.eqb_eq in E. rewrite E. cbn [andb].
  rewrite get_set_item, (String.eqb_sym code).
  destruct (String.eqb (cell c2 row) code); [reflexivity|].
  unfold label_in. now destruct (get field mappings).
Qed.

Lemma load_value_rows_label c1 c2 c3 (rows : list csv_row) field code :
  forall mappings,
    label_in (fold_left (load_value_row c1 c2 c3) rows mappings) field code
    = match find (labels c1 c2 c3 field code) (rev rows) with
      | Some row => Some (cell c3 row)
      | None => label_in mappings field code
      end.
Proof.
  induction rows as [|row rows IH]; intros mappings; [reflexivity|].
  cbn [fold_left rev]. rewrite IH, find_last.
  destruct (find _ (rev rows)); [reflexivity|].
  rewrite load_value_row_label.
  now destruct (labels c1 c2 c3 field code row).
Qed.

Lemma region_items_texts lookup (items : list json) :
  Forall (fun kv : string * string => snd kv <> "" /\ strip (snd kv) = snd kv)
    lookup ->
  forall st texts,
    fst st = map JStr texts ->
    Forall (fun s => s <> "" /\ strip s = s) texts ->
    exists texts',
      fst (fold_left (region_item lookup) items st) = map JStr texts'
      /\ Forall (fun s => s <> "" /\ strip s = s) texts'.
Proof.
  intros Hl. induction items as [|item items IH]; intros st texts E Ht.
  - now exists texts.
  - cbn [fold_left]. unfold region_item at 2, resolve.
    destruct (String.eqb (strip (PyRepr.str_json item)) "") eqn:E1.
    + now apply (IH _ texts).
    + destruct (get (strip (PyRepr.str_json item)) lookup) as [label|] eqn:Eg.
      * apply (IH _ (texts ++ [label])).
        -- cbn [fst]. now rewrite E, map_app.
        -- apply TranslateFacts.Forall_snoc; [exact Ht|].
           apply ListFacts.get_in in Eg. rewrite Forall_forall in Hl.
           exact (Hl _ Eg).
      * apply (IH _ (texts ++ [strip (PyRepr.str_json item)])).
        -- cbn [fst]. now rewrite E, map_app.
        -- apply TranslateFacts.Forall_snoc; [exact Ht|].
           split; [now apply String.eqb_neq | apply TrimFacts.strip_idempotent].
Qed.

End LookupFacts.

(** X22. With the region lookup loaded from the region table, the
    translation of a list of zip codes holds only trimmed texts that are not
    empty: the name of each known code, the trimmed code itself when it is
    not known, nothing for an item that is blank. *)
Theorem translated_regions_are_texts :
  forall (rows : list (json * json)) (items : list json),
    exists texts,
      fst (AiData.translate_region_value (JList items)
             (AiData.load_region_lookup rows))
      = JList (map JStr texts)
      /\ Forall (fun s => s <> "" /\ PyText.strip s = s) texts.
Proof.
  intros rows items. unfold AiData.translate_region_value. cbn [fst].
  destruct (LookupFacts.region_items_texts (AiData.load_region_lookup rows)
              items (LookupFacts.load_region_named rows) ([], []) []
              eq_refl (Forall_nil _)) as [texts [E H]].
  exists texts. now rewrite E.
Qed.

(** X23. The region lookup gives a zip code the name of the first row of the
    region table with that zip code, both trimmed, rows with a blank zip code
    or a blank name passed over; it gives nothing when there is no such
    row. *)
Theorem region_lookup_first_row_wins :
  forall (rows : list (json * json)) (zip : string),
    get zip (AiData.load_region_lookup rows)
    = option_map (fun row => PyText.strip (PyRepr.str_json (snd row)))
        (find (names zip) rows).
Proof.
  intros rows zip. unfold AiData.load_region_lookup.
  now rewrite LookupFacts.load_region_rows.
Qed.

(** X24. The loaded value mappings give a code of a table the label of the
    last row of the mapping file for that table (its name in lower case) and
    that code, rows with a blank cell passed over; they give nothing when
    there is no such row. *)
Theorem value_mappings_last_row_wins :
  forall (col_class col_code col_label : string) (rows : list AiData.csv_row)
         (field code : string),
    match
      get field (AiData.load_value_mappings col_class col_code col_label rows)
    with
    | Some table => get code table
    | None => None
    end
    = option_map (AiData.cell col_label)
        (find (labels col_class col_code col_label field code) (rev rows)).
Proof.
  intros c1 c2 c3 rows field code. unfold AiData.load_value_mappings.
  pose proof (LookupFacts.load_value_rows_label c1 c2 c3 rows field code [])
    as H.
  unfold label_in in H at 1. rewrite H.
  now destruct (find _ (rev rows)).
Qed.

(** ** The field text of find_diff_1.py *)

Module BracketFacts.
Import PyText TextFacts.

Lemma replace_aux_skip (old new u v : string) :
  replace_aux old new (String.length u) (u ++ v) = replace_aux old new 0 v.
Proof.
  induction u as [|c u IH]; [reflexivity|].
  cbn [String.length append replace_aux]. exact IH.
Qed.

Lemma prefix_self (a b : string) : prefix a (a ++ b) = true.
Proof.
  induction a as [|c a IH]; [now destruct b|].
  cbn [append prefix]. destruct (ascii_dec c c) as [_ | N]; [exact IH|].
  now elim N.
Qed.

Lemma prefix_append (a b s : string) :
  prefix (a ++ b) s = true -> prefix a s = true.
Proof.
  revert s. induction a as [|c a IH]; intros s H.
  - now destruct s.
  - destruct s as [|d s]; [discriminate H|].
    cbn [append prefix] in H |- *.
    destruct (ascii_dec c d); [now apply IH | discriminate H].
Qed.

Lemma occurs_append (a b s : string) :
  occurs a s = false -> occurs (a ++ b) s = false.
Proof.
  induction s as [|d s IH]; cbn [occurs]; intros H;
    apply Bool.orb_false_iff in H; destruct H as [Hp Hs];
    apply Bool.orb_false_iff; (split; [|auto]).
  - destruct (prefix (a ++ b) "") eqn:E; [|reflexivity].
    apply prefix_append in E. congruence.
  - destruct (prefix (a ++ b) (String d s)) eqn:E; [|reflexivity].
    apply prefix_append in E. congruence.
Qed.

(** Nothing is replaced in a text where what is looked for does not
    occur. *)
Lemma replace_no_occurrence (old new s : string) :
  occurs old s = false -> replace_aux old new 0 s = s.
Proof.
  induction s as [|d s IH]; [reflexivity|].
  cbn [occurs]. intros H. apply Bool.orb_false_iff in H.
  destruct H as [Hp Hs]. cbn [replace_aux]. rewrite Hp. now rewrite (IH Hs).
Qed.

Lemma rstrip_bracket (s : string) : rstrip (s ++ "]") = (s ++ "]")%string.
Proof.
  induction s as [|c s IH]; [reflexivity|].
  cbn [append rstrip]. rewrite IH.
  destruct (s ++ "]")%string eqn:E; [|reflexivity].
  destruct s; discriminate E.
Qed.

Lemma seg_str_brackets (s : DeepDiffLib.seg) :
  exists y, DeepDiffLib.seg_str s = String "[" (y ++ "]").
Proof. destruct s as [k | i]; simpl; eauto. Qed.

Lemma body_brackets (q : DeepDiffLib.path) :
  q <> [] ->
  exists y, String.concat "" (map DeepDiffLib.seg_str q) = String "[" (y ++ "]").
Proof.
  induction q as [|s q IH]; intros Hne; [now elim Hne|].
  cbn [map]. rewrite concat_empty_cons.
  destruct (seg_str_brackets s) as [y Ey]. rewrite Ey.
  destruct q as [|s' q].
  - exists y. simpl. now rewrite append_nil_r.
  - destruct IH as [z Ez]; [discriminate|]. rewrite Ez.
    exists (y ++ "]" ++ String "[" z)%string.
    cbn [append]. f_equal. rewrite !append_assoc. reflexivity.
Qed.

Lemma strip_body (q : DeepDiffLib.path) :
  strip (String.concat "" (map DeepDiffLib.seg_str q))
  = String.concat "" (map DeepDiffLib.seg_str q).
Proof.
  destruct q as [|s q]; [reflexivity|].
  destruct (body_brackets (s :: q)) as [y ->]; [discriminate|].
  unfold strip. cbn [lstrip].
  change (is_space "[") with false. cbv iota.
  change (String "[" (y ++ "]")) with (String "[" y ++ "]")%string.
  apply rstrip_bracket.
Qed.

End BracketFacts.

(** X25. find_diff_1.py keeps the bracket notation: for a path below
    raw_json, its field is the rest of the path as the library prints it,
    [['a']['b'][0]], as long as the text "root" does not occur in that
    rest. *)
Theorem field_v1_keeps_brackets :
  forall q : DeepDiffLib.path,
    occurs "root" (String.concat "" (map DeepDiffLib.seg_str q)) = false ->
    field_of_path_v1 (DeepDiffLib.path_str (DeepDiffLib.Key "raw_json" :: q))
    = String.concat "" (map DeepDiffLib.seg_str q).
Proof.
  intros q Hocc. unfold field_of_path_v1, DeepDiffLib.path_str.
  cbn [map]. rewrite TextFacts.concat_empty_cons.
  set (body := String.concat "" (map DeepDiffLib.seg_str q)) in *.
  assert (E1 : PyText.replace "root['raw_json']" ""
                 ("root" ++ DeepDiffLib.seg_str (DeepDiffLib.Key "raw_json") ++ body)
               = body).
  { change ("root" ++ DeepDiffLib.seg_str (DeepDiffLib.Key "raw_json") ++ body)%string
      with (String "r" ("oot['raw_json']" ++ body)).
    unfold PyText.replace. cbn [PyText.replace_aux].
    change (String "r" ("oot['raw_json']" ++ body))
      with ("root['raw_json']" ++ body)%string.
    rewrite BracketFacts.prefix_self.
    change (String.length "root['raw_json']" - 1)
      with (String.length "oot['raw_json']").
    rewrite BracketFacts.replace_aux_skip. cbn [append].
    apply BracketFacts.replace_no_occurrence.
    apply (BracketFacts.occurs_append "root" "['raw_json']"). exact Hocc. }
  rewrite E1. unfold PyText.replace.
  rewrite (BracketFacts.replace_no_occurrence "root" "" body Hocc).
  apply BracketFacts.strip_body.
Qed.

Lemma field_v1_keeps_brackets_witness :
  let Key := DeepDiffLib.Key in
  let Idx := DeepDiffLib.Idx in
  field_of_path_v1
    (DeepDiffLib.path_str [Key "raw_json"; Key "tags"; Idx 0; Key "name"])
  = String.concat ""
      (map DeepDiffLib.seg_str [Key "tags"; Idx 0; Key "name"]).
Proof.
  intros Key Idx.
  apply (field_v1_keeps_brackets [Key "tags"; Idx 0; Key "name"]).
  reflexivity.
Defined.

(** ** The codes reported at the end of the run *)

(** X26. Every code the tracker holds under a field after [transform_policy]
    ran on a new tracker was missing for an entry of the payload with that
    key: a trimmed text, not empty, without a name in the region lookup when
    the key is zipCd in any case, without a label in the table of the key
    otherwise. *)
Theorem tracked_codes_are_missing :
  forall (id_header policy_id : string) (payload : list (string * json))
         (field_names : AiData.FieldNameResolver)
         (value_mappings : list (string * list (string * string)))
         (region_lookup : list (string * string)) (limit : nat)
         (field : string) (codes : list string) (c : string),
    In (field, codes)
      (AiData._data
         (snd (AiData.transform_policy id_header policy_id payload field_names
                 value_mappings region_lookup (AiData.new_tracker limit)))) ->
    In c codes ->
    (exists value, In (field, value) payload)
    /\ if String.eqb (AiData.lower field) "zipcd"
       then unlabelled region_lookup c
       else exists table,
              table_of field value_mappings = Some table /\ unlabelled table c.
Proof.
  intros id_header policy_id payload fn M L limit field codes c H Hc.
  unfold AiData.transform_policy in H.
  destruct (CsvFacts.transform_tracker fn M L payload _ field codes c H Hc)
    as [[value [code [Hin [Hcode ->]]]] | [cs0 [[] _]]].
  split; [now exists value|].
  unfold translation in Hcode.
  destruct (String.eqb (AiData.lower field) "zipcd").
  - pose proof (TranslateFacts.region_missing _ _ _ Hcode) as Hu.
    destruct Hu as [Hne [Hs Hg]]. rewrite Hs. now repeat split.
  - destruct (TranslateFacts.code_missing _ _ _ _ Hcode) as [table [Ht Hu]].
    exists table. split; [exact Ht|].
    destruct Hu as [Hne [Hs Hg]]. rewrite Hs. now repeat split.
Qed.

Lemma tracked_codes_are_missing_witness :
  (exists value, In ("zipCd", value) [("zipCd", JStr "11000, 99000")])
  /\ unlabelled [("11000", "Seoul")] "99000".
Proof.
  apply (tracked_codes_are_missing "id" "P001"
           [("zipCd", JStr "11000, 99000")] AiData.new_resolver []
           [("11000", "Seoul")] 5 "zipCd" ["99000"] "99000").
  - left. reflexivity.
  - left. reflexivity.
Defined.

(** ** Worked examples *)

(** The end-to-end scenario of the specification. *)
Example end_to_end :
  forall pairing,
    let records :=
      [[("status", VJson (JStr "open")); ("note", VJson (JStr "a"));
        ("lastMdfcnDt", VJson (JStr "2024-01-01"))];
       [("status", VJson (JStr "closed")); ("note", VJson (JStr "a"));
        ("lastMdfcnDt", VJson (JStr "2024-02-01"))]] in
    let rows :=
      [mkRow "P001" 2 "status" (Cell (VJson (JStr "open")))
         (Cell (VJson (JStr "closed"))) (Some "2024-01-01") (Some "2024-02-01")] in
    change_log pairing 0 1 "P001" records = rows
    /\ change_log pairing 33 67 "P001" records = rows.
Proof. intros. split; reflexivity. Qed.

(** Two snapshots that share too few keys are reported as one changed value
    at the root when the threshold is a third; its field is the empty
    text. *)
Example root_changed :
  map field
    (change_log no_pairs 33 67 "P001"
       [[("a", VJson (JInt 1)); ("b", VJson (JInt 1)); ("c", VJson (JInt 1))];
        [("d", VJson (JInt 1)); ("e", VJson (JInt 1)); ("a", VJson (JInt 2));
         ("f", VJson (JInt 2))]])
  = [""].
Proof. reflexivity. Qed.

Example ptf1 : path_to_field "root['raw_json']['a']['b']" = "a.b".
Proof. reflexivity. Qed.
Example ptf2 : path_to_field "root['raw_json']" = "root".
Proof. reflexivity. Qed.
Example ptf3 : path_to_field "root['tags'][1]" = "tags".
Proof. reflexivity. Qed.
Example ptf4 : path_to_field "root" = "".
Proof. reflexivity. Qed.
Example ptf5 : path_to_field "root[0]" = "[0]".
Proof. reflexivity. Qed.
Example ptf6 : field_of_path_v1 "root['raw_json']['a']['b']" = "['a']['b']".
Proof. reflexivity. Qed.
Example ptf7 : PyText.strip "  a b  " = "a b".
Proof. reflexivity. Qed.
Example ptf8 : PyText.pad 4 33 = "0033".
Proof. reflexivity. Qed.
Example ptf9 : PyText.str_of_Z (-12) = "-12".
Proof. reflexivity. Qed.
Example pcd1 :
  pick_change_dt [("lastMdfcnDt", VJson (JStr " 2024-01-01 "))] = Some "2024-01-01".
Proof. reflexivity. Qed.
Example pcd2 :
  pick_change_dt [("lastMdfcnDt", VJson (JStr "")); ("ingested_at", VJson (JStr ""))] = Some "".
Proof. reflexivity. Qed.
Example pcd3 :
  pick_change_dt [("ingested_at", VTimestamp (mkTimestamp (mkDatetime 2024 1 2 3 4 5 0) 7))]
  = Some "2024-01-02T03:04:05".
Proof. reflexivity. Qed.
Example pcd4 :
  pick_change_dt [("ingested_at", VDatetime (mkDatetime 2024 1 2 3 4 5 60))]
  = Some "2024-01-02T03:04:05.000060".
Proof. reflexivity. Qed.
